(** * TissueMap / ImmunoViewer server: request handlers of [server/server.py]

    A shallow embedding of the FastAPI handlers of [server/server.py] and of
    the Python built-ins and operating-system calls they rely on, followed by
    the properties of the handlers.

    Strings are byte strings ([string]): a text ([str]) is held as its
    UTF-8 encoding, and a file name that is not valid UTF-8 stands for the
    text with lone surrogates that [os.fsdecode] makes of it.  File contents
    are [list byte]; Python [int] is [Z]; floating-point arithmetic is left
    to the interpreter.  The file system is a finite map from path strings
    to nodes, a path being the string the handler passes to the call (the
    kernel's resolution of [..], of doubled slashes and of links is not
    modelled); the handlers run in a state-and-exception monad over it, and
    every call they make is recorded in a trace.  Requests are served one at
    a time.  The [print] calls of the handlers are left out: the standard
    output is taken to accept every text. *)

From Stdlib Require Import ZArith Ascii String.
From Stdlib.Strings Require Import Byte.
From stdpp Require Import gmap strings list pretty.

Local Open Scope Z_scope.

(** ** The interpreter's Unicode database

    Before it parses a text that has a character outside ASCII, [int] maps
    the decimal digits and the white space of every script to their ASCII
    counterparts, and any other such character to [?], cutting the text
    there ([_PyUnicode_TransformDecimalAndSpaceToASCII]).  The tables belong
    to the interpreter. *)

Class Unicode := {
  decimal_and_space_to_ascii : string -> string
}.

(** ** Python built-ins used by the handlers *)

Module Py.

Definition chars (s : string) : list ascii := String.list_ascii_of_string s.

(** [str.lower], on the ASCII letters. *)
Definition lower_char (c : ascii) : ascii :=
  let n := nat_of_ascii c in
  if ((65 <=? n) && (n <=? 90))%nat then ascii_of_nat (n + 32) else c.

Fixpoint lower (s : string) : string :=
  match s with
  | EmptyString => EmptyString
  | String c r => String (lower_char c) (lower r)
  end.

(** [s.endswith(suf)] *)
Definition endswith (s suf : string) : bool :=
  bool_decide (chars suf `suffix_of` chars s).

(** [s.split(sep)] for a one-character separator. *)
Fixpoint split (sep : ascii) (s : string) : list string :=
  match s with
  | EmptyString => [EmptyString]
  | String c r =>
      if Ascii.eqb c sep then EmptyString :: split sep r
      else match split sep r with
           | h :: t => String c h :: t
           | [] => [String c EmptyString]
           end
  end.

(** [s[:-n]] *)
Definition drop_last (n : nat) (s : string) : string :=
  String.substring 0 (String.length s - n) s.

(** The bytes of a string, as numbers. *)
Definition codes (s : string) : list N := N_of_ascii <$> chars s.

Definition of_codes (l : list N) : string :=
  String.string_of_list_ascii (ascii_of_N <$> l).

Definition between (lo hi b : N) : bool := ((lo <=? b) && (b <=? hi))%N.

(** The text has no character outside ASCII. *)
Definition is_ascii (s : string) : bool := forallb (fun b => b <? 128)%N (codes s).

(** A continuation byte of UTF-8. *)
Definition continuation (b : N) : bool := between 128 191 b.

(** [s.encode("utf-8")] succeeds: the bytes are well-formed UTF-8 (no
    stray or missing continuation byte, no overlong form, no surrogate,
    nothing above U+10FFFF), so the text has no lone surrogate. *)
Fixpoint utf8_valid_codes (l : list N) : bool :=
  match l with
  | [] => true
  | b0 :: r0 =>
      if (b0 <? 128)%N then utf8_valid_codes r0
      else
        match r0 with
        | [] => false
        | b1 :: r1 =>
            if between 194 223 b0 then continuation b1 && utf8_valid_codes r1
            else
              match r1 with
              | [] => false
              | b2 :: r2 =>
                  if (b0 =? 224)%N then
                    between 160 191 b1 && continuation b2 && utf8_valid_codes r2
                  else if between 225 236 b0 || between 238 239 b0 then
                    continuation b1 && continuation b2 && utf8_valid_codes r2
                  else if (b0 =? 237)%N then
                    between 128 159 b1 && continuation b2 && utf8_valid_codes r2
                  else
                    match r2 with
                    | [] => false
                    | b3 :: r3 =>
                        if (b0 =? 240)%N then
                          between 144 191 b1 && continuation b2 && continuation b3
                          && utf8_valid_codes r3
                        else if between 241 243 b0 then
                          continuation b1 && continuation b2 && continuation b3
                          && utf8_valid_codes r3
                        else if (b0 =? 244)%N then
                          between 128 143 b1 && continuation b2 && continuation b3
                          && utf8_valid_codes r3
                        else false
                    end
              end
        end
  end.

Definition utf8_valid (s : string) : bool := utf8_valid_codes (codes s).

(** The white-space character the bytes begin with, as its length in
    bytes; 0 when they begin with none.  White space is what [str.split()]
    takes for it ([Py_UNICODE_ISSPACE]): U+0009 to U+000D, U+001C to U+0020,
    U+0085, U+00A0, U+1680, U+2000 to U+200A, U+2028, U+2029, U+202F, U+205F
    and U+3000. *)
Definition space_width (l : list N) : nat :=
  match l with
  | [] => 0
  | b0 :: r0 =>
      if between 9 13 b0 || between 28 32 b0 then 1
      else
        match r0 with
        | [] => 0
        | b1 :: r1 =>
            if (b0 =? 194)%N && ((b1 =? 133)%N || (b1 =? 160)%N) then 2
            else
              match r1 with
              | [] => 0
              | b2 :: _ =>
                  if (b0 =? 225)%N && (b1 =? 154)%N && (b2 =? 128)%N then 3
                  else if (b0 =? 226)%N && (b1 =? 128)%N
                          && (between 128 138 b2 || between 168 169 b2 || (b2 =? 175)%N)
                  then 3
                  else if (b0 =? 226)%N && (b1 =? 129)%N && (b2 =? 159)%N then 3
                  else if (b0 =? 227)%N && (b1 =? 128)%N && (b2 =? 128)%N then 3
                  else 0
              end
        end
  end%nat.

(** The words of the bytes: [skip] bytes of a white-space character are
    still to be passed over, and [word] holds, reversed, the bytes of the
    word being read. *)
Fixpoint words_of (l : list N) (skip : nat) (word : list N) : list (list N) :=
  let close := match word with [] => [] | _ => [rev word] end in
  match l with
  | [] => close
  | b :: r =>
      match skip with
      | S k => words_of r k word
      | O =>
          match space_width l with
          | O => words_of r 0 (b :: word)
          | S k => close ++ words_of r k []
          end
      end
  end.

(** [s.split()]: the words between runs of white space. *)
Definition split_whitespace (s : string) : list string :=
  of_codes <$> words_of (codes s) 0 [].

(** White space as the integer parser sees it ([Py_ISSPACE]): the blank
    and U+0009 to U+000D. *)
Definition is_space (c : ascii) : bool :=
  let n := nat_of_ascii c in
  (((9 <=? n) && (n <=? 13)) || (n =? 32))%nat.

Fixpoint lstrip (s : string) : string :=
  match s with
  | String c r => if is_space c then lstrip r else s
  | EmptyString => EmptyString
  end.

Definition strip (s : string) : string :=
  String.rev (lstrip (String.rev (lstrip s))).

(** The digits of an integer literal: decimal digits, with single
    underscores allowed between two digits. *)
Fixpoint int_digits (acc : Z) (after_digit : bool) (s : string) : option Z :=
  match s with
  | EmptyString => if after_digit then Some acc else None
  | String c r =>
      match Ascii.is_nat c with
      | Some d => int_digits (10 * acc + Z.of_nat d) true r
      | None =>
          if Ascii.eqb c "_" && after_digit then int_digits acc false r
          else None
      end
  end.

Definition digit_count (s : string) : nat :=
  length (List.filter (fun c => match Ascii.is_nat c with Some _ => true | None => false end)
            (chars s)).

(** [sys.int_info.default_max_str_digits] *)
Definition int_max_str_digits : Z := 4300.

(** [int(s)] for an ASCII text, [None] standing for [ValueError]: white
    space around, an optional sign, the digits; a literal of more than
    [int_max_str_digits] digits is refused. *)
Definition int_ascii (s : string) : option Z :=
  let t := strip s in
  let literal := match t with String "+" r | String "-" r => r | _ => t end in
  if int_max_str_digits <? Z.of_nat (digit_count literal) then None
  else
    match t with
    | String "+" r => int_digits 0 false r
    | String "-" r => Z.opp <$> int_digits 0 false r
    | _ => int_digits 0 false t
    end.

Section Int.
Context `{Unicode}.

(** [int(s)]: an ASCII text is parsed as it is, any other after the
    interpreter has mapped its digits and white space to ASCII. *)
Definition int (s : string) : option Z :=
  int_ascii (if is_ascii s then s else decimal_and_space_to_ascii s).

End Int.

(** [str(n)] and the [{n}] of an f-string, for an [int]. *)
Definition str (n : Z) : string := pretty n.

End Py.

(** ** [os.path] (posixpath) *)

Module OsPath.

Definition join (a b : string) : string :=
  if String.prefix "/" b then b
  else if bool_decide (a = "") || Py.endswith a "/" then a +:+ b
  else a +:+ "/" +:+ b.

(** [rstrip('/')] on the reversed string. *)
Fixpoint drop_slashes (s : string) : string :=
  match s with
  | String "/" r => drop_slashes r
  | _ => s
  end.

(** The reversed head of a reversed path: everything after its first
    slash, the slash included. *)
Fixpoint rev_head (s : string) : string :=
  match s with
  | EmptyString => EmptyString
  | String "/" _ => s
  | String _ r => rev_head r
  end.

(** [os.path.dirname]: the part up to the last slash, without its
    trailing slashes unless it consists of slashes only. *)
Definition dirname (p : string) : string :=
  let h := rev_head (String.rev p) in
  match drop_slashes h with
  | EmptyString => h
  | h' => String.rev h'
  end.

End OsPath.

(** ** [pathlib] (pure POSIX paths) *)

Module Pathlib.

(** The root of a path and what follows it: exactly two leading slashes
    make a root of their own, any other number of them is one slash. *)
Definition splitroot (p : string) : string * string :=
  match p with
  | String "/" r1 =>
      match r1 with
      | String "/" r2 =>
          match r2 with
          | String "/" _ => ("/", r1)
          | _ => ("//", r2)
          end
      | _ => ("/", r1)
      end
  | _ => ("", p)
  end.

(** The components of a path: the pieces between slashes, the empty
    pieces and [.] left out. *)
Definition components (rel : string) : list string :=
  List.filter (fun x => negb (bool_decide (x = "") || bool_decide (x = ".")))
    (Py.split "/" rel).

(** ['/'.join(parts)] *)
Fixpoint join_parts (parts : list string) : string :=
  match parts with
  | [] => ""
  | [x] => x
  | x :: rest => x +:+ "/" +:+ join_parts rest
  end.

(** [str(PurePosixPath(p))], the string [open] receives for the path. *)
Definition fspath (p : string) : string :=
  let '(root, rel) := splitroot p in
  match root +:+ join_parts (components rel) with
  | "" => "."
  | s => s
  end.

(** [a / b / c]: the segments are joined as [os.path.join] joins them and
    the result is taken apart into root and components. *)
Definition truediv (a b : string) : string := fspath (OsPath.join a b).

End Pathlib.

(** ** Configuration: the [Settings] class *)

Record Settings := {
  SLIDE_DIR : string;
  IMPORT_DIR : string;
  TMP_DIR : string;
  DU_LOC : string;
  RM_LOC : string;
  SAVE : bool;
  COLORS : list string
}.

Definition default_settings : Settings := {|
  SLIDE_DIR := "/iv-store";
  IMPORT_DIR := "/iv-import";
  TMP_DIR := "/tmp";
  DU_LOC := "/usr/bin/du";
  RM_LOC := "/usr/bin/rm";
  SAVE := false;
  COLORS := ["red"; "green"; "blue"; "yellow"; "magenta"; "cyan"; "white"]
|}.

(** ** The file system and the operating-system calls *)

Inductive node :=
  | File (data : list byte)
  | Dir.

(** Every operating-system call a handler makes is recorded. *)
Inductive event :=
  | EvExists (p : string)
  | EvIsDir (p : string)
  | EvOpenW (p : string)
  | EvOpenR (p : string)
  | EvRemove (p : string)
  | EvMkdir (p : string)
  | EvScan (p : string)
  | EvSubprocess (argv : list string).

Global Instance event_eq_dec : EqDecision event.
Proof. solve_decision. Defined.

(** How a run of the delete utility on a path goes: it cannot be started
    (the executable is missing), or it runs, leaving the nodes it cannot
    remove, and its captured output is text or not. *)
Inductive rm_outcome :=
  | RmNotStarted
  | RmRan (leaves : string -> bool) (output_is_text : bool).

(** The world a request runs in: the nodes of the file system by path, the
    order in which the kernel enumerates a directory, what the disk-usage
    utility prints as text ([None] when it cannot be started or prints
    something that is not text), how the delete utility goes, and the calls
    made so far. *)
Record world := World {
  fs : gmap string node;
  readdir : string -> list string;
  du_stdout : string -> option string;
  rm_run : string -> rm_outcome;
  trace : list event
}.

(** The exceptions raised; [RenderError] stands for what [JSONResponse]
    raises on a content it cannot render (a [ValueError], a [TypeError] or a
    [UnicodeEncodeError]), [ReaderError] and [EncodeError] for what the
    connector and the image encoder raise. *)
Inductive exn :=
  | HTTPException (status : Z) (detail : string)
  | FileNotFoundError
  | FileExistsError
  | IsADirectoryError
  | NotADirectoryError
  | ValueError
  | IndexError
  | RecursionError
  | JSONDecodeError
  | ReaderError
  | EncodeError
  | UnicodeDecodeError
  | OverflowError
  | RenderError.

(** State and exceptions: a raised exception keeps the state reached. *)
Definition M (A : Type) : Type := world -> (exn + A) * world.

Global Instance M_ret : MRet M := fun A (a : A) w => (inr a, w).
Global Instance M_bind : MBind M := fun A B (f : A -> M B) (m : M A) w =>
  match m w with
  | (inl e, w') => (inl e, w')
  | (inr a, w') => f a w'
  end.

Definition raise {A} (e : exn) : M A := fun w => (inl e, w).

(** [try: m except: h] with a bare [except]. *)
Definition try_except {A} (m : M A) (h : M A) : M A := fun w =>
  match m w with
  | (inl _, w') => h w'
  | r => r
  end.

Definition add_event (e : event) (w : world) : world :=
  World (fs w) (readdir w) (du_stdout w) (rm_run w) (trace w ++ [e]).

Definition set_fs (f : gmap string node) (w : world) : world :=
  World f (readdir w) (du_stdout w) (rm_run w) (trace w).

Definition log (e : event) : M unit := fun w => (inr tt, add_event e w).

Definition get_world : M world := fun w => (inr w, w).

Definition get_fs : M (gmap string node) := fun w => (inr (fs w), w).

Definition put_fs (f : gmap string node) : M unit := fun w => (inr tt, set_fs f w).

Module Os.

(** [os.path.exists] *)
Definition path_exists (p : string) : M bool :=
  log (EvExists p) ;; f ← get_fs; mret (bool_decide (is_Some (f !! p))).

(** [os.path.isdir], [DirEntry.is_dir] *)
Definition isdir (p : string) : M bool :=
  log (EvIsDir p) ;; f ← get_fs;
  mret (match f !! p with Some Dir => true | _ => false end).

(** [open(p, "wb")] and [open(p, "w")]: the file is created or truncated. *)
Definition open_w (p : string) : M unit :=
  log (EvOpenW p) ;; f ← get_fs;
  match f !! p with
  | Some Dir => raise IsADirectoryError
  | _ =>
      match f !! OsPath.dirname p with
      | Some Dir => put_fs (<[p := File []]> f)
      | Some (File _) => raise NotADirectoryError
      | None => raise FileNotFoundError
      end
  end.

(** [buffer.write(data)] on a file opened at [p]: the data is appended;
    nothing shows if the file has been unlinked meanwhile. *)
Definition write (p : string) (data : list byte) : M unit :=
  f ← get_fs;
  put_fs (alter (fun n => match n with File c => File (c ++ data) | Dir => Dir end) p f).

(** [open(p, "rb")] or [open(p, "r")] followed by [read()]. *)
Definition read_file (p : string) : M (list byte) :=
  log (EvOpenR p) ;; f ← get_fs;
  match f !! p with
  | Some (File c) => mret c
  | Some Dir => raise IsADirectoryError
  | None => raise FileNotFoundError
  end.

(** [os.remove] *)
Definition remove (p : string) : M unit :=
  log (EvRemove p) ;; f ← get_fs;
  match f !! p with
  | Some (File _) => put_fs (delete p f)
  | Some Dir => raise IsADirectoryError
  | None => raise FileNotFoundError
  end.

(** [os.mkdir] *)
Definition mkdir (p : string) : M unit :=
  log (EvMkdir p) ;; f ← get_fs;
  match f !! p with
  | Some _ => raise FileExistsError
  | None =>
      match f !! OsPath.dirname p with
      | Some Dir => put_fs (<[p := Dir]> f)
      | Some (File _) => raise NotADirectoryError
      | None => raise FileNotFoundError
      end
  end.

(** [os.path.basename] *)
Fixpoint rev_tail (s : string) : string :=
  match s with
  | EmptyString => EmptyString
  | String "/" _ => EmptyString
  | String c r => String c (rev_tail r)
  end.

Definition basename (p : string) : string := String.rev (rev_tail (String.rev p)).

(** [try: m except FileExistsError: pass] *)
Definition pass_file_exists (m : M unit) : M unit := fun w =>
  match m w with
  | (inl FileExistsError, w') => (inr tt, w')
  | r => r
  end.

(** [os.makedirs(p)] with [exist_ok=False]: when the head of [p] is
    missing it is made first (a [FileExistsError] there is passed over) and,
    if the tail is [.], that is all; then [p] itself is made.  The fuel
    bounds the recursion on the head, which is shorter than [p]. *)
Fixpoint makedirs_go (fuel : nat) (p : string) : M unit :=
  match fuel with
  | O => raise RecursionError
  | S fuel' =>
      let '(head, tail) :=
        if bool_decide (basename p = "")
        then (OsPath.dirname (OsPath.dirname p), basename (OsPath.dirname p))
        else (OsPath.dirname p, basename p) in
      if bool_decide (head ≠ "") && bool_decide (tail ≠ "") then
        found ← path_exists head;
        if found : bool then mkdir p
        else
          pass_file_exists (makedirs_go fuel' head) ;;
          if bool_decide (tail = ".") then mret tt else mkdir p
      else mkdir p
  end.

Definition makedirs (p : string) : M unit := makedirs_go (S (String.length p)) p.

(** [os.listdir], [os.scandir]: the names in the kernel's order. *)
Definition listdir (p : string) : M (list string) :=
  log (EvScan p) ;; f ← get_fs;
  match f !! p with
  | Some Dir => w ← get_world; mret (readdir w p)
  | Some (File _) => raise NotADirectoryError
  | None => raise FileNotFoundError
  end.

(** [rm -rf p]: [p] and everything below it goes, but for the nodes the
    utility cannot remove. *)
Definition rm_rf (leaves : string -> bool) (p : string) (f : gmap string node)
    : gmap string node :=
  filter (fun kv : string * node =>
            ¬ (kv.1 = p ∨ String.prefix (p +:+ "/") kv.1 = true) ∨ leaves kv.1 = true) f.

(** [subprocess.run([rm, "-rf", p], capture_output=True, text=True)]: the
    call raises when the utility cannot be started and when what it has
    printed is not text; its exit status is not looked at. *)
Definition run_rm (rm : string) (p : string) : M unit :=
  log (EvSubprocess [rm; "-rf"; p]) ;; w ← get_world;
  match rm_run w p with
  | RmNotStarted => raise FileNotFoundError
  | RmRan leaves output_is_text =>
      put_fs (rm_rf leaves p (fs w)) ;;
      if output_is_text then mret tt else raise UnicodeDecodeError
  end.

(** [subprocess.run([du, "-s", p], capture_output=True, text=True).stdout] *)
Definition run_du (du : string) (p : string) : M string :=
  log (EvSubprocess [du; "-s"; p]) ;; w ← get_world;
  match du_stdout w p with
  | Some out => mret out
  | None => raise FileNotFoundError
  end.

End Os.

(** ** External collaborators

    The OME-Zarr connector, the JPEG encoder, the JSON codec, the
    interpreter's floating-point arithmetic and [os.path.abspath] are
    called, never re-implemented.  A constructor or method answering [None]
    raises.

    [json_loads] is [json.load] on a file opened as text.  [request_json]
    is [Request.json()], which is [json.loads] on the bytes of the body:
    it returns the value or the exception raised, [JSONDecodeError] for a
    text that is not JSON, another one (a [UnicodeDecodeError]) for bytes
    that are no text.  [renders_details] and [renders_metadata] tell whether
    [JSONResponse] can render a value, which it does with
    [json.dumps(allow_nan=False)] followed by [encode("utf-8")].
    [true_div] is [/] on two integers, [None] standing for [OverflowError],
    and [round_ndigits] is [round(x, n)]. *)

Class Collaborators := {
  unicode :: Unicode;
  Metadata : Type;
  Json : Type;
  Raster : Type;
  Connector : Type;
  Float : Type;
  OmeZarrConnector : string -> option Connector;
  metadata : Connector -> Metadata;
  generate_dzi : Connector -> Z -> option (list byte);
  get_combined_image :
    Connector -> Z -> Z -> list Z -> list Z -> list string -> bool -> Z -> Z -> option Raster;
  encode_jpeg : Raster -> option (list byte);
  json_loads : list byte -> option Json;
  json_dumps : Json -> list byte;
  json_empty : Json;
  request_json : list byte -> exn + Json;
  renders_details : Json -> bool;
  renders_metadata : Metadata -> bool;
  true_div : Z -> Z -> option Float;
  round_ndigits : Float -> Z -> Float;
  abspath : string -> string
}.

(** A collaborator's answer, [None] raising [e]. *)
Definition lift {A} (e : exn) (o : option A) : M A :=
  match o with
  | Some a => mret a
  | None => raise e
  end.

(** ** Responses and handlers *)

Section Handlers.
Context `{Collaborators}.

(** An entry of the catalog: the [dataset_info] dictionary. *)
Record dataset := {
  name : string;
  details : Json;
  ds_metadata : Metadata
}.

(** The bodies the handlers send: [{"message": m}], [{"detail": d}], plain
    text, the catalog, the sample statistics with [dataUsed] an integer or
    a float, and raw content with its media type. *)
Inductive content :=
  | Message (m : string)
  | Detail (d : string)
  | PlainText (s : string)
  | Catalog (samples : list dataset) (save : bool) (colors : list string)
  | Stats (samples : list string) (data_used : Z)
  | StatsGb (samples : list string) (data_used_gb : Float)
  | Media (media_type : string) (data : list byte).

Record response := Response {
  status_code : Z;
  body : content
}.

(** What the client receives: a returned response as it is, an
    [HTTPException] as its status and detail, any other exception as
    500 Internal Server Error. *)
Definition serve (m : M response) (w : world) : response * world :=
  match m w with
  | (inr r, w') => (r, w')
  | (inl (HTTPException s d), w') => (Response s (Detail d), w')
  | (inl _, w') => (Response 500 (PlainText "Internal Server Error"), w')
  end.

(** [JSONResponse] renders its content when it is built.  Of a catalog
    entry the name must be encodable and the details and the metadata
    renderable; of the sample statistics, every name.  The bodies made of
    constants and of the configured palette render. *)
Definition dataset_renders (d : dataset) : bool :=
  Py.utf8_valid (name d) && renders_details (details d)
  && renders_metadata (ds_metadata d).

Definition renders (c : content) : bool :=
  match c with
  | Catalog samples _ _ => forallb dataset_renders samples
  | Stats samples _ | StatsGb samples _ => forallb Py.utf8_valid samples
  | _ => true
  end.

(** [JSONResponse(content, status_code)] *)
Definition JSONResponse (c : content) (status_code : Z) : M response :=
  if renders c then mret (Response status_code c) else raise RenderError.

Variable settings : Settings.

(** *** [find_zarr_datasets] and [GET /samples.json] *)

Fixpoint scan_entries (base_dir : string) (entries : list string)
    (zarr_datasets : list dataset) : M (list dataset) :=
  match entries with
  | [] => mret zarr_datasets
  | entry_name :: rest =>
      let entry_path := OsPath.join base_dir entry_name in
      is_dir ← Os.isdir entry_path;
      if (is_dir : bool) && Py.endswith entry_name ".zarr" then
        ome_connection ← lift ReaderError (OmeZarrConnector entry_path);
        let sample_json_path := OsPath.join entry_path "sample.json" in
        found ← Os.path_exists sample_json_path;
        dt ← (if found : bool
              then raw ← Os.read_file sample_json_path;
                   lift JSONDecodeError (json_loads raw)
              else mret json_empty);
        scan_entries base_dir rest
          (zarr_datasets ++
             [{| name := Py.drop_last 5 entry_name;
                 details := dt;
                 ds_metadata := metadata ome_connection |}])
      else scan_entries base_dir rest zarr_datasets
  end.

Definition find_zarr_datasets (base_dir : string) : M (list dataset) :=
  entries ← Os.listdir base_dir;
  scan_entries base_dir entries [].

Definition samples (location : string) : M response :=
  let search_dir := OsPath.join (SLIDE_DIR settings) location in
  file_json ← try_except (find_zarr_datasets (abspath search_dir)) (mret []);
  JSONResponse (Catalog file_json (SAVE settings) (COLORS settings)) 200.

(** *** [GET .../{file}.dzi] and [GET .../{file}_files/{level}/{x}_{y}.jpeg] *)

Definition get_dzi (location chs : string) (rgb : bool) (colors gains file : string)
    : M response :=
  let path_to_zarr :=
    OsPath.join (OsPath.join (SLIDE_DIR settings) location) (file +:+ ".zarr") in
  ome_connection ← lift ReaderError (OmeZarrConnector path_to_zarr);
  dzi_content ← lift ReaderError (generate_dzi ome_connection 0);
  mret (Response 200 (Media "application/xml" dzi_content)).

(** [[int(x) for x in tokens]] *)
Fixpoint ints (tokens : list string) : M (list Z) :=
  match tokens with
  | [] => mret []
  | x :: rest =>
      n ← lift ValueError (Py.int x);
      ns ← ints rest;
      mret (n :: ns)
  end.

Definition get_tile (location chs : string) (rgb : bool) (colors gains file : string)
    (level loc_x loc_y : Z) : M response :=
  let path_to_zarr :=
    OsPath.join (OsPath.join (SLIDE_DIR settings) location) (file +:+ ".zarr") in
  ome_connection ← lift ReaderError (OmeZarrConnector path_to_zarr);
  channels ← ints (Py.split ";" chs);
  let colors := Py.split ";" colors in
  gains ← ints (Py.split ";" gains);
  tile ← lift ReaderError
    (get_combined_image ome_connection 0 level channels gains colors rgb loc_x loc_y);
  img_bytes ← lift EncodeError (encode_jpeg tile);
  mret (Response 200 (Media "image/jpeg" img_bytes)).

(** *** [POST /save/{file:path}] *)

(** [try: data = await request.json() except json.JSONDecodeError: raise
    HTTPException(400, "Invalid JSON")]: any other exception goes on. *)
Definition request_data (request_body : list byte) : M Json :=
  match request_json request_body with
  | inr data => mret data
  | inl JSONDecodeError => raise (HTTPException 400 "Invalid JSON")
  | inl e => raise e
  end.

Definition save_slide_settings (file : string) (request_body : list byte) : M response :=
  if SAVE settings then
    data ← request_data request_body;
    let slide_dir := Pathlib.fspath (SLIDE_DIR settings) in
    let file_path := Pathlib.truediv (Pathlib.truediv slide_dir file) "sample.json" in
    Os.open_w file_path ;;
    Os.write file_path (json_dumps data) ;;
    mret (Response 200 (PlainText "OK"))
  else mret (Response 403 (PlainText "SAVE BLOCKED")).

(** *** [POST /upload] *)

Definition allowed_file_type (name : string) : bool :=
  Py.endswith (Py.lower name) ".svs"
  || Py.endswith (Py.lower name) ".tiff"
  || Py.endswith (Py.lower name) ".tif".

Definition chunk_path (name : string) (chunk : Z) : string :=
  TMP_DIR settings +:+ "/" +:+ name +:+ "_" +:+ Py.str chunk.

Definition public_dir : string := IMPORT_DIR settings +:+ "/public".

Definition dest_path (name : string) : string :=
  IMPORT_DIR settings +:+ "/public/" +:+ name.

(** [chunk = 0; while chunk < total_chunks: ...; chunk += 1], the number
    of rounds still to run being [n]. *)
Fixpoint concat_chunks (name : string) (n : nat) (chunk : Z) : M unit :=
  match n with
  | O => mret tt
  | S n' =>
      data ← Os.read_file (chunk_path name chunk);
      Os.write (dest_path name) data ;;
      Os.remove (chunk_path name chunk) ;;
      concat_chunks name n' (chunk + 1)
  end.

Definition upload_file (file : list byte) (name : string)
    (chunk_number total_chunks : Z) : M response :=
  if negb (allowed_file_type name) then
    raise (HTTPException 400
      "Invalid file type. Only .svs, .tiff, and .tif files are allowed.")
  else
    let isLast := (chunk_number + 1 =? total_chunks) in
    Os.open_w (chunk_path name chunk_number) ;;
    Os.write (chunk_path name chunk_number) file ;;
    if isLast then
      found ← Os.path_exists public_dir;
      (if found : bool then mret tt else Os.makedirs public_dir) ;;
      Os.open_w (dest_path name) ;;
      concat_chunks name (Z.to_nat total_chunks) 0 ;;
      mret (Response 200 (Message "File Uploaded"))
    else mret (Response 200 (Message "Chunk Uploaded")).

(** *** [POST /sampleStats] *)

(** [list.remove]: the first occurrence goes. *)
Fixpoint list_remove_first (x : string) (l : list string) : list string :=
  match l with
  | [] => []
  | y :: r => if bool_decide (x = y) then r else y :: list_remove_first x r
  end.

(** [for folder in folders: ... folders.remove(folder)]: the iterator
    holds an index into the list being changed. *)
Fixpoint prune_folders (files_path : string) (fuel : nat) (i : nat)
    (folders : list string) : M (list string) :=
  match fuel with
  | O => mret folders
  | S fuel' =>
      match folders !! i with
      | None => mret folders
      | Some folder =>
          let sample_json_path :=
            OsPath.join (OsPath.join files_path folder) "sample.json" in
          found ← Os.path_exists sample_json_path;
          prune_folders files_path fuel' (S i)
            (if found : bool then folders else list_remove_first folder folders)
      end
  end.

(** [[f for f in names if os.path.isdir(os.path.join(files_path, f))]] *)
Fixpoint only_dirs (files_path : string) (names : list string) : M (list string) :=
  match names with
  | [] => mret []
  | f :: rest =>
      d ← Os.isdir (OsPath.join files_path f);
      ds ← only_dirs files_path rest;
      mret (if d : bool then f :: ds else ds)
  end.

Definition sample_stats : M response :=
  let files_path := OsPath.join (SLIDE_DIR settings) "public" in
  found ← Os.path_exists files_path;
  if negb found then JSONResponse (Stats [] 0) 200
  else
    names ← Os.listdir files_path;
    folders ← only_dirs files_path names;
    folders ← prune_folders files_path (length folders) 0 folders;
    out ← Os.run_du (DU_LOC settings) files_path;
    blocks ← lift IndexError (head (Py.split_whitespace out));
    blocks ← lift ValueError (Py.int blocks);
    let data_used := blocks * 512 in
    data_used_gb ← lift OverflowError (true_div data_used (1024 ^ 3));
    let data_used_gb := round_ndigits data_used_gb 2 in
    JSONResponse (StatsGb folders data_used_gb) 200.

(** *** [POST /deleteSample] *)

Definition delete_sample (sample : string) : M response :=
  let files_path := OsPath.join (SLIDE_DIR settings) sample in
  found ← Os.path_exists files_path;
  if negb found then mret (Response 404 (Message "Sample not found"))
  else
    Os.run_rm (RM_LOC settings) files_path ;;
    mret (Response 200 (Message "Samples deleted")).

End Handlers.

(** ** Concrete collaborators and worlds used by the examples *)

Module Demo.

(** A Unicode database that knows, outside ASCII, the white space and the
    digits of one script, the Arabic-Indic ones (U+0660 to U+0669, in UTF-8
    the byte 217 followed by 160 to 169). *)
Fixpoint to_ascii_codes (l : list N) (skip : nat) : list N :=
  match l with
  | [] => []
  | b :: r =>
      match skip with
      | S k => to_ascii_codes r k
      | O =>
          if (b <? 127)%N then b :: to_ascii_codes r 0
          else
            match Py.space_width l with
            | S k => 32%N :: to_ascii_codes r k
            | O =>
                match r with
                | d :: _ =>
                    if (b =? 217)%N && Py.between 160 169 d
                    then (d - 160 + 48)%N :: to_ascii_codes r 1
                    else [63%N]
                | [] => [63%N]
                end
            end
      end
  end.

#[export] Instance arabic_indic : Unicode := {|
  decimal_and_space_to_ascii s := Py.of_codes (to_ascii_codes (Py.codes s) 0)
|}.

(** The nearest integer to [a / b], the even one of two equally near. *)
Definition round_half_even (a b : Z) : Z :=
  let q := a / b in
  let r := a mod b in
  if 2 * r <? b then q
  else if b <? 2 * r then q + 1
  else if Z.even q then q else q + 1.

(** A connector that opens every path but [/iv-store/public/bad.zarr], a
    JSON codec that takes every text, and floats kept as the exact quotient
    of two integers. *)
#[export] Instance collaborators : Collaborators := {|
  unicode := arabic_indic;
  Metadata := string;
  Json := string;
  Raster := unit;
  Connector := string;
  Float := Z * Z;
  OmeZarrConnector p :=
    if bool_decide (p = "/iv-store/public/bad.zarr") then None else Some p;
  metadata c := c;
  generate_dzi _ _ := Some [];
  get_combined_image _ _ _ _ _ _ _ _ _ := Some tt;
  encode_jpeg _ := Some [];
  json_loads b := Some (String.string_of_list_byte b);
  json_dumps j := String.list_byte_of_string j;
  json_empty := "{}";
  request_json b := inr (String.string_of_list_byte b);
  renders_details _ := true;
  renders_metadata _ := true;
  true_div a b := if b =? 0 then None else Some (a, b);
  round_ndigits x n := (round_half_even (x.1 * 10 ^ n) x.2, 10 ^ n);
  abspath p := p
|}.

(** The float that is the quotient of [a] by [b]. *)
Definition ratio (a b : Z) : Float := (a, b).

Definition no_listing (p : string) : list string := [].
Definition no_du (p : string) : option string := None.

(** A delete utility that removes all it is asked to and prints text. *)
Definition rm_works (p : string) : rm_outcome := RmRan (fun _ => false) true.

(** Only the root, the scratch directory and the slide root exist. *)
Definition bare : world :=
  World (list_to_map [("/", Dir); ("/tmp", Dir); ("/iv-store", Dir)])
    no_listing no_du rm_works [].

(** The import root exists, its [public] directory does not yet. *)
Definition staging : world :=
  World (list_to_map [("/", Dir); ("/tmp", Dir); ("/iv-store", Dir);
                      ("/iv-import", Dir)])
    no_listing no_du rm_works [].

(** The import area exists as well. *)
Definition ready : world :=
  World (list_to_map [("/", Dir); ("/tmp", Dir); ("/iv-store", Dir);
                      ("/iv-import", Dir); ("/iv-import/public", Dir)])
    no_listing no_du rm_works [].

(** A public slide area with a dataset that opens and one that does not. *)
Definition two_datasets : world :=
  World (list_to_map [("/", Dir); ("/iv-store", Dir); ("/iv-store/public", Dir);
                      ("/iv-store/public/good.zarr", Dir);
                      ("/iv-store/public/bad.zarr", Dir)])
    (fun p => if bool_decide (p = "/iv-store/public")
              then ["good.zarr"; "bad.zarr"] else [])
    no_du rm_works [].

Definition good_only : world :=
  World (fs two_datasets)
    (fun p => if bool_decide (p = "/iv-store/public") then ["good.zarr"] else [])
    no_du rm_works [].

(** A public slide area with two sample directories, neither of which
    has a [sample.json]. *)
Definition two_invalid : world :=
  World (list_to_map [("/", Dir); ("/iv-store", Dir); ("/iv-store/public", Dir);
                      ("/iv-store/public/a", Dir); ("/iv-store/public/b", Dir)])
    (fun p => if bool_decide (p = "/iv-store/public") then ["a"; "b"] else [])
    (fun p => Some "8 /iv-store/public") rm_works [].

End Demo.

(** The calls made between two worlds. *)
Definition events_since (w w' : world) : list event :=
  drop (length (trace w)) (trace w').

(** ** Vocabulary of the properties *)

Definition is_digit (c : ascii) : bool :=
  match Ascii.is_nat c with Some _ => true | None => false end.

Definition accepted_formats : list string := [".svs"; ".tiff"; ".tif"].

(** The name, in lower case, is a stem followed by an accepted format. *)
Definition has_accepted_extension (name : string) : Prop :=
  exists stem ext, ext ∈ accepted_formats /\ Py.lower name = stem +:+ ext.

(** [open(p, "wb")] succeeds: no directory sits at [p] and the directory
    holding [p] exists. *)
Definition writable (f : gmap string node) (p : string) : Prop :=
  f !! p ≠ Some Dir /\ f !! OsPath.dirname p = Some Dir.

(** An exception of the operating-system layer, as opposed to an
    [HTTPException] raised by a handler. *)
Definition os_error (e : exn) : Prop :=
  match e with HTTPException _ _ => False | _ => True end.

(** A computation that only appends to the trace, keeps the oracles and
    raises nothing but operating-system errors. *)
Definition tame {A} (m : M A) : Prop :=
  forall w,
    (exists evs, trace (m w).2 = trace w ++ evs)
    /\ readdir (m w).2 = readdir w
    /\ du_stdout (m w).2 = du_stdout w
    /\ forall e, (m w).1 = inl e -> os_error e.

(** A computation that destroys or creates no file content: a file found
    afterwards was there before. *)
Definition keeps_files {A} (m : M A) : Prop :=
  forall w q c, fs (m w).2 !! q = Some (File c) -> fs w !! q = Some (File c).

(** The bytes delivered last for a chunk index, if any. *)
Fixpoint latest (arrivals : list (Z * list byte)) (i : Z) : option (list byte) :=
  match arrivals with
  | [] => None
  | (j, b) :: rest =>
      match latest rest i with
      | Some b' => Some b'
      | None => if bool_decide (j = i) then Some b else None
      end
  end.

Section Vocabulary.
Context `{Collaborators}.
Variable settings : Settings.


(** The completion step, as [upload_file] has it after the scratch write. *)
Definition completion (name : string) (total_chunks : Z) : M response :=
  found ← Os.path_exists (public_dir settings);
  (if found : bool then mret tt else Os.makedirs (public_dir settings)) ;;
  Os.open_w (dest_path settings name) ;;
  concat_chunks settings name (Z.to_nat total_chunks) 0 ;;
  mret (Response 200 (Message "File Uploaded")).

(** The import area can take the artifact: no directory sits at the
    destination, [IMPORT_DIR/public] is a directory or can be made in the
    directory holding it, and the directory holding the destination is
    [IMPORT_DIR/public] or exists. *)
Definition public_ready (f : gmap string node) : Prop :=
  f !! (public_dir settings) = Some Dir
  \/ (f !! (public_dir settings) = None /\ f !! OsPath.dirname (public_dir settings) = Some Dir).

Definition import_ready (f : gmap string node) (name : string) : Prop :=
  f !! dest_path settings name ≠ Some Dir
  /\ public_ready f
  /\ (OsPath.dirname (dest_path settings name) = (public_dir settings)
      \/ f !! OsPath.dirname (dest_path settings name) = Some Dir).

(** The scratch directory can take every chunk of the session. *)
Definition scratch_ready (f : gmap string node) (name : string) (total_chunks : Z) : Prop :=
  forall i, 0 <= i < total_chunks -> writable f (chunk_path settings name i).

(** The requests of one client, served one after the other. *)
Fixpoint run_uploads (name : string) (total_chunks : Z)
    (arrivals : list (Z * list byte)) (w : world) : list response * world :=
  match arrivals with
  | [] => ([], w)
  | (i, b) :: rest =>
      let '(r, w1) := serve (upload_file settings b name i total_chunks) w in
      let '(rs, w2) := run_uploads name total_chunks rest w1 in
      (r :: rs, w2)
  end.

(** The scratch files the arrivals leave. *)
Fixpoint deliver (name : string) (arrivals : list (Z * list byte))
    (f : gmap string node) : gmap string node :=
  match arrivals with
  | [] => f
  | (i, b) :: rest => deliver name rest (<[chunk_path settings name i := File b]> f)
  end.

Definition non_final (total_chunks : Z) (arrivals : list (Z * list byte)) : Prop :=
  Forall (fun a => 0 <= a.1 < total_chunks - 1) arrivals.

(** The completion step has been entered: its first call, the test for
    [IMPORT_DIR/public], has been made. *)
Definition completion_started (w w' : world) : Prop :=
  EvExists (public_dir settings) ∈ events_since w w'.

End Vocabulary.

(** ** Vocabulary of the further properties *)

(** A computation that leaves the file system as it is. *)
Definition reads_only {A} (m : M A) : Prop :=
  forall w, fs (m w).2 = fs w.

(** The scan selects an entry: a directory whose name ends with [.zarr]. *)
Definition selected (f : gmap string node) (base_dir entry : string) : bool :=
  match f !! OsPath.join base_dir entry with
  | Some Dir => Py.endswith entry ".zarr"
  | _ => false
  end.

Section CatalogVocabulary.
Context `{Collaborators}.

(** The details of a dataset: the parsed [sample.json] beside it, the
    empty object when there is none; [None] when it cannot be read or
    parsed. *)
Definition sidecar_details (f : gmap string node) (entry_path : string) : option Json :=
  match f !! OsPath.join entry_path "sample.json" with
  | None => Some json_empty
  | Some (File raw) => json_loads raw
  | Some Dir => None
  end.

(** The catalog entry of a selected directory entry; [None] when its
    connector does not open or its details cannot be had. *)
Definition catalog_entry (f : gmap string node) (base_dir entry : string) : option dataset :=
  match OmeZarrConnector (OsPath.join base_dir entry) with
  | Some ome_connection =>
      match sidecar_details f (OsPath.join base_dir entry) with
      | Some dt =>
          Some {| name := Py.drop_last 5 entry;
                  details := dt;
                  ds_metadata := metadata ome_connection |}
      | None => None
      end
  | None => None
  end.

End CatalogVocabulary.

(** The file [POST /save/{file}] writes: [slide_dir / file / 'sample.json']
    as a string. *)
Definition save_path (settings : Settings) (file : string) : string :=
  Pathlib.truediv (Pathlib.truediv (Pathlib.fspath (SLIDE_DIR settings)) file)
    "sample.json".

Module SaveDemo.

(** The default settings with the save flag on. *)
Definition saving : Settings := {|
  SLIDE_DIR := "/iv-store";
  IMPORT_DIR := "/iv-import";
  TMP_DIR := "/tmp";
  DU_LOC := "/usr/bin/du";
  RM_LOC := "/usr/bin/rm";
  SAVE := true;
  COLORS := COLORS default_settings
|}.

(** Collaborators whose JSON parser finds no JSON in the empty body and
    no text in a body that begins with the byte 128. *)
Definition strict : Collaborators := {|
  unicode := Demo.arabic_indic;
  Metadata := string;
  Json := string;
  Raster := unit;
  Connector := string;
  Float := Z * Z;
  OmeZarrConnector p := Some p;
  metadata c := c;
  generate_dzi _ _ := Some [];
  get_combined_image _ _ _ _ _ _ _ _ _ := Some tt;
  encode_jpeg _ := Some [];
  json_loads b := match b with [] => None | _ => Some (String.string_of_list_byte b) end;
  json_dumps j := String.list_byte_of_string j;
  json_empty := "{}";
  request_json b :=
    match b with
    | [] => inl JSONDecodeError
    | x80 :: _ => inl UnicodeDecodeError
    | _ => inr (String.string_of_list_byte b)
    end;
  renders_details _ := true;
  renders_metadata _ := true;
  true_div a b := if b =? 0 then None else Some (a, b);
  round_ndigits x n := (Demo.round_half_even (x.1 * 10 ^ n) x.2, 10 ^ n);
  abspath p := p
|}.

End SaveDemo.

(** A computation that spares the paths outside [P]: what is there stays
    as it is, and no file appears there. *)
Definition spares {A} (P : string -> Prop) (m : M A) : Prop :=
  forall w p, ~ P p ->
    (forall x, fs w !! p = Some x -> fs (m w).2 !! p = Some x)
    /\ (forall c, fs (m w).2 !! p = Some (File c) -> fs w !! p = Some (File c)).

(** A plain file name: a name without a slash.  With such a name the
    artifact is an entry of [IMPORT_DIR/public] itself and the scratch files
    are entries of [TMP_DIR] itself; with a slash in it the paths leave
    these directories ([../../x] reaches above them), and the strings handed
    to the calls no longer tell the files apart. *)
Definition plain_name (name : string) : Prop := "/"%char ∉ Py.chars name.

(** The paths of an upload session: its artifact and its scratch files. *)
Definition own_path (settings : Settings) (name : string) (p : string) : Prop :=
  p = dest_path settings name \/ exists i, p = chunk_path settings name i.

(** A world where chunk 0 of [slide.svs] is in place and chunk 1 is not. *)
Definition chunk0_only : world :=
  World (<["/tmp/slide.svs_0" := File [x01]]> (fs Demo.staging))
    Demo.no_listing Demo.no_du Demo.rm_works [].

(** The world [w'] is [w] with more calls recorded, and nothing else. *)
Definition extends (w w' : world) : Prop :=
  exists evs, w' = World (fs w) (readdir w) (du_stdout w) (rm_run w) (trace w ++ evs).

(** A directory sits at the path. *)
Definition is_directory (f : gmap string node) (p : string) : bool :=
  match f !! p with Some Dir => true | _ => false end.

(** A sample folder is valid: it has a [sample.json]. *)
Definition valid_sample (f : gmap string node) (files_path folder : string) : bool :=
  bool_decide (is_Some (f !! OsPath.join (OsPath.join files_path folder) "sample.json")).

(** What the pruning loop of [sample_stats] leaves of a list: a valid
    folder is kept; an invalid one is removed, and the folder after it is
    then stepped over and kept untested. *)
Fixpoint survivors (valid : string -> bool) (folders : list string) : list string :=
  match folders with
  | [] => []
  | x :: rest =>
      if valid x then x :: survivors valid rest
      else match rest with
           | [] => []
           | y :: rest' => y :: survivors valid rest'
           end
  end.

(** A path is [p] or lies below it. *)
Definition in_tree (p q : string) : Prop :=
  q = p \/ String.prefix (p +:+ "/") q = true.

(** The world with another delete utility. *)
Definition with_rm (u : string -> rm_outcome) (w : world) : world :=
  World (fs w) (readdir w) (du_stdout w) u (trace w).

Definition rm_refuses (p : string) : rm_outcome := RmRan (fun _ => true) true.

Section StatsVocabulary.
Context `{Collaborators}.

(** What [POST /sampleStats] answers once the samples are told and the
    blocks counted: the usage is the bytes, 512 a block, divided by
    [1024 ** 3] and rounded to two decimals; the answer is 500 when the
    division overflows or a sample name cannot be rendered. *)
Definition stats_answer (samples : list string) (blocks : Z) : response :=
  match true_div (blocks * 512) (1024 ^ 3) with
  | Some data_used_gb =>
      if forallb Py.utf8_valid samples
      then Response 200 (StatsGb samples (round_ndigits data_used_gb 2))
      else Response 500 (PlainText "Internal Server Error")
  | None => Response 500 (PlainText "Internal Server Error")
  end.

End StatsVocabulary.

(** A public slide area with a valid sample [a] and an invalid one [b]. *)
Definition valid_then_invalid : world :=
  World (list_to_map [("/", Dir); ("/iv-store", Dir); ("/iv-store/public", Dir);
                      ("/iv-store/public/a", Dir);
                      ("/iv-store/public/a/sample.json", File []);
                      ("/iv-store/public/b", Dir)])
    (fun p => if bool_decide (p = "/iv-store/public") then ["a"; "b"] else [])
    (fun p => Some "8 /iv-store/public") Demo.rm_works [].

(** * Properties *)

Example lower_ex : Py.lower "Slide.TIFF" = "slide.tiff".
Proof. reflexivity. Qed.

Example endswith_ex :
  Py.endswith "slide.tiff" ".tiff" = true /\ Py.endswith "tiff" ".tiff" = false.
Proof. split; reflexivity. Qed.

Example split_ex : Py.split ";" "100;50;" = ["100"; "50"; ""].
Proof. reflexivity. Qed.

(** On an ASCII text [int] does not consult the Unicode database.  The
    separators U+001C to U+001F are white space for [str.split()] and not
    for [int]. *)
Example int_ex `{Unicode} :
  Py.int " -1_000 " = Some (-1000) /\ Py.int "abc" = None /\ Py.int "" = None
  /\ Py.int "1__0" = None /\ Py.int "12_" = None /\ Py.int "+ 5" = None
  /\ Py.int "007" = Some 7
  /\ Py.int (String "031" "5") = None
  /\ Py.int (String "011" "5") = Some 5.
Proof. repeat split; reflexivity. Qed.

(** With a database that knows the Arabic-Indic digits, the text made of
    U+0663 is the integer 3, and a no-break space around a literal is white
    space. *)
Example int_unicode_ex :
  Py.int (H := Demo.arabic_indic) (String "217" (String "163" "")) = Some 3
  /\ Py.int (H := Demo.arabic_indic) (String "194" (String "160" "5")) = Some 5.
Proof. split; reflexivity. Qed.

Example split_whitespace_ex :
  Py.split_whitespace (String "056" (String "009" "/iv-store/public"))
  = ["8"; "/iv-store/public"]
  /\ Py.split_whitespace (String "056" (String "031" "9")) = ["8"; "9"]
  /\ Py.split_whitespace "  " = [].
Proof. repeat split; reflexivity. Qed.

Example utf8_valid_ex :
  Py.utf8_valid "slideA" = true
  /\ Py.utf8_valid (String "195" (String "169" "")) = true
  /\ Py.utf8_valid (String "255" "a") = false
  /\ Py.utf8_valid (String "237" (String "160" (String "128" ""))) = false.
Proof. repeat split; reflexivity. Qed.

Example fspath_ex :
  Pathlib.fspath "/iv-store/public//good.zarr/./sample.json"
  = "/iv-store/public/good.zarr/sample.json"
  /\ Pathlib.fspath "a/../b/" = "a/../b" /\ Pathlib.fspath "" = "."
  /\ Pathlib.fspath "//a" = "//a" /\ Pathlib.fspath "///a" = "/a".
Proof. repeat split; reflexivity. Qed.

Example str_ex : Py.str 12 = "12" /\ Py.str (-3) = "-3" /\ Py.str 0 = "0".
Proof. repeat split; reflexivity. Qed.

Example join_ex :
  OsPath.join "/iv-store" "public" = "/iv-store/public"
  /\ OsPath.join "/iv-store" "/etc" = "/etc" /\ OsPath.join "/a/" "b" = "/a/b".
Proof. repeat split; reflexivity. Qed.

Example dirname_ex :
  OsPath.dirname "/tmp/a.svs_0" = "/tmp" /\ OsPath.dirname "/tmp" = "/"
  /\ OsPath.dirname "a" = "" /\ OsPath.dirname "/a//b" = "/a"
  /\ OsPath.dirname "//x" = "//".
Proof. repeat split; reflexivity. Qed.

Example drop_last_ex : Py.drop_last 5 "slideA.zarr" = "slideA".
Proof. reflexivity. Qed.

(** ** The monad *)

Section Monad.
Context {A B : Type}.

Lemma bind_inr (m : M A) (f : A -> M B) w a w' :
  m w = (inr a, w') -> (m ≫= f) w = f a w'.
Proof. intros E. unfold mbind, M_bind. by rewrite E. Qed.

Lemma bind_inl (m : M A) (f : A -> M B) w e w' :
  m w = (inl e, w') -> (m ≫= f) w = (inl e, w').
Proof. intros E. unfold mbind, M_bind. by rewrite E. Qed.

Lemma bind_inv_inr (m : M A) (f : A -> M B) w b w' :
  (m ≫= f) w = (inr b, w') ->
  exists a w1, m w = (inr a, w1) /\ f a w1 = (inr b, w').
Proof.
  unfold mbind, M_bind. destruct (m w) as [[e|a] w1]; [done|]. eauto.
Qed.
End Monad.

Lemma events_since_app w evs f r d u :
  events_since w (World f r d u (trace w ++ evs)) = evs.
Proof. unfold events_since; simpl. by rewrite drop_app_length. Qed.

Lemma events_since_add_event w e : events_since w (add_event e w) = [e].
Proof. apply events_since_app. Qed.

(** ** The operating-system calls, run *)

Lemma path_exists_run p w :
  Os.path_exists p w = (inr (bool_decide (is_Some (fs w !! p))), add_event (EvExists p) w).
Proof. reflexivity. Qed.

Lemma isdir_run p w :
  Os.isdir p w
  = (inr (match fs w !! p with Some Dir => true | _ => false end),
     add_event (EvIsDir p) w).
Proof. reflexivity. Qed.

Lemma read_file_run p w :
  Os.read_file p w
  = (match fs w !! p with
     | Some (File c) => inr c
     | Some Dir => inl IsADirectoryError
     | None => inl FileNotFoundError
     end, add_event (EvOpenR p) w).
Proof.
  unfold Os.read_file, mbind, M_bind, log, get_fs; simpl.
  by destruct (fs w !! p) as [[c|]|].
Qed.

Lemma listdir_run p w :
  Os.listdir p w
  = (match fs w !! p with
     | Some Dir => inr (readdir w p)
     | Some (File _) => inl NotADirectoryError
     | None => inl FileNotFoundError
     end, add_event (EvScan p) w).
Proof.
  unfold Os.listdir, mbind, M_bind, log, get_fs; simpl.
  by destruct (fs w !! p) as [[c|]|].
Qed.

Lemma open_w_run p w :
  Os.open_w p w
  = match fs w !! p with
    | Some Dir => (inl IsADirectoryError, add_event (EvOpenW p) w)
    | _ =>
        match fs w !! OsPath.dirname p with
        | Some Dir => (inr tt, set_fs (<[p := File []]> (fs w)) (add_event (EvOpenW p) w))
        | Some (File _) => (inl NotADirectoryError, add_event (EvOpenW p) w)
        | None => (inl FileNotFoundError, add_event (EvOpenW p) w)
        end
    end.
Proof.
  unfold Os.open_w, mbind, M_bind, log, get_fs; simpl.
  destruct (fs w !! p) as [[c|]|]; [|done|];
    by destruct (fs w !! OsPath.dirname p) as [[c'|]|].
Qed.

Lemma write_run p data w :
  Os.write p data w
  = (inr tt,
     set_fs (alter (fun n => match n with File c => File (c ++ data) | Dir => Dir end)
               p (fs w)) w).
Proof. reflexivity. Qed.

Lemma remove_run p w :
  Os.remove p w
  = match fs w !! p with
    | Some (File _) => (inr tt, set_fs (delete p (fs w)) (add_event (EvRemove p) w))
    | Some Dir => (inl IsADirectoryError, add_event (EvRemove p) w)
    | None => (inl FileNotFoundError, add_event (EvRemove p) w)
    end.
Proof.
  unfold Os.remove, mbind, M_bind, log, get_fs; simpl.
  by destruct (fs w !! p) as [[c|]|].
Qed.

Lemma mkdir_run p w :
  Os.mkdir p w
  = match fs w !! p with
    | Some _ => (inl FileExistsError, add_event (EvMkdir p) w)
    | None =>
        match fs w !! OsPath.dirname p with
        | Some Dir => (inr tt, set_fs (<[p := Dir]> (fs w)) (add_event (EvMkdir p) w))
        | Some (File _) => (inl NotADirectoryError, add_event (EvMkdir p) w)
        | None => (inl FileNotFoundError, add_event (EvMkdir p) w)
        end
    end.
Proof.
  unfold Os.mkdir, mbind, M_bind, log, get_fs; simpl.
  destruct (fs w !! p) as [[c|]|]; [done..|];
    by destruct (fs w !! OsPath.dirname p) as [[c'|]|].
Qed.

(** ** [POST /save] *)

Section Save.
Context `{Collaborators}.

(** C10: with the save flag off, the save endpoint answers 403
    "SAVE BLOCKED" whatever the path and the request body are, and leaves
    the world as it was: no file is written and no call is made. *)
Theorem save_blocked (settings : Settings) (file : string)
    (request_body : list byte) (w : world) :
  SAVE settings = false ->
  serve (save_slide_settings settings file request_body) w
  = (Response 403 (PlainText "SAVE BLOCKED"), w).
Proof.
  intros Hsave. unfold serve, save_slide_settings. by rewrite Hsave.
Qed.
End Save.

Lemma save_blocked_witness :
  SAVE default_settings = false
  /\ serve (H := Demo.collaborators)
       (save_slide_settings default_settings "public/slideA.zarr" []) Demo.ready
     = (Response 403 (PlainText "SAVE BLOCKED"), Demo.ready).
Proof. split; [reflexivity | by apply save_blocked]. Defined.

(** ** [POST /deleteSample] *)

Section Delete.
Context `{Collaborators}.
Variable settings : Settings.

(** C9: when the path of the sample under the slide root does not exist,
    the delete endpoint answers 404 "Sample not found", the file system is
    unchanged and no subprocess (the recursive delete) has been run; so
    the delete runs only for a path that exists. *)
Theorem delete_sample_not_found (sample : string) (w : world) :
  fs w !! OsPath.join (SLIDE_DIR settings) sample = None ->
  exists w',
    serve (delete_sample settings sample) w
    = (Response 404 (Message "Sample not found"), w')
    /\ fs w' = fs w
    /\ forall argv, EvSubprocess argv ∉ events_since w w'.
Proof.
  intros Habs. eexists.
  unfold serve, delete_sample, Os.path_exists, log, get_fs; simpl.
  unfold mbind, M_bind, mret, M_ret; simpl. rewrite Habs.
  rewrite bool_decide_eq_false_2 by apply is_Some_None. simpl.
  split; [reflexivity|]. split; [done|].
  intros argv. rewrite events_since_add_event, list_elem_of_singleton. discriminate.
Qed.

(** The other branch, for comparison: on an existing path the delete
    utility is run, and what it removes is gone. *)
Lemma delete_sample_found (sample : string) (w : world) (leaves : string -> bool) :
  let p := OsPath.join (SLIDE_DIR settings) sample in
  is_Some (fs w !! p) ->
  rm_run w p = RmRan leaves true ->
  serve (delete_sample settings sample) w
  = (Response 200 (Message "Samples deleted"),
     set_fs (Os.rm_rf leaves p (fs w))
       (add_event (EvSubprocess [RM_LOC settings; "-rf"; p]) (add_event (EvExists p) w))).
Proof.
  intros p Hex Hrm.
  unfold serve, delete_sample, Os.path_exists, Os.run_rm, log, get_fs, get_world, put_fs;
    simpl.
  unfold mbind, M_bind, mret, M_ret; simpl. fold p.
  rewrite bool_decide_eq_true_2 by done. simpl. by rewrite Hrm.
Qed.
End Delete.

Lemma delete_sample_not_found_witness :
  fs Demo.ready !! OsPath.join (SLIDE_DIR default_settings) "public/ghost.zarr" = None
  /\ exists w',
      serve (H := Demo.collaborators)
        (delete_sample default_settings "public/ghost.zarr") Demo.ready
      = (Response 404 (Message "Sample not found"), w')
      /\ fs w' = fs Demo.ready
      /\ forall argv, EvSubprocess argv ∉ events_since Demo.ready w'.
Proof.
  split; [reflexivity|].
  apply (delete_sample_not_found default_settings "public/ghost.zarr" Demo.ready).
  reflexivity.
Defined.

(** ** The catalog: [find_zarr_datasets] and [GET /samples.json] *)

Section Catalog.
Context `{Collaborators}.
Variable settings : Settings.

(** The scan only reads. *)
Lemma scan_entries_fs base_dir entries acc w :
  fs (scan_entries base_dir entries acc w).2 = fs w.
Proof.
  revert acc w. induction entries as [|entry rest IH]; intros acc w; [done|].
  cbn [scan_entries].
  rewrite (bind_inr _ _ _ _ _ (isdir_run _ w)).
  destruct (_ && _); [|by rewrite IH].
  destruct (OmeZarrConnector _) as [conn|]; [|done].
  rewrite (bind_inr (lift _ (Some conn)) _ _ conn _ eq_refl).
  rewrite (bind_inr _ _ _ _ _ (path_exists_run _ _)).
  destruct (bool_decide _).
  - unfold mbind, M_bind. rewrite read_file_run.
    destruct (fs _ !! _) as [[c|]|]; [|done..].
    destruct (json_loads c) as [j|]; [|done].
    simpl. by rewrite IH.
  - unfold mbind, M_bind. simpl. by rewrite IH.
Qed.






End Catalog.

Section CatalogExamples.
#[local] Existing Instance Demo.collaborators.




End CatalogExamples.

(** ** Tiles: [GET .../{file}_files/{level}/{x}_{y}.jpeg] *)

Section Tiles.
Context `{Collaborators}.
Variable settings : Settings.

(** The comprehension over the tokens does not touch the world, and stops
    with [ValueError] at the first token [int] rejects. *)
Lemma ints_run (tokens : list string) (w : world) :
  ints tokens w
  = (match mapM Py.int tokens with Some ns => inr ns | None => inl ValueError end, w).
Proof.
  induction tokens as [|x rest IH]; [done|].
  cbn [ints mapM]. unfold mbind at 1, M_bind.
  destruct (Py.int x) as [n|]; simpl; [|done].
  unfold mbind at 1, M_bind. rewrite IH.
  by destruct (mapM Py.int rest).
Qed.

Lemma ints_rejects (tokens : list string) (w : world) :
  (exists tok, tok ∈ tokens /\ Py.int tok = None) ->
  ints tokens w = (inl ValueError, w).
Proof.
  intros (tok & Hin & Hbad). rewrite ints_run.
  destruct (mapM Py.int tokens) as [ns|] eqn:E; [|done].
  apply mapM_Some in E.
  apply list_elem_of_lookup in Hin as [i Hi].
  destruct (Forall2_lookup_l _ _ _ i tok E Hi) as (n & _ & Hn).
  congruence.
Qed.

(** C4, amended: a tile request whose channel list or gain list holds a
    token that [int] rejects is answered 500 Internal Server Error (the
    [ValueError], or before it the failure to open the dataset, is not
    handled); it is not answered with a 4xx error, and no tile is produced
    from a default value. *)
Theorem get_tile_malformed_list (location chs : string) (rgb : bool)
    (colors gains file : string) (level loc_x loc_y : Z) (w : world) :
  (exists tok, tok ∈ Py.split ";" chs ++ Py.split ";" gains /\ Py.int tok = None) ->
  serve (get_tile settings location chs rgb colors gains file level loc_x loc_y) w
  = (Response 500 (PlainText "Internal Server Error"), w).
Proof.
  intros (tok & Hin & Hbad). unfold serve, get_tile.
  destruct (OmeZarrConnector _) as [conn|]; [|done].
  rewrite (bind_inr (lift _ (Some conn)) _ _ conn _ eq_refl).
  apply elem_of_app in Hin as [Hin|Hin].
  - by erewrite bind_inl by (apply ints_rejects; eauto).
  - unfold mbind at 1, M_bind. rewrite ints_run.
    destruct (mapM Py.int (Py.split ";" chs)) as [channels|]; [|done].
    by erewrite bind_inl by (apply ints_rejects; eauto).
Qed.
End Tiles.

Section TileExamples.
#[local] Existing Instance Demo.collaborators.

(** The address of the specification's example is served. *)
Example get_tile_ex :
  (serve (get_tile default_settings "public" "0;1" true "red;green" "100;50"
            "slideA" 0 0 0) Demo.ready).1
  = Response 200 (Media "image/jpeg" []).
Proof. reflexivity. Qed.

(** What counts as an integer is what [int] takes.  With the Unicode
    database of the examples the Arabic-Indic digit three (U+0663) is a
    gain and the tile is served; a 5 behind the separator U+001F is no
    integer, and neither is a literal of 4301 digits. *)
Example get_tile_gain_tokens :
  (serve (get_tile default_settings "public" "0" true "red"
            (String "217" (String "163" "")) "slideA" 0 0 0) Demo.ready).1
  = Response 200 (Media "image/jpeg" [])
  /\ (serve (get_tile default_settings "public" "0" true "red"
               (String "031" "5") "slideA" 0 0 0) Demo.ready).1
     = Response 500 (PlainText "Internal Server Error")
  /\ Py.int (String.string_of_list_ascii (replicate 4301 "1"%char)) = None
  /\ is_Some (Py.int (String.string_of_list_ascii (replicate 4300 "1"%char))).
Proof. split_and!; [reflexivity..|vm_compute; by eexists]. Qed.

(** C4 as stated fails: with the gain list [100;abc] the answer is 500,
    which is not in the 4xx class. *)
Lemma get_tile_malformed_gain_counterexample :
  let r := (serve (get_tile default_settings "public" "0;1" true "red;green"
                     "100;abc" "slideA" 0 0 0) Demo.ready).1 in
  "abc" ∈ Py.split ";" "100;abc"
  /\ Py.int "abc" = None
  /\ status_code r = 500
  /\ ~ (400 <= status_code r < 500).
Proof.
  split_and!; [|reflexivity|reflexivity|].
  - apply elem_of_cons; right. apply elem_of_cons; left. reflexivity.
  - cbv. intros [_ Hlt]. discriminate.
Qed.

Lemma get_tile_malformed_list_witness :
  (exists tok, tok ∈ Py.split ";" "0;1" ++ Py.split ";" "100;abc" /\ Py.int tok = None)
  /\ serve (get_tile default_settings "public" "0;1" true "red;green" "100;abc"
              "slideA" 0 0 0) Demo.ready
     = (Response 500 (PlainText "Internal Server Error"), Demo.ready).
Proof.
  assert (Hbad : exists tok,
            tok ∈ Py.split ";" "0;1" ++ Py.split ";" "100;abc" /\ Py.int tok = None).
  { exists "abc". split; [|reflexivity].
    apply elem_of_app; right. apply elem_of_cons; right.
    apply elem_of_cons; left. reflexivity. }
  split; [exact Hbad|].
  apply (get_tile_malformed_list default_settings "public" "0;1" true "red;green"
           "100;abc" "slideA" 0 0 0 Demo.ready Hbad).
Defined.

End TileExamples.

(** ** [POST /sampleStats] *)

(** The fuel of the loop, the length of the list at its start, is never
    what stops it: the list only shrinks and the index only grows. *)
Lemma list_remove_first_length (x : string) (l : list string) :
  (length (list_remove_first x l) <= length l)%nat.
Proof.
  induction l as [|y l IH]; [done|]. cbn [list_remove_first].
  case_bool_decide; simpl; lia.
Qed.

Lemma prune_folders_fuel (files_path : string) (fuel i : nat) (folders : list string)
    (w : world) :
  (length folders <= i + fuel)%nat ->
  prune_folders files_path (S fuel) i folders w
  = prune_folders files_path fuel i folders w.
Proof.
  revert i folders w. induction fuel as [|fuel IH]; intros i folders w Hlen.
  - cbn [prune_folders]. rewrite lookup_ge_None_2 by lia. done.
  - change (prune_folders files_path (S (S fuel)) i folders w)
      with (match folders !! i with
            | None => mret folders
            | Some folder =>
                found ← Os.path_exists
                  (OsPath.join (OsPath.join files_path folder) "sample.json");
                prune_folders files_path (S fuel) (S i)
                  (if found : bool then folders else list_remove_first folder folders)
            end w).
    cbn [prune_folders]. destruct (folders !! i) as [folder|]; [|done].
    unfold mbind, M_bind. rewrite path_exists_run.
    apply IH. pose proof (list_remove_first_length folder folders).
    destruct (bool_decide _); simpl; lia.
Qed.

Section StatsExamples.
#[local] Existing Instance Demo.collaborators.

(** C5 fails on the code: with two sample directories [a] and [b], listed
    in this order and both without a [sample.json], removing [a] while the
    loop runs makes the iterator step over [b], which stays in the answer.
    (The usage, 8 blocks of 512 bytes, is 0.00 gigabytes.) *)
Theorem sample_stats_keeps_invalid_folder :
  fs Demo.two_invalid !! "/iv-store/public/a/sample.json" = None
  /\ fs Demo.two_invalid !! "/iv-store/public/b/sample.json" = None
  /\ (serve (sample_stats default_settings) Demo.two_invalid).1
     = Response 200 (StatsGb ["b"] (Demo.ratio 0 100)).
Proof. split_and!; reflexivity. Qed.

(** A single invalid directory is removed, as intended. *)
Example prune_folders_single :
  (prune_folders "/iv-store/public" 1 0 ["a"] Demo.two_invalid).1 = inr [].
Proof. reflexivity. Qed.

End StatsExamples.

(** ** Strings: suffixes, last characters, decimal numerals *)

Lemma chars_app (a b : string) : Py.chars (a +:+ b) = Py.chars a ++ Py.chars b.
Proof.
  induction a as [|c a IH]; [done|].
  change (Py.chars (String c (a +:+ b)) = c :: Py.chars a ++ Py.chars b).
  by rewrite <-IH.
Qed.

Lemma chars_inj (a b : string) : Py.chars a = Py.chars b -> a = b.
Proof.
  intros E. rewrite <-(String.string_of_list_ascii_of_string a),
    <-(String.string_of_list_ascii_of_string b). unfold Py.chars in E. by rewrite E.
Qed.

Lemma chars_of_list (l : list ascii) : Py.chars (String.string_of_list_ascii l) = l.
Proof. apply String.list_ascii_of_string_of_list_ascii. Qed.

Lemma endswith_spec (s suf : string) :
  Py.endswith s suf = true <-> exists stem, s = stem +:+ suf.
Proof.
  unfold Py.endswith. rewrite bool_decide_eq_true. split.
  - intros [k Hk]. exists (String.string_of_list_ascii k).
    apply chars_inj. by rewrite chars_app, chars_of_list.
  - intros [stem ->]. exists (Py.chars stem). apply chars_app.
Qed.

Lemma chars_lower (s : string) : Py.chars (Py.lower s) = Py.lower_char <$> Py.chars s.
Proof.
  induction s as [|c s IH]; [done|].
  change (Py.lower_char c :: Py.chars (Py.lower s)
          = Py.lower_char c :: (Py.lower_char <$> Py.chars s)).
  by rewrite IH.
Qed.

Lemma last_chars_app (a b : string) :
  b ≠ "" -> last (Py.chars (a +:+ b)) = last (Py.chars b).
Proof.
  intros Hb. rewrite chars_app. destruct b as [|c b]; [done|].
  cbn. by rewrite last_app_cons.
Qed.

(** A name ending, in lower case, with one of the three suffixes ends with
    a character that lower-cases to [s] or [f]. *)
Lemma lower_char_not_digit (c : ascii) :
  Py.lower_char c = "s"%char \/ Py.lower_char c = "f"%char -> is_digit c = false.
Proof.
  destruct c as [[] [] [] [] [] [] [] []]; vm_compute; intros [E|E];
    congruence.
Qed.

Lemma endswith_last (s suf : string) (c : ascii) :
  Py.endswith s suf = true -> last (Py.chars suf) = Some c ->
  last (Py.chars s) = Some c.
Proof.
  intros [stem ->]%endswith_spec Hc.
  rewrite last_chars_app; [done|]. by intros ->.
Qed.

Lemma pretty_N_char_digit (x : N) : is_digit (pretty_N_char x) = true.
Proof. unfold pretty_N_char. by repeat case_match. Qed.

Lemma pretty_N_go_suffix (x : N) (s : string) :
  exists p, pretty_N_go x s = p +:+ s.
Proof.
  revert s. induction (N.lt_wf_0 x) as [x _ IH]; intros s.
  destruct (decide (x = 0)%N) as [->|Hx].
  - exists "". by rewrite pretty_N_go_0.
  - rewrite pretty_N_go_step by lia.
    destruct (IH (x `div` 10)%N) with (s := String (pretty_N_char (x `mod` 10)) s)
      as [p Hp].
    { apply N.div_lt; lia. }
    exists (p +:+ String (pretty_N_char (x `mod` 10)) "").
    rewrite Hp. apply chars_inj. rewrite !chars_app. cbn.
    by rewrite <-(assoc_L (++)).
Qed.

Lemma pretty_N_last (x : N) :
  exists d, last (Py.chars (pretty x)) = Some d /\ is_digit d = true.
Proof.
  unfold pretty, pretty_N. case_decide as Hx.
  - by exists "0"%char.
  - rewrite pretty_N_go_step by lia.
    destruct (pretty_N_go_suffix (x `div` 10) (String (pretty_N_char (x `mod` 10)) ""))
      as [p ->].
    exists (pretty_N_char (x `mod` 10)). split; [|apply pretty_N_char_digit].
    by rewrite last_chars_app.
Qed.

(** [str(n)] ends with a decimal digit. *)
Lemma str_last (n : Z) :
  exists d, last (Py.chars (Py.str n)) = Some d /\ is_digit d = true.
Proof.
  unfold Py.str, pretty, pretty_Z. destruct n as [|p|p].
  - by exists "0"%char.
  - apply (pretty_N_last (N.pos p)).
  - destruct (pretty_N_last (N.pos p)) as (d & Hd & Hdig). exists d. split; [|done].
    rewrite last_chars_app; [done|]. intros E.
    change (pretty p) with (pretty (N.pos p)) in E. by rewrite E in Hd.
Qed.

Lemma str_nonempty (n : Z) : Py.str n ≠ "".
Proof. intros E. destruct (str_last n) as (d & Hd & _). by rewrite E in Hd. Qed.

Lemma str_inj (j k : Z) : Py.str j = Py.str k -> j = k.
Proof. apply pretty_Z_inj. Qed.

(** ** Computations that only log and raise operating-system errors *)

Section Tame.
Context {A B : Type}.

Lemma tame_ret (a : A) : tame (mret a).
Proof. intros w. split_and!; [by exists []; rewrite (right_id_L [] (++))|done..]. Qed.

Lemma tame_raise (e : exn) : os_error e -> tame (raise (A := A) e).
Proof.
  intros He w. split_and!; [by exists []; rewrite (right_id_L [] (++))|done..|].
  by intros e' [= <-].
Qed.

Lemma tame_bind (m : M A) (f : A -> M B) :
  tame m -> (forall a, tame (f a)) -> tame (m ≫= f).
Proof.
  intros Hm Hf w. destruct (Hm w) as ([evs Ht] & Hr & Hd & He).
  unfold mbind, M_bind. destruct (m w) as [[e|a] w1]; simpl in *.
  - split_and!; eauto. intros e' [= <-]. by apply He.
  - destruct (Hf a w1) as ([evs' Ht'] & Hr' & Hd' & He').
    split_and!; [|congruence..|done].
    exists (evs ++ evs'). by rewrite Ht', Ht, (assoc_L (++)).
Qed.
End Tame.

Lemma tame_log (e : event) : tame (log e).
Proof. intros w. split_and!; [by exists [e]|done..]. Qed.

Lemma tame_get_fs : tame get_fs.
Proof. intros w. split_and!; [by exists []; rewrite (right_id_L [] (++))|done..]. Qed.

Lemma tame_put_fs (f : gmap string node) : tame (put_fs f).
Proof. intros w. split_and!; [by exists []; rewrite (right_id_L [] (++))|done..]. Qed.

Create HintDb tame.
#[local] Hint Resolve tame_ret tame_log tame_get_fs tame_put_fs : tame.
#[local] Hint Extern 1 (tame (raise _)) => (apply tame_raise; exact I) : tame.
#[local] Hint Extern 1 (tame (_ ≫= _)) => (apply tame_bind; [|intros ?]) : tame.
#[local] Hint Extern 1 (tame (match ?x with _ => _ end)) => destruct x : tame.

Lemma tame_path_exists p : tame (Os.path_exists p).
Proof. unfold Os.path_exists. auto 10 with tame. Qed.

Lemma tame_open_w p : tame (Os.open_w p).
Proof. unfold Os.open_w. auto 10 with tame. Qed.

Lemma tame_write p data : tame (Os.write p data).
Proof. unfold Os.write. auto 10 with tame. Qed.

Lemma tame_read_file p : tame (Os.read_file p).
Proof. unfold Os.read_file. auto 10 with tame. Qed.

Lemma tame_remove p : tame (Os.remove p).
Proof. unfold Os.remove. auto 10 with tame. Qed.

Lemma tame_mkdir p : tame (Os.mkdir p).
Proof. unfold Os.mkdir. auto 10 with tame. Qed.

#[local] Hint Resolve tame_path_exists tame_open_w tame_write tame_read_file
  tame_remove tame_mkdir : tame.

Lemma tame_pass_file_exists (m : M unit) : tame m -> tame (Os.pass_file_exists m).
Proof.
  intros Hm w. destruct (Hm w) as (Ht & Hr & Hd & He).
  unfold Os.pass_file_exists. destruct (m w) as [[e|[]] w1]; simpl in *; [|done].
  destruct e; simpl; split_and!; try done; intros e' [= <-]; by eapply He.
Qed.

Lemma tame_makedirs_go fuel p : tame (Os.makedirs_go fuel p).
Proof.
  revert p. induction fuel as [|fuel IH]; intros p; simpl; [auto with tame|].
  destruct (if bool_decide (Os.basename p = "") then _ else _) as [head tail].
  destruct (_ && _); [|auto with tame].
  apply tame_bind; [auto with tame|]. intros [|]; [auto with tame|].
  apply tame_bind; [by apply tame_pass_file_exists|]. intros _.
  case_bool_decide; auto with tame.
Qed.

(** ** [POST /upload]: paths *)

Section UploadPaths.
Variable settings : Settings.

Lemma allowed_iff (name : string) :
  allowed_file_type name = true <-> has_accepted_extension name.
Proof.
  unfold allowed_file_type, has_accepted_extension, accepted_formats.
  rewrite !orb_true_iff, !endswith_spec. split.
  - intros [[[stem E]|[stem E]]|[stem E]]; eexists stem, _; (split; [|exact E]);
      repeat first [by apply list_elem_of_here | apply list_elem_of_further].
  - intros (stem & ext & Hin & E).
    repeat (apply elem_of_cons in Hin as [->|Hin]); eauto.
    by apply elem_of_nil in Hin.
Qed.

(** The last character of an allowed name is not a digit. *)
Lemma allowed_last (name : string) :
  allowed_file_type name = true ->
  exists c, last (Py.chars name) = Some c /\ is_digit c = false.
Proof.
  unfold allowed_file_type. rewrite !orb_true_iff.
  assert (Hlow : forall c0, last (Py.chars (Py.lower name)) = Some c0 ->
            c0 = "s"%char \/ c0 = "f"%char ->
            exists c, last (Py.chars name) = Some c /\ is_digit c = false).
  { intros c0 Hl Hc0. rewrite chars_lower, fmap_last in Hl.
    destruct (last (Py.chars name)) as [c|]; [|done]. injection Hl as Hl.
    exists c. split; [done|]. apply lower_char_not_digit. by rewrite Hl. }
  intros [[E|E]|E].
  - apply (Hlow "s"%char); [|by left]. by apply (endswith_last _ ".svs").
  - apply (Hlow "f"%char); [|by right]. by apply (endswith_last _ ".tiff").
  - apply (Hlow "f"%char); [|by right]. by apply (endswith_last _ ".tif").
Qed.

Lemma chunk_path_last (name : string) (k : Z) :
  exists d, last (Py.chars (chunk_path settings name k)) = Some d /\ is_digit d = true.
Proof.
  destruct (str_last k) as (d & Hd & Hdig). exists d. split; [|done].
  unfold chunk_path. rewrite !chars_app, !last_app. by rewrite Hd.
Qed.

Lemma chunk_path_inj (name : string) (j k : Z) :
  chunk_path settings name j = chunk_path settings name k -> j = k.
Proof.
  unfold chunk_path. intros E. apply str_inj.
  by repeat apply String.app_inj in E.
Qed.

Lemma chunk_path_not_dest (name : string) (k : Z) :
  allowed_file_type name = true ->
  chunk_path settings name k ≠ dest_path settings name.
Proof.
  intros (c & Hc & Hnd)%allowed_last E.
  destruct (chunk_path_last name k) as (d & Hd & Hdig).
  rewrite E in Hd. unfold dest_path in Hd.
  rewrite !chars_app, !last_app, Hc in Hd. congruence.
Qed.

Lemma chunk_path_not_public (name : string) (k : Z) :
  chunk_path settings name k ≠ public_dir settings.
Proof.
  intros E. destruct (chunk_path_last name k) as (d & Hd & Hdig).
  rewrite E in Hd. unfold public_dir in Hd.
  rewrite chars_app, last_app in Hd. cbn in Hd. by injection Hd as <-.
Qed.

Lemma dest_path_not_public (name : string) :
  dest_path settings name ≠ public_dir settings.
Proof.
  unfold dest_path, public_dir. intros E%String.app_inj.
  apply (f_equal Py.chars) in E. rewrite chars_app in E.
  apply (f_equal length) in E. rewrite length_app in E. cbn in E. lia.
Qed.
End UploadPaths.

Lemma chars_rev_app (s acc : string) :
  Py.chars (String.rev_app s acc) = reverse (Py.chars s) ++ Py.chars acc.
Proof.
  revert acc. induction s as [|a s IH]; intros acc; [done|].
  change (Py.chars (String.rev_app s (String a acc))
          = reverse (a :: Py.chars s) ++ Py.chars acc).
  rewrite IH, reverse_cons, <-(assoc_L (++)). done.
Qed.

Lemma rev_append (a b : string) : String.rev (a +:+ b) = String.rev b +:+ String.rev a.
Proof.
  apply chars_inj. unfold String.rev.
  rewrite chars_app, !chars_rev_app, chars_app, reverse_app.
  change (Py.chars "") with (@nil ascii). by rewrite !(right_id_L [] (++)).
Qed.

(** ** [POST /upload]: the steps of the handler *)

Section UploadSteps.
Context `{Collaborators}.
Variable settings : Settings.

Lemma upload_file_allowed file name chunk_number total_chunks :
  allowed_file_type name = true ->
  upload_file settings file name chunk_number total_chunks
  = (Os.open_w (chunk_path settings name chunk_number) ;;
     Os.write (chunk_path settings name chunk_number) file ;;
     if chunk_number + 1 =? total_chunks then completion settings name total_chunks
     else mret (Response 200 (Message "Chunk Uploaded"))).
Proof. intros Ha. unfold upload_file. by rewrite Ha. Qed.

Lemma scratch_write_run {A} (p : string) (data : list byte) (k : M A) (w : world) :
  writable (fs w) p ->
  (Os.open_w p ;; Os.write p data ;; k) w
  = k (set_fs (<[p := File data]> (fs w)) (add_event (EvOpenW p) w)).
Proof.
  intros [Hnd Hpar]. unfold mbind, M_bind. rewrite open_w_run, Hpar.
  destruct (fs w !! p) as [[c|]|] eqn:E; [|done|]; rewrite write_run; cbn;
    by rewrite alter_insert_eq.
Qed.

Lemma scratch_write_fails {A} (p : string) (data : list byte) (k : M A) (w : world) :
  ~ writable (fs w) p ->
  exists e, os_error e
    /\ (Os.open_w p ;; Os.write p data ;; k) w = (inl e, add_event (EvOpenW p) w).
Proof.
  intros Hnw. unfold mbind, M_bind. rewrite open_w_run.
  destruct (fs w !! p) as [[c|]|] eqn:E;
    [|by exists IsADirectoryError|];
    (destruct (fs w !! OsPath.dirname p) as [[c'|]|] eqn:E';
     [by exists NotADirectoryError| |by exists FileNotFoundError]);
    destruct Hnw; split; congruence.
Qed.

Lemma basename_public : Os.basename (public_dir settings) = "public".
Proof.
  unfold Os.basename, Datatypes.id, OsPath.dirname. unfold public_dir.
  rewrite rev_append. reflexivity.
Qed.

Lemma ensure_public_run (w : world) :
  public_ready settings (fs w) ->
  exists w',
    (found ← Os.path_exists (public_dir settings);
     if found : bool then mret tt else Os.makedirs (public_dir settings)) w = (inr tt, w')
    /\ fs w' = <[(public_dir settings) := Dir]> (fs w).
Proof.
  intros [Hdir|[Habs Hpar]]; unfold mbind at 1, M_bind; rewrite path_exists_run.
  - rewrite bool_decide_eq_true_2 by (by rewrite Hdir).
    eexists. split; [done|]. cbn. by rewrite insert_id.
  - rewrite bool_decide_eq_false_2 by (rewrite Habs; apply is_Some_None).
    unfold Os.makedirs. cbn [Os.makedirs_go]. rewrite basename_public.
    rewrite (bool_decide_eq_false_2 ("public" = "")) by done. cbv beta iota.
    assert (Emk : Os.mkdir (public_dir settings)
                    (add_event (EvExists (public_dir settings)) w)
                  = (inr tt,
                     set_fs (<[public_dir settings := Dir]> (fs w))
                       (add_event (EvMkdir (public_dir settings))
                          (add_event (EvExists (public_dir settings)) w)))).
    { rewrite mkdir_run. cbn [fs add_event]. by rewrite Habs, Hpar. }
    destruct (bool_decide (_ ≠ "") && bool_decide (_ ≠ "")).
    + unfold mbind, M_bind. rewrite path_exists_run. cbn [fs add_event].
      rewrite bool_decide_eq_true_2 by (by rewrite Hpar).
      rewrite mkdir_run. cbn [fs add_event]. rewrite Habs, Hpar. by eexists.
    + rewrite Emk. by eexists.
Qed.
End UploadSteps.

Section Concatenation.
Context `{Collaborators}.
Variable settings : Settings.

Lemma tame_concat_chunks name n chunk : tame (concat_chunks settings name n chunk).
Proof.
  revert chunk. induction n as [|n IH]; intros chunk; simpl; [auto with tame|].
  repeat (apply tame_bind; [auto with tame|intros ?]). apply IH.
Qed.

Lemma tame_completion name total_chunks : tame (completion settings name total_chunks).
Proof.
  unfold completion, Os.makedirs.
  apply tame_bind; [auto with tame|]. intros found.
  apply tame_bind; [destruct found; auto using tame_makedirs_go with tame|]. intros _.
  apply tame_bind; [auto with tame|]. intros _.
  apply tame_bind; [apply tame_concat_chunks|]. intros _. auto with tame.
Qed.

(** One round of the loop. *)
Lemma concat_round name n chunk data acc w :
  allowed_file_type name = true ->
  fs w !! chunk_path settings name chunk = Some (File data) ->
  fs w !! dest_path settings name = Some (File acc) ->
  exists w1,
    concat_chunks settings name (S n) chunk w
    = concat_chunks settings name n (chunk + 1) w1
    /\ fs w1 = delete (chunk_path settings name chunk)
                 (<[dest_path settings name := File (acc ++ data)]> (fs w)).
Proof.
  intros Ha Hc Hd. cbn [concat_chunks]. unfold mbind, M_bind.
  rewrite read_file_run, Hc, write_run, remove_run. cbn [fs set_fs add_event].
  rewrite lookup_alter_ne by (intros E; by apply (chunk_path_not_dest settings name chunk)).
  rewrite Hc. eexists. split; [reflexivity|]. cbn [fs set_fs add_event].
  f_equal. apply map_eq. intros p.
  destruct (decide (p = dest_path settings name)) as [->|Hp].
  - by rewrite lookup_alter_eq, lookup_insert_eq, Hd.
  - by rewrite lookup_alter_ne, lookup_insert_ne.
Qed.

(** With every chunk file of the remaining rounds in place, the loop
    appends them to the artifact in index order and removes them, and
    touches nothing else. *)
Lemma concat_chunks_run name (payload : Z -> list byte) n chunk acc w :
  allowed_file_type name = true ->
  fs w !! dest_path settings name = Some (File acc) ->
  (forall i, chunk <= i < chunk + Z.of_nat n ->
     fs w !! chunk_path settings name i = Some (File (payload i))) ->
  exists w',
    concat_chunks settings name n chunk w = (inr tt, w')
    /\ fs w' !! dest_path settings name
       = Some (File (acc ++ concat (payload <$> seqZ chunk (Z.of_nat n))))
    /\ (forall i, chunk <= i < chunk + Z.of_nat n ->
          fs w' !! chunk_path settings name i = None)
    /\ (forall p, p ≠ dest_path settings name ->
          (forall i, chunk <= i < chunk + Z.of_nat n -> p ≠ chunk_path settings name i) ->
          fs w' !! p = fs w !! p).
Proof.
  intros Ha. revert chunk acc w. induction n as [|n IH]; intros chunk acc w Hd Hc.
  { exists w. split_and!; [done| |intros; lia|done].
    rewrite seqZ_nil by done. cbn. by rewrite (right_id_L [] (++)). }
  destruct (concat_round name n chunk (payload chunk) acc w) as (w1 & E & Hfs1);
    [done|apply Hc; lia|done|].
  assert (Hne : forall i, i ≠ chunk ->
            chunk_path settings name chunk ≠ chunk_path settings name i).
  { intros i Hi E'. by apply chunk_path_inj in E'. }
  assert (Hnd : forall i, dest_path settings name ≠ chunk_path settings name i).
  { intros i E'. by apply (chunk_path_not_dest settings name i). }
  destruct (IH (chunk + 1) (acc ++ payload chunk) w1) as (w' & E' & Hd' & Hgone & Hother).
  { rewrite Hfs1, lookup_delete_ne, lookup_insert_eq; [done|]. by intros E'; apply (Hnd chunk). }
  { intros i Hi. rewrite Hfs1, lookup_delete_ne, lookup_insert_ne by (auto with lia).
    apply Hc; lia. }
  exists w'. rewrite E. split_and!; [done| | |].
  - rewrite Hd', <-(assoc_L (++)). do 2 f_equal.
    rewrite (seqZ_cons chunk) by lia.
    replace (Z.pred (Z.of_nat (S n))) with (Z.of_nat n) by lia.
    replace (Z.succ chunk) with (chunk + 1) by lia.
    by rewrite fmap_cons.
  - intros i Hi. destruct (decide (i = chunk)) as [->|Hi'].
    + rewrite Hother; [|by intros E''; apply (Hnd chunk)|intros i Hi'; apply Hne; lia].
      by rewrite Hfs1, lookup_delete_eq.
    + apply Hgone; lia.
  - intros p Hp Hpc. rewrite Hother; [|done|intros i Hi; apply Hpc; lia].
    rewrite Hfs1, lookup_delete_ne, lookup_insert_ne; [done..|].
    intros E''. apply (Hpc chunk); [lia|done].
Qed.

(** Conversely, the loop returns only if it found a file at every chunk
    path of its rounds. *)
Lemma concat_chunks_inv name n chunk w w' :
  concat_chunks settings name n chunk w = (inr tt, w') ->
  forall i, chunk <= i < chunk + Z.of_nat n ->
    exists c, fs w !! chunk_path settings name i = Some (File c).
Proof.
  revert chunk w. induction n as [|n IH]; intros chunk w E i Hi; [lia|].
  cbn [concat_chunks] in E. unfold mbind at 1, M_bind in E.
  rewrite read_file_run in E.
  destruct (fs w !! chunk_path settings name chunk) as [[c|]|] eqn:Hc; [|done..].
  unfold mbind at 1, M_bind in E. rewrite write_run in E.
  unfold mbind at 1, M_bind in E. rewrite remove_run in E.
  cbn [fs set_fs add_event] in E.
  destruct (alter _ _ _ !! _) as [[c'|]|] eqn:Hc'; [|done..].
  destruct (decide (i = chunk)) as [->|Hne]; [by eexists|].
  destruct (IH _ _ E i) as [ci Hci]; [lia|].
  cbn [fs set_fs add_event] in Hci.
  apply lookup_delete_Some in Hci as [_ Hci].
  apply lookup_alter_Some in Hci as [(_ & [c0|] & Hc0 & E0)|[_ Hci]]; eauto.
  discriminate.
Qed.
End Concatenation.

(** ** [POST /upload]: one request *)

Lemma bind_assoc {A B C} (m : M A) (f : A -> M B) (g : B -> M C) (w : world) :
  ((m ≫= f) ≫= g) w = (m ≫= fun a => f a ≫= g) w.
Proof. unfold mbind, M_bind. by destruct (m w) as [[e|a] w1]. Qed.

Section UploadRequest.
Context `{Collaborators}.
Variable settings : Settings.

Lemma writable_insert_file f p q c :
  writable f p -> writable f q -> writable (<[q := File c]> f) p.
Proof.
  intros [Hp Hpp] [Hq _]. split.
  - destruct (decide (q = p)) as [->|Hne];
      [by rewrite lookup_insert_eq|by rewrite lookup_insert_ne].
  - rewrite lookup_insert_ne; [done|]. intros ->. by rewrite Hpp in Hq.
Qed.

Lemma import_ready_insert_chunk f name i c :
  allowed_file_type name = true ->
  writable f (chunk_path settings name i) ->
  import_ready settings f name ->
  import_ready settings (<[chunk_path settings name i := File c]> f) name.
Proof.
  intros Ha [Hnd _] (Hd & Hpub & Hpar).
  assert (Hdir : forall p, f !! p = Some Dir ->
            <[chunk_path settings name i := File c]> f !! p = Some Dir).
  { intros p Hp. rewrite lookup_insert_ne; [done|]. intros E. by rewrite E in Hnd. }
  split_and!.
  - rewrite lookup_insert_ne; [done|]. by apply chunk_path_not_dest.
  - destruct Hpub as [Hpub|[Habs Hpp]]; [left; auto|right].
    split; [|auto]. rewrite lookup_insert_ne; [done|]. apply chunk_path_not_public.
  - destruct Hpar as [Hpar|Hpar]; [by left|right; auto].
Qed.

(** A chunk that is not the last one is written to its scratch file and
    that is all. *)
Lemma upload_chunk_run file name k n w :
  allowed_file_type name = true -> k + 1 ≠ n ->
  writable (fs w) (chunk_path settings name k) ->
  upload_file settings file name k n w
  = (inr (Response 200 (Message "Chunk Uploaded")),
     set_fs (<[chunk_path settings name k := File file]> (fs w))
       (add_event (EvOpenW (chunk_path settings name k)) w)).
Proof.
  intros Ha Hk Hw. rewrite upload_file_allowed, scratch_write_run by done.
  by rewrite (proj2 (Z.eqb_neq _ _) Hk).
Qed.

(** The last chunk, with the other chunk files in place: the artifact is
    the concatenation in index order and the chunk files are gone. *)
Lemma upload_last_run file name k n (payload : Z -> list byte) w :
  allowed_file_type name = true -> k + 1 = n ->
  writable (fs w) (chunk_path settings name k) ->
  import_ready settings (fs w) name ->
  payload k = file ->
  (forall i, 0 <= i < n -> i ≠ k ->
     fs w !! chunk_path settings name i = Some (File (payload i))) ->
  exists w',
    upload_file settings file name k n w
    = (inr (Response 200 (Message "File Uploaded")), w')
    /\ fs w' !! dest_path settings name
       = Some (File (concat (payload <$> seqZ 0 n)))
    /\ forall i, 0 <= i < n -> fs w' !! chunk_path settings name i = None.
Proof.
  intros Ha Hk Hw Himp Hpk Hchunks.
  rewrite upload_file_allowed, scratch_write_run by done.
  rewrite (proj2 (Z.eqb_eq _ _) Hk).
  set (w0 := set_fs _ _).
  assert (Himp0 : import_ready settings (fs w0) name).
  { by apply import_ready_insert_chunk. }
  destruct Himp0 as (Hd0 & Hpub0 & Hpar0).
  destruct (ensure_public_run settings w0 Hpub0) as (w1 & E1 & Hfs1).
  unfold completion. rewrite <-bind_assoc. rewrite (bind_inr _ _ _ _ _ E1).
  assert (Hd1 : fs w1 !! dest_path settings name ≠ Some Dir).
  { rewrite Hfs1, lookup_insert_ne; [done|]. intros E. symmetry in E.
    by apply dest_path_not_public in E. }
  assert (Hpar1 : fs w1 !! OsPath.dirname (dest_path settings name) = Some Dir).
  { rewrite Hfs1. destruct Hpar0 as [->|Hpar0]; [by rewrite lookup_insert_eq|].
    destruct (decide (public_dir settings = OsPath.dirname (dest_path settings name)))
      as [<-|Hne]; [by rewrite lookup_insert_eq|by rewrite lookup_insert_ne]. }
  assert (E2 : Os.open_w (dest_path settings name) w1
               = (inr tt, set_fs (<[dest_path settings name := File []]> (fs w1))
                            (add_event (EvOpenW (dest_path settings name)) w1))).
  { rewrite open_w_run, Hpar1. by destruct (fs w1 !! dest_path settings name) as [[c|]|]. }
  rewrite (bind_inr _ _ _ _ _ E2). set (w2 := set_fs _ _).
  destruct (concat_chunks_run settings name payload (Z.to_nat n) 0 [] w2)
    as (w3 & E3 & Hd3 & Hgone & _); [done|by apply lookup_insert_eq| |].
  { intros i Hi. assert (Hin : 0 <= i < n) by lia.
    unfold w2. cbn [fs set_fs add_event].
    rewrite lookup_insert_ne by (intros E; by apply (chunk_path_not_dest settings name i)).
    rewrite Hfs1, lookup_insert_ne by (intros E; by apply (chunk_path_not_public settings name i)).
    unfold w0. cbn [fs set_fs add_event].
    destruct (decide (i = k)) as [->|Hik]; [by rewrite lookup_insert_eq, Hpk|].
    rewrite lookup_insert_ne; [by apply Hchunks|].
    intros E. by apply chunk_path_inj in E. }
  rewrite (bind_inr _ _ _ _ _ E3). exists w3. split; [done|].
  destruct (decide (0 <= n)) as [Hn|Hn].
  - rewrite Z2Nat.id in Hd3, Hgone by done. split; [done|]. intros i Hi. apply Hgone; lia.
  - split; [|intros; lia]. rewrite Hd3.
    rewrite Z2Nat.nonpos by lia. by rewrite (seqZ_nil 0 n) by lia.
Qed.
End UploadRequest.

(** ** [POST /upload]: a session *)

Section UploadSession.
Context `{Collaborators}.
Variable settings : Settings.

Lemma deliver_lookup_chunk name arrivals f i :
  deliver settings name arrivals f !! chunk_path settings name i
  = match latest arrivals i with
    | Some b => Some (File b)
    | None => f !! chunk_path settings name i
    end.
Proof.
  revert f. induction arrivals as [|[j b] rest IH]; intros f; [done|].
  cbn [deliver latest]. rewrite IH. destruct (latest rest i); [done|].
  case_bool_decide as Hji.
  - subst. by rewrite lookup_insert_eq.
  - rewrite lookup_insert_ne; [done|]. intros E. by apply chunk_path_inj in E.
Qed.

Lemma deliver_ready name n arrivals f :
  allowed_file_type name = true ->
  non_final n arrivals ->
  scratch_ready settings f name n ->
  import_ready settings f name ->
  scratch_ready settings (deliver settings name arrivals f) name n
  /\ import_ready settings (deliver settings name arrivals f) name.
Proof.
  intros Ha Hnf. revert f. induction Hnf as [|[j b] rest Hj Hrest IH]; intros f Hs Hi;
    [done|].
  cbn [deliver]. simpl in Hj. apply IH.
  - intros i Hir. apply writable_insert_file; apply Hs; lia.
  - apply import_ready_insert_chunk; [done| |done]. apply Hs; lia.
Qed.

Lemma run_uploads_run name n arrivals w :
  allowed_file_type name = true ->
  non_final n arrivals ->
  scratch_ready settings (fs w) name n ->
  exists w1,
    run_uploads settings name n arrivals w
    = (replicate (length arrivals) (Response 200 (Message "Chunk Uploaded")), w1)
    /\ fs w1 = deliver settings name arrivals (fs w).
Proof.
  intros Ha Hnf. revert w. induction Hnf as [|[j b] rest Hj Hrest IH]; intros w Hs.
  { by exists w. }
  simpl in Hj. cbn [run_uploads]. unfold serve.
  rewrite upload_chunk_run; [|done|lia|apply Hs; lia].
  set (w0 := set_fs _ _).
  destruct (IH w0) as (w1 & E & Hfs).
  { intros i Hi. apply writable_insert_file; apply Hs; lia. }
  exists w1. rewrite E. done.
Qed.

(** A whole session: the chunks below the last index arrive in any order,
    any number of times, each at least once; then the last index arrives.
    The artifact holds, in index order, the bytes delivered last for every
    index, and no chunk file of the session is left. *)
Lemma upload_session name n arrivals last_bytes w :
  allowed_file_type name = true ->
  0 < n ->
  non_final n arrivals ->
  (forall i, 0 <= i < n - 1 -> is_Some (latest arrivals i)) ->
  scratch_ready settings (fs w) name n ->
  import_ready settings (fs w) name ->
  exists w1 w2,
    run_uploads settings name n arrivals w
    = (replicate (length arrivals) (Response 200 (Message "Chunk Uploaded")), w1)
    /\ (forall i b, latest arrivals i = Some b ->
          fs w1 !! chunk_path settings name i = Some (File b))
    /\ serve (upload_file settings last_bytes name (n - 1) n) w1
       = (Response 200 (Message "File Uploaded"), w2)
    /\ fs w2 !! dest_path settings name
       = Some (File (concat ((fun i => default [] (latest arrivals i)) <$> seqZ 0 (n - 1))
                     ++ last_bytes))
    /\ forall i, 0 <= i < n -> fs w2 !! chunk_path settings name i = None.
Proof.
  intros Ha Hn Hnf Hall Hs Hi.
  destruct (run_uploads_run name n arrivals w) as (w1 & E1 & Hfs1); [done..|].
  destruct (deliver_ready name n arrivals (fs w)) as [Hs1 Hi1]; [done..|].
  rewrite <-Hfs1 in Hs1, Hi1.
  assert (Hlook : forall i b, latest arrivals i = Some b ->
            fs w1 !! chunk_path settings name i = Some (File b)).
  { intros i b Hl. by rewrite Hfs1, deliver_lookup_chunk, Hl. }
  set (payload := fun i => if bool_decide (i = n - 1) then last_bytes
                           else default [] (latest arrivals i)).
  destruct (upload_last_run settings last_bytes name (n - 1) n payload w1)
    as (w2 & E2 & Hd2 & Hgone); [done|lia|apply Hs1; lia|done| | |].
  { unfold payload. by rewrite bool_decide_eq_true_2. }
  { intros i Hir Hne. unfold payload. rewrite bool_decide_eq_false_2 by lia.
    destruct (Hall i) as [b Hb]; [lia|]. rewrite Hb. by apply Hlook. }
  exists w1, w2. split_and!; [done|done| | |done].
  - unfold serve. by rewrite E2.
  - rewrite Hd2. do 2 f_equal.
    replace n with ((n - 1) + 1) at 1 by lia.
    rewrite seqZ_app, fmap_app, concat_app by lia.
    rewrite (seqZ_cons (0 + (n - 1)) 1), (seqZ_nil _ (Z.pred 1)) by lia.
    cbn [fmap list_fmap concat].
    rewrite (right_id_L [] (++)). f_equal.
    + f_equal. apply list_fmap_ext. intros _ i [_ Hir]%list_elem_of_lookup_2%elem_of_seqZ.
      unfold payload. by rewrite bool_decide_eq_false_2 by lia.
    + unfold payload. rewrite bool_decide_eq_true_2; [done|lia].
Qed.
End UploadSession.

(** ** [POST /upload]: the answers of one request *)

Lemma keeps_files_bind {A B} (m : M A) (f : A -> M B) :
  keeps_files m -> (forall a, keeps_files (f a)) -> keeps_files (m ≫= f).
Proof.
  intros Hm Hf w q c. unfold mbind, M_bind.
  specialize (Hm w q c). destruct (m w) as [[e|a] w1]; [done|].
  intros Hq. apply Hm. by apply (Hf a w1).
Qed.

Lemma keeps_files_ret {A} (a : A) : keeps_files (mret a).
Proof. by intros w q c. Qed.

Lemma keeps_files_path_exists p : keeps_files (Os.path_exists p).
Proof. by intros w q c. Qed.

Lemma keeps_files_mkdir p : keeps_files (Os.mkdir p).
Proof.
  intros w q c. rewrite mkdir_run.
  destruct (fs w !! p) as [n|] eqn:Hp; [done|].
  destruct (fs w !! OsPath.dirname p) as [[c'|]|]; [done| |done].
  cbn [snd fs set_fs add_event]. intros Hq.
  apply lookup_insert_Some in Hq as [[_ [=]]|[_ Hq]]. done.
Qed.

Lemma keeps_files_pass (m : M unit) : keeps_files m -> keeps_files (Os.pass_file_exists m).
Proof.
  intros Hm w q c. specialize (Hm w q c). unfold Os.pass_file_exists.
  by destruct (m w) as [[[]|[]] w1].
Qed.

Lemma keeps_files_makedirs_go fuel p : keeps_files (Os.makedirs_go fuel p).
Proof.
  revert p. induction fuel as [|fuel IH]; intros p; simpl; [by intros w q c|].
  destruct (if bool_decide (Os.basename p = "") then _ else _) as [head tail].
  destruct (_ && _); [|apply keeps_files_mkdir].
  apply keeps_files_bind; [apply keeps_files_path_exists|].
  intros [|]; [apply keeps_files_mkdir|].
  apply keeps_files_bind; [by apply keeps_files_pass|]. intros _.
  case_bool_decide; [apply keeps_files_ret|apply keeps_files_mkdir].
Qed.

Lemma serve_world `{Collaborators} (m : M response) (w : world) :
  (serve m w).2 = (m w).2.
Proof. unfold serve. by destruct (m w) as [[[]|r] w']. Qed.

Lemma serve_os_error `{Collaborators} (m : M response) (w : world) e :
  (m w).1 = inl e -> os_error e ->
  (serve m w).1 = Response 500 (PlainText "Internal Server Error").
Proof. unfold serve. destruct (m w) as [[e'|r] w']; intros [= ->] He. by destruct e. Qed.

Section UploadAnswers.
Context `{Collaborators}.
Variable settings : Settings.

Lemma completion_result name n w r w' :
  completion settings name n w = (inr r, w') ->
  r = Response 200 (Message "File Uploaded").
Proof.
  unfold completion. intros E.
  apply bind_inv_inr in E as (found & w1 & _ & E).
  apply bind_inv_inr in E as ([] & w2 & _ & E).
  apply bind_inv_inr in E as ([] & w3 & _ & E).
  apply bind_inv_inr in E as ([] & w4 & _ & E).
  by injection E as <- _.
Qed.

Lemma completion_trace name n w :
  exists evs,
    trace (completion settings name n w).2
    = trace w ++ EvExists (public_dir settings) :: evs.
Proof.
  unfold completion. unfold mbind at 1, M_bind. rewrite path_exists_run.
  set (rest := (_ ≫= _)).
  assert (Hrest : tame rest).
  { unfold rest, Os.makedirs.
    apply tame_bind; [case_match; auto using tame_makedirs_go with tame|]. intros _.
    apply tame_bind; [auto with tame|]. intros _.
    apply tame_bind; [apply tame_concat_chunks|]. intros _. auto with tame. }
  destruct (Hrest (add_event (EvExists (public_dir settings)) w)) as ([evs Ht] & _).
  exists evs. rewrite Ht. cbn [trace add_event]. by rewrite <-(assoc_L (++)).
Qed.

(** The completion step returns only if every chunk file was in place
    when it started. *)
Lemma completion_needs_chunks name n w r w' :
  allowed_file_type name = true ->
  completion settings name n w = (inr r, w') ->
  forall i, 0 <= i < n -> exists c, fs w !! chunk_path settings name i = Some (File c).
Proof.
  intros Ha E i Hi. unfold completion in E.
  apply bind_inv_inr in E as (found & w1 & E1 & E).
  apply bind_inv_inr in E as ([] & w2 & E2 & E).
  apply bind_inv_inr in E as ([] & w3 & E3 & E).
  apply bind_inv_inr in E as ([] & w4 & E4 & _).
  destruct (concat_chunks_inv settings name _ _ _ _ E4 i) as [c Hc]; [lia|].
  exists c.
  assert (H1 : fs w1 = fs w) by (by injection E1 as _ <-).
  rewrite <-H1.
  assert (H2 : fs w2 !! chunk_path settings name i = Some (File c)).
  { rewrite open_w_run in E3.
    destruct (fs w2 !! dest_path settings name) as [[c'|]|];
      destruct (fs w2 !! OsPath.dirname (dest_path settings name)) as [[c''|]|];
      try done; injection E3 as <-; cbn [fs set_fs add_event] in Hc;
      rewrite lookup_insert_ne in Hc; try done;
      intros E'; by apply (chunk_path_not_dest settings name i). }
  destruct found.
  - by injection E2 as <-.
  - pose proof (keeps_files_makedirs_go (S (String.length (public_dir settings)))
                  (public_dir settings) w1 (chunk_path settings name i) c) as Hk.
    unfold Os.makedirs in E2. rewrite E2 in Hk. by apply Hk.
Qed.

Lemma tame_upload_file file name k n :
  allowed_file_type name = true -> tame (upload_file settings file name k n).
Proof.
  intros Ha. rewrite upload_file_allowed by done.
  apply tame_bind; [auto with tame|]. intros _.
  apply tame_bind; [auto with tame|]. intros _.
  case_match; [apply tame_completion|auto with tame].
Qed.

Lemma upload_file_result file name k n w r w' :
  allowed_file_type name = true ->
  upload_file settings file name k n w = (inr r, w') ->
  status_code r = 200.
Proof.
  intros Ha. rewrite upload_file_allowed by done. intros E.
  apply bind_inv_inr in E as ([] & w1 & _ & E).
  apply bind_inv_inr in E as ([] & w2 & _ & E).
  destruct (k + 1 =? n).
  - by apply completion_result in E as ->.
  - by injection E as <- _.
Qed.

(** An allowed name is answered 200 or 500. *)
Lemma upload_file_status file name k n w :
  allowed_file_type name = true ->
  let r := (serve (upload_file settings file name k n) w).1 in
  status_code r = 200 \/ r = Response 500 (PlainText "Internal Server Error").
Proof.
  intros Ha r. subst r.
  destruct (upload_file settings file name k n w) as [[e|r] w'] eqn:E.
  - right. apply (serve_os_error _ _ e); [by rewrite E|].
    destruct (tame_upload_file file name k n Ha w) as (_ & _ & _ & He).
    apply He. by rewrite E.
  - left. unfold serve. rewrite E. by eapply upload_file_result.
Qed.
End UploadAnswers.

(** ** [POST /upload]: the main results *)

Section UploadResults.
Context `{Collaborators}.
Variable settings : Settings.

(** C7: the upload endpoint answers 400 exactly when the name, in lower
    case, does not end with one of [.svs], [.tiff], [.tif]; a rejected
    request leaves the world as it was: no scratch file, no artifact, no
    call at all. *)
Theorem upload_rejects_unsupported (file : list byte) (name : string)
    (chunk_number total_chunks : Z) (w : world) :
  let answer := serve (upload_file settings file name chunk_number total_chunks) w in
  (status_code answer.1 = 400 <-> ~ has_accepted_extension name)
  /\ (~ has_accepted_extension name ->
      answer
      = (Response 400
           (Detail "Invalid file type. Only .svs, .tiff, and .tif files are allowed."),
         w)).
Proof.
  intros answer. subst answer. rewrite <-allowed_iff.
  destruct (allowed_file_type name) eqn:Ha.
  - split; [|by intros []].
    split; [|by intros []]. intros Hs.
    destruct (upload_file_status settings file name chunk_number total_chunks w Ha)
      as [E|E]; rewrite ?E in Hs; [congruence|discriminate].
  - assert (E : serve (upload_file settings file name chunk_number total_chunks) w
                = (Response 400
                     (Detail "Invalid file type. Only .svs, .tiff, and .tif files are allowed."),
                   w)).
    { unfold serve, upload_file. by rewrite Ha. }
    rewrite E. split; [|done]. split; [by intros _ [=]|done].
Qed.

(** C3, amended: for a chunk with an accepted name whose scratch write
    succeeds, the completion step is entered exactly when
    [chunk_number + 1 = total_chunks], whatever chunks have arrived; a chunk
    that does not enter it is answered 200 "Chunk Uploaded"; a chunk that
    enters it is answered 200 "File Uploaded" or 500; it is 200 "File
    Uploaded" when the import area is ready and every other chunk file of
    the session is in place, and 500 when a chunk file is missing. *)
Theorem upload_completion_trigger (file : list byte) (name : string)
    (chunk_number total_chunks : Z) (w : world) :
  allowed_file_type name = true ->
  writable (fs w) (chunk_path settings name chunk_number) ->
  let answer := serve (upload_file settings file name chunk_number total_chunks) w in
  (completion_started settings w answer.2 <-> chunk_number + 1 = total_chunks)
  /\ (chunk_number + 1 ≠ total_chunks ->
      answer.1 = Response 200 (Message "Chunk Uploaded"))
  /\ (chunk_number + 1 = total_chunks ->
      (answer.1 = Response 200 (Message "File Uploaded")
       \/ answer.1 = Response 500 (PlainText "Internal Server Error"))
      /\ (import_ready settings (fs w) name ->
          (forall i, 0 <= i < total_chunks -> i ≠ chunk_number ->
             exists c, fs w !! chunk_path settings name i = Some (File c)) ->
          answer.1 = Response 200 (Message "File Uploaded"))
      /\ ((exists i, 0 <= i < total_chunks /\ i ≠ chunk_number
             /\ fs w !! chunk_path settings name i = None) ->
          answer.1 = Response 500 (PlainText "Internal Server Error"))).
Proof.
  intros Ha Hw answer. subst answer.
  destruct (decide (chunk_number + 1 = total_chunks)) as [Hlast|Hmid].
  - set (w0 := set_fs (<[chunk_path settings name chunk_number := File file]> (fs w))
                 (add_event (EvOpenW (chunk_path settings name chunk_number)) w)).
    assert (Erun : upload_file settings file name chunk_number total_chunks w
                   = completion settings name total_chunks w0).
    { rewrite upload_file_allowed, scratch_write_run by done.
      by rewrite (proj2 (Z.eqb_eq _ _) Hlast). }
    split_and!; [|done|intros _; split_and!].
    + split; [done|]. intros _. unfold completion_started, events_since.
      rewrite serve_world, Erun.
      destruct (completion_trace settings name total_chunks w0) as [evs ->].
      unfold w0. cbn [trace set_fs add_event].
      rewrite <-!(assoc_L (++)), drop_app_length.
      apply elem_of_cons; right. apply elem_of_cons; by left.
    + destruct (upload_file_status settings file name chunk_number total_chunks w Ha)
        as [E|E]; [left|by right].
      unfold serve in *.
      destruct (upload_file settings file name chunk_number total_chunks w)
        as [[e|r] w'] eqn:Eu.
      * destruct (tame_upload_file settings file name chunk_number total_chunks Ha w)
          as (_ & _ & _ & He).
        rewrite Eu in He. specialize (He e eq_refl). by destruct e.
      * symmetry in Erun. by apply completion_result in Erun as ->.
    + intros Himp Hchunks.
      set (payload := fun i =>
             if bool_decide (i = chunk_number) then file
             else match fs w !! chunk_path settings name i with
                  | Some (File c) => c
                  | _ => []
                  end).
      destruct (upload_last_run settings file name chunk_number total_chunks payload w)
        as (w' & E & _); [done..| | |].
      { unfold payload. by rewrite bool_decide_eq_true_2. }
      { intros i Hi Hne. unfold payload. rewrite bool_decide_eq_false_2 by done.
        destruct (Hchunks i Hi Hne) as [c ->]. done. }
      unfold serve. by rewrite E.
    + intros (i & Hi & Hne & Hmiss).
      destruct (upload_file settings file name chunk_number total_chunks w)
        as [[e|r] w'] eqn:Eu.
      * apply (serve_os_error _ _ e); [by rewrite Eu|].
        destruct (tame_upload_file settings file name chunk_number total_chunks Ha w)
          as (_ & _ & _ & He).
        apply He. by rewrite Eu.
      * exfalso. symmetry in Erun.
        destruct (completion_needs_chunks settings name total_chunks w0 r w' Ha Erun i Hi)
          as [c Hc].
        unfold w0 in Hc. cbn [fs set_fs add_event] in Hc.
        rewrite lookup_insert_ne in Hc by (intros E'; by apply chunk_path_inj in E').
        congruence.
  - assert (Erun := upload_chunk_run settings file name chunk_number total_chunks w
                      Ha Hmid Hw).
    split_and!; [|intros _; unfold serve; by rewrite Erun|done].
    split; [|done]. unfold completion_started. rewrite serve_world, Erun.
    cbn [snd]. unfold events_since. cbn [trace set_fs add_event].
    rewrite drop_app_length. intros [=]%list_elem_of_singleton.
Qed.

(** C1: with [total_chunks = 3], a scratch directory that can take the
    three chunks and an import area that can take the artifact, the chunks
    0, 1, 2 sent in this order are answered "Chunk Uploaded", "Chunk
    Uploaded", "File Uploaded"; the artifact then holds the three payloads in
    index order and none of the three scratch files is left. *)
Theorem upload_three_chunks_in_order (name : string) (b0 b1 b2 : list byte) (w : world) :
  allowed_file_type name = true ->
  scratch_ready settings (fs w) name 3 ->
  import_ready settings (fs w) name ->
  exists w1 w2 w3,
    serve (upload_file settings b0 name 0 3) w
    = (Response 200 (Message "Chunk Uploaded"), w1)
    /\ serve (upload_file settings b1 name 1 3) w1
       = (Response 200 (Message "Chunk Uploaded"), w2)
    /\ serve (upload_file settings b2 name 2 3) w2
       = (Response 200 (Message "File Uploaded"), w3)
    /\ fs w3 !! dest_path settings name = Some (File (b0 ++ b1 ++ b2))
    /\ forall i, 0 <= i < 3 -> fs w3 !! chunk_path settings name i = None.
Proof.
  intros Ha Hs Hi.
  destruct (upload_session settings name 3 [(0, b0); (1, b1)] b2 w)
    as (w2 & w3 & Erun & _ & Elast & Hdest & Hgone); [done|lia| | |done|done|].
  { repeat constructor; simpl; lia. }
  { intros i Hir. assert (i = 0 \/ i = 1) as [-> | ->] by lia; by eexists. }
  cbn [run_uploads length replicate] in Erun.
  destruct (serve (upload_file settings b0 name 0 3) w) as [r0 w1] eqn:E0.
  destruct (serve (upload_file settings b1 name 1 3) w1) as [r1 w2'] eqn:E1.
  injection Erun as -> -> ->.
  exists w1, w2, w3. split_and!; [done|done|exact Elast| |done].
  rewrite Hdest. change (seqZ 0 (3 - 1)) with [0; 1]. cbn.
  by rewrite (right_id_L [] (++)), <-(assoc_L (++)).
Qed.

Lemma latest_app (l1 l2 : list (Z * list byte)) (i : Z) :
  latest (l1 ++ l2) i
  = match latest l2 i with Some b => Some b | None => latest l1 i end.
Proof.
  induction l1 as [|[j b] l1 IH]; simpl; [by destruct (latest l2 i)|].
  rewrite IH. by destruct (latest l2 i).
Qed.

Lemma latest_absent (l : list (Z * list byte)) (i : Z) :
  Forall (fun a => a.1 ≠ i) l -> latest l i = None.
Proof.
  induction 1 as [|[j b] l Hj _ IH]; [done|].
  cbn [latest]. rewrite IH. by rewrite bool_decide_eq_false_2.
Qed.

(** Of two deliveries of one index, the earlier one leaves no mark. *)
Lemma latest_redelivered before between after k old new i :
  Forall (fun a => a.1 ≠ k) after ->
  latest (before ++ (k, old) :: between ++ (k, new) :: after) i
  = if bool_decide (i = k) then Some new
    else latest (before ++ between ++ after) i.
Proof.
  intros Hafter.
  rewrite !latest_app. cbn [latest]. rewrite !latest_app. cbn [latest].
  destruct (decide (i = k)) as [->|Hik].
  - rewrite (latest_absent after k Hafter). by rewrite !bool_decide_eq_true_2.
  - rewrite !(bool_decide_eq_false_2 (k = i)), (bool_decide_eq_false_2 (i = k)) by done.
    by destruct (latest after i), (latest between i).
Qed.

(** C6: in a session of [total_chunks] chunks, when index [k] below the
    last is delivered with [old] and later again with [new], whatever is
    delivered before, between and after, the scratch file of [k] holds [new]
    once the chunks below the last index are in, and the artifact made when
    the last index arrives holds [new] at index [k] and, at the other
    indices, what it would hold without the two deliveries: [old] is not
    in it. *)
Theorem redelivered_chunk_overwrites (name : string) (total_chunks k : Z)
    (before between after : list (Z * list byte)) (old new last_bytes : list byte)
    (w : world) :
  let arrivals := before ++ (k, old) :: between ++ (k, new) :: after in
  allowed_file_type name = true ->
  0 <= k < total_chunks - 1 ->
  non_final total_chunks (before ++ between ++ after) ->
  Forall (fun a => a.1 ≠ k) after ->
  (forall i, 0 <= i < total_chunks - 1 -> i ≠ k ->
     is_Some (latest (before ++ between ++ after) i)) ->
  scratch_ready settings (fs w) name total_chunks ->
  import_ready settings (fs w) name ->
  exists w1 w2,
    run_uploads settings name total_chunks arrivals w
    = (replicate (length arrivals) (Response 200 (Message "Chunk Uploaded")), w1)
    /\ fs w1 !! chunk_path settings name k = Some (File new)
    /\ serve (upload_file settings last_bytes name (total_chunks - 1) total_chunks) w1
       = (Response 200 (Message "File Uploaded"), w2)
    /\ fs w2 !! dest_path settings name
       = Some (File (concat ((fun i => if bool_decide (i = k) then new
                                       else default [] (latest (before ++ between ++ after) i))
                               <$> seqZ 0 (total_chunks - 1))
                     ++ last_bytes))
    /\ forall i, 0 <= i < total_chunks -> fs w2 !! chunk_path settings name i = None.
Proof.
  intros arrivals Ha Hk Hnf Hafter Hall Hs Hi.
  assert (Hlatest : forall i, latest arrivals i
            = if bool_decide (i = k) then Some new
              else latest (before ++ between ++ after) i).
  { intros i. by apply latest_redelivered. }
  destruct (upload_session settings name total_chunks arrivals last_bytes w)
    as (w1 & w2 & Erun & Hlook & Elast & Hdest & Hgone); [done|lia| | |done|done|].
  { unfold non_final, arrivals in *.
    rewrite !Forall_app in Hnf. destruct Hnf as (Hb & Hm & Haf).
    rewrite Forall_app, Forall_cons, Forall_app, Forall_cons.
    split_and!; simpl; first [assumption | lia]. }
  { intros i Hir. rewrite Hlatest. case_bool_decide; [by eexists|by apply Hall]. }
  exists w1, w2. split_and!; [done| |done| |done].
  - apply Hlook. rewrite Hlatest. by rewrite bool_decide_eq_true_2.
  - rewrite Hdest. do 4 f_equal. apply list_fmap_ext. intros idx i _.
    cbv beta. rewrite Hlatest. by case_bool_decide.
Qed.
End UploadResults.

Section UploadExamples.
#[local] Existing Instance Demo.collaborators.

(** C3 as stated fails: chunk 1 of 2 arrives first, with an accepted name;
    the completion step is entered, finds no file for chunk 0, and the
    request is answered 500, not "File Uploaded". *)
Lemma upload_last_chunk_first_counterexample :
  let answer := serve (upload_file default_settings [x01] "a.svs" 1 2) Demo.ready in
  allowed_file_type "a.svs" = true
  /\ 1 + 1 = 2
  /\ completion_started default_settings Demo.ready answer.2
  /\ answer.1 = Response 500 (PlainText "Internal Server Error")
  /\ body answer.1 ≠ Message "File Uploaded".
Proof.
  split_and!; [reflexivity|reflexivity| |reflexivity|discriminate].
  unfold completion_started. apply (bool_decide_unpack _). vm_compute. exact I.
Qed.

Lemma upload_completion_trigger_witness :
  allowed_file_type "a.svs" = true
  /\ writable (fs Demo.ready) (chunk_path default_settings "a.svs" 1)
  /\ let answer := serve (upload_file default_settings [x01] "a.svs" 1 2) Demo.ready in
     (completion_started default_settings Demo.ready answer.2 <-> 1 + 1 = 2)
     /\ (1 + 1 ≠ 2 -> answer.1 = Response 200 (Message "Chunk Uploaded"))
     /\ (1 + 1 = 2 ->
         (answer.1 = Response 200 (Message "File Uploaded")
          \/ answer.1 = Response 500 (PlainText "Internal Server Error"))
         /\ (import_ready default_settings (fs Demo.ready) "a.svs" ->
             (forall i, 0 <= i < 2 -> i ≠ 1 ->
                exists c, fs Demo.ready !! chunk_path default_settings "a.svs" i
                          = Some (File c)) ->
             answer.1 = Response 200 (Message "File Uploaded"))
         /\ ((exists i, 0 <= i < 2 /\ i ≠ 1
                /\ fs Demo.ready !! chunk_path default_settings "a.svs" i = None) ->
             answer.1 = Response 500 (PlainText "Internal Server Error"))).
Proof.
  assert (Hw : writable (fs Demo.ready) (chunk_path default_settings "a.svs" 1)).
  { split; [vm_compute; discriminate|reflexivity]. }
  split; [reflexivity|]. split; [exact Hw|].
  apply (upload_completion_trigger default_settings [x01] "a.svs" 1 2 Demo.ready);
    [reflexivity|exact Hw].
Defined.

Lemma three_chunks_scratch_ready :
  scratch_ready default_settings (fs Demo.staging) "slide.svs" 3.
Proof.
  intros i Hi. assert (i = 0 \/ i = 1 \/ i = 2) as [->|[->| ->]] by lia;
    (split; [vm_compute; discriminate|reflexivity]).
Defined.

Lemma slide_import_ready : import_ready default_settings (fs Demo.staging) "slide.svs".
Proof.
  split_and!; [vm_compute; discriminate| |left; reflexivity].
  right. split; reflexivity.
Defined.

Lemma upload_three_chunks_in_order_witness :
  allowed_file_type "slide.svs" = true
  /\ scratch_ready default_settings (fs Demo.staging) "slide.svs" 3
  /\ import_ready default_settings (fs Demo.staging) "slide.svs"
  /\ exists w1 w2 w3,
       serve (upload_file default_settings [x01] "slide.svs" 0 3) Demo.staging
       = (Response 200 (Message "Chunk Uploaded"), w1)
       /\ serve (upload_file default_settings [x02] "slide.svs" 1 3) w1
          = (Response 200 (Message "Chunk Uploaded"), w2)
       /\ serve (upload_file default_settings [x03] "slide.svs" 2 3) w2
          = (Response 200 (Message "File Uploaded"), w3)
       /\ fs w3 !! dest_path default_settings "slide.svs"
          = Some (File ([x01] ++ [x02] ++ [x03]))
       /\ forall i, 0 <= i < 3 ->
            fs w3 !! chunk_path default_settings "slide.svs" i = None.
Proof.
  split; [reflexivity|]. split; [exact three_chunks_scratch_ready|].
  split; [exact slide_import_ready|].
  apply (upload_three_chunks_in_order default_settings "slide.svs" [x01] [x02] [x03]
           Demo.staging);
    [reflexivity|exact three_chunks_scratch_ready|exact slide_import_ready].
Defined.

(** A single-chunk upload into a world without an import root: both
    levels of the import area are made. *)
Example upload_makes_import_area :
  let '(answer, w) := serve (upload_file default_settings [x01] "a.svs" 0 1) Demo.bare in
  answer = Response 200 (Message "File Uploaded")
  /\ fs w !! "/iv-import" = Some Dir
  /\ fs w !! "/iv-import/public" = Some Dir
  /\ fs w !! "/iv-import/public/a.svs" = Some (File [x01]).
Proof. vm_compute. by split_and!. Qed.

(** The session of C1, run. *)
Example upload_three_chunks_run :
  let '(answers, w3) :=
    run_uploads default_settings "slide.svs" 3 [(0, [x01]); (1, [x02]); (2, [x03])]
      Demo.staging in
  body <$> answers
  = [Message "Chunk Uploaded"; Message "Chunk Uploaded"; Message "File Uploaded"]
  /\ fs w3 !! "/iv-import/public/slide.svs" = Some (File [x01; x02; x03])
  /\ fs w3 !! "/tmp/slide.svs_0" = None
  /\ fs w3 !! "/tmp/slide.svs_1" = None
  /\ fs w3 !! "/tmp/slide.svs_2" = None.
Proof. vm_compute. by split_and!. Qed.

Lemma redelivered_chunk_overwrites_witness :
  let arrivals := [(0, [x01])] ++ (1, [x02]) :: [] ++ (1, [x03]) :: [] in
  allowed_file_type "slide.svs" = true
  /\ 0 <= 1 < 3 - 1
  /\ non_final 3 ([(0, [x01])] ++ [] ++ [])
  /\ Forall (fun a : Z * list byte => a.1 ≠ 1) []
  /\ (forall i, 0 <= i < 3 - 1 -> i ≠ 1 ->
        is_Some (latest ([(0, [x01])] ++ [] ++ []) i))
  /\ scratch_ready default_settings (fs Demo.staging) "slide.svs" 3
  /\ import_ready default_settings (fs Demo.staging) "slide.svs"
  /\ exists w1 w2,
       run_uploads default_settings "slide.svs" 3 arrivals Demo.staging
       = (replicate (length arrivals) (Response 200 (Message "Chunk Uploaded")), w1)
       /\ fs w1 !! chunk_path default_settings "slide.svs" 1 = Some (File [x03])
       /\ serve (upload_file default_settings [x04] "slide.svs" (3 - 1) 3) w1
          = (Response 200 (Message "File Uploaded"), w2)
       /\ fs w2 !! dest_path default_settings "slide.svs"
          = Some (File (concat ((fun i => if bool_decide (i = 1) then [x03]
                                          else default []
                                                 (latest ([(0, [x01])] ++ [] ++ []) i))
                                  <$> seqZ 0 (3 - 1))
                        ++ [x04]))
       /\ forall i, 0 <= i < 3 ->
            fs w2 !! chunk_path default_settings "slide.svs" i = None.
Proof.
  assert (Hnf : non_final 3 ([(0, [x01])] ++ [] ++ [])).
  { repeat constructor; simpl; lia. }
  assert (Hall : forall i, 0 <= i < 3 - 1 -> i ≠ 1 ->
            is_Some (latest ([(0, [x01])] ++ [] ++ []) i)).
  { intros i Hi Hne. assert (i = 0) as -> by lia. by eexists. }
  intros arrivals. split; [reflexivity|]. split; [lia|]. split; [exact Hnf|].
  split; [constructor|]. split; [exact Hall|].
  split; [exact three_chunks_scratch_ready|]. split; [exact slide_import_ready|].
  apply (redelivered_chunk_overwrites default_settings "slide.svs" 3 1
           [(0, [x01])] [] [] [x02] [x03] [x04] Demo.staging);
    [reflexivity|lia|exact Hnf|constructor|exact Hall
    |exact three_chunks_scratch_ready|exact slide_import_ready].
Defined.

(** The session of the specification's example for C6, run: index 1 is
    sent twice before index 2. *)
Example redelivery_run :
  let '(answers, w) :=
    run_uploads default_settings "slide.svs" 3
      [(0, [x01]); (1, [x02]); (1, [x03]); (2, [x04])] Demo.staging in
  fs w !! "/iv-import/public/slide.svs" = Some (File [x01; x03; x04]).
Proof. vm_compute. reflexivity. Qed.

End UploadExamples.

(** * Further properties *)

(** ** Computations that only read *)

Lemma reads_only_bind {A B} (m : M A) (f : A -> M B) :
  reads_only m -> (forall a, reads_only (f a)) -> reads_only (m ≫= f).
Proof.
  intros Hm Hf w. unfold mbind, M_bind. specialize (Hm w).
  destruct (m w) as [[e|a] w1]; [done|]. rewrite <-Hm. apply Hf.
Qed.

Lemma reads_only_ret {A} (a : A) : reads_only (mret a).
Proof. by intros w. Qed.

Lemma reads_only_raise {A} (e : exn) : reads_only (raise (A := A) e).
Proof. by intros w. Qed.

Lemma reads_only_lift {A} (e : exn) (o : option A) : reads_only (lift e o).
Proof. by destruct o. Qed.

Lemma reads_only_try {A} (m h : M A) :
  reads_only m -> reads_only h -> reads_only (try_except m h).
Proof.
  intros Hm Hh w. unfold try_except. specialize (Hm w).
  destruct (m w) as [[e|a] w1]; [|done]. rewrite <-Hm. apply Hh.
Qed.

Lemma reads_only_path_exists p : reads_only (Os.path_exists p).
Proof. by intros w. Qed.

Lemma reads_only_isdir p : reads_only (Os.isdir p).
Proof. by intros w. Qed.

Lemma reads_only_read_file p : reads_only (Os.read_file p).
Proof. intros w. by rewrite read_file_run. Qed.

Lemma reads_only_listdir p : reads_only (Os.listdir p).
Proof. intros w. by rewrite listdir_run. Qed.

Lemma reads_only_run_du du p : reads_only (Os.run_du du p).
Proof.
  intros w. unfold Os.run_du, mbind, M_bind, log, get_world; simpl.
  by destruct (du_stdout w p).
Qed.

Lemma reads_only_JSONResponse `{Collaborators} (c : content) (status : Z) :
  reads_only (JSONResponse c status).
Proof. intros w. unfold JSONResponse. by destruct (renders c). Qed.

Lemma serve_fs `{Collaborators} (m : M response) :
  reads_only m -> forall w, fs (serve m w).2 = fs w.
Proof. intros Hm w. rewrite serve_world. apply Hm. Qed.

(** ** The catalog, in full *)

Section CatalogFull.
Context `{Collaborators}.
Variable settings : Settings.

Lemma reads_only_scan_entries base_dir entries acc :
  reads_only (scan_entries base_dir entries acc).
Proof. intros w. apply scan_entries_fs. Qed.

Lemma reads_only_find_zarr_datasets base_dir : reads_only (find_zarr_datasets base_dir).
Proof.
  unfold find_zarr_datasets. apply reads_only_bind; [apply reads_only_listdir|].
  intros entries. apply reads_only_scan_entries.
Qed.

(** One entry of the scan: passed over, collected, or fatal. *)
Lemma scan_entries_step base_dir entry rest acc w :
  exists w', fs w' = fs w /\
    match (if selected (fs w) base_dir entry
           then Some (catalog_entry (fs w) base_dir entry) else None) with
    | None =>
        scan_entries base_dir (entry :: rest) acc w = scan_entries base_dir rest acc w'
    | Some (Some d) =>
        scan_entries base_dir (entry :: rest) acc w
        = scan_entries base_dir rest (acc ++ [d]) w'
    | Some None =>
        exists e w'', scan_entries base_dir (entry :: rest) acc w = (inl e, w'')
    end.
Proof.
  cbn [scan_entries]. rewrite (bind_inr _ _ _ _ _ (isdir_run _ w)).
  unfold selected, catalog_entry, sidecar_details.
  destruct (fs w !! OsPath.join base_dir entry) as [[c|]|] eqn:Hdir;
    cbn [andb]; try (eexists; split; [|reflexivity]; reflexivity).
  destruct (Py.endswith entry ".zarr"); [|eexists; split; [|reflexivity]; reflexivity].
  destruct (OmeZarrConnector (OsPath.join base_dir entry)) as [conn|]; cbn [lift].
  2:{ exists w. split; [done|]. by eexists _, _. }
  rewrite (bind_inr (mret conn) _ _ conn _ eq_refl).
  rewrite (bind_inr _ _ _ _ _ (path_exists_run _ _)).
  destruct (fs w !! OsPath.join (OsPath.join base_dir entry) "sample.json")
    as [[raw|]|] eqn:Hside.
  - rewrite bool_decide_eq_true_2 by (cbn [fs add_event]; by rewrite Hside).
    rewrite bind_assoc.
    set (w1 := add_event (EvExists _) _).
    assert (Er : Os.read_file
                   (OsPath.join (OsPath.join base_dir entry) "sample.json") w1
                 = (inr raw, add_event (EvOpenR
                      (OsPath.join (OsPath.join base_dir entry) "sample.json")) w1)).
    { rewrite read_file_run. unfold w1. cbn [fs add_event]. by rewrite Hside. }
    rewrite (bind_inr _ _ _ _ _ Er).
    destruct (json_loads raw) as [dt|]; cbn [lift].
    + rewrite (bind_inr (mret dt) _ _ dt _ eq_refl).
      eexists. split; [|reflexivity]. done.
    + exists w. split; [done|]. by eexists _, _.
  - rewrite bool_decide_eq_true_2 by (cbn [fs add_event]; by rewrite Hside).
    rewrite bind_assoc.
    set (w1 := add_event (EvExists _) _).
    assert (Er : Os.read_file
                   (OsPath.join (OsPath.join base_dir entry) "sample.json") w1
                 = (inl IsADirectoryError, add_event (EvOpenR
                      (OsPath.join (OsPath.join base_dir entry) "sample.json")) w1)).
    { rewrite read_file_run. unfold w1. cbn [fs add_event]. by rewrite Hside. }
    rewrite (bind_inl _ _ _ _ _ Er).
    exists w. split; [done|]. by eexists _, _.
  - rewrite bool_decide_eq_false_2
      by (cbn [fs add_event]; rewrite Hside; apply is_Some_None).
    rewrite (bind_inr (mret json_empty) _ _ json_empty _ eq_refl).
    eexists. split; [|reflexivity]. done.
Qed.

(** What the scan of a list of entries returns, when it returns: the
    entries of the selected names, in the order of the list, after what was
    collected before. *)
Lemma scan_entries_returns base_dir entries acc w ds :
  (scan_entries base_dir entries acc w).1 = inr ds
  <-> exists found,
        mapM (catalog_entry (fs w) base_dir)
          (List.filter (selected (fs w) base_dir) entries) = Some found
        /\ ds = acc ++ found.
Proof.
  revert acc w. induction entries as [|entry rest IH]; intros acc w.
  { cbn. split.
    - intros [= <-]. exists []. by rewrite (right_id_L [] (++)).
    - intros (found & [= <-] & ->). by rewrite (right_id_L [] (++)). }
  destruct (scan_entries_step base_dir entry rest acc w) as (w' & Hfs & Hstep).
  cbn [List.filter].
  destruct (selected (fs w) base_dir entry).
  - cbn [mapM]. destruct (catalog_entry (fs w) base_dir entry) as [d|].
    + rewrite Hstep, IH, Hfs. cbn. split.
      * intros (found & -> & ->). eexists. split; [done|]. by rewrite <-(assoc_L (++)).
      * intros (found & Hf & ->).
        destruct (mapM _ _) as [found'|]; [|done]. injection Hf as <-.
        exists found'. split; [done|]. by rewrite <-(assoc_L (++)).
    + destruct Hstep as (e & w'' & ->). cbn. split; [done|]. by intros (found & [=] & _).
  - by rewrite Hstep, IH, Hfs.
Qed.

End CatalogFull.

Section CatalogEndpoint.
Context `{Collaborators}.
Variable settings : Settings.


(** X3: the catalog endpoint only reads: whatever it answers, the file
    system is as before. *)
Theorem samples_reads_only (location : string) (w : world) :
  fs (serve (samples settings location) w).2 = fs w.
Proof.
  apply serve_fs. unfold samples.
  apply reads_only_bind; [|intros; apply reads_only_JSONResponse].
  apply reads_only_try; [apply reads_only_find_zarr_datasets|apply reads_only_ret].
Qed.
End CatalogEndpoint.

Section CatalogEndpointExamples.
#[local] Existing Instance Demo.collaborators.


End CatalogEndpointExamples.

(** ** [POST /save], save mode on *)

Section SaveFull.
Context `{Collaborators}.
Variable settings : Settings.

Lemma save_run (file : string) (request_body : list byte) (data : Json) (w : world) :
  SAVE settings = true ->
  request_json request_body = inr data ->
  writable (fs w) (save_path settings file) ->
  save_slide_settings settings file request_body w
  = (inr (Response 200 (PlainText "OK")),
     set_fs (<[save_path settings file := File (json_dumps data)]> (fs w))
       (add_event (EvOpenW (save_path settings file)) w)).
Proof.
  intros Hsave Hbody Hw. unfold save_slide_settings, request_data.
  rewrite Hsave, Hbody.
  rewrite (bind_inr (mret data) _ _ data _ eq_refl). cbn zeta.
  fold (save_path settings file). by rewrite scratch_write_run.
Qed.

(** X4: with the save flag on, a body that parses and a writable path,
    the save endpoint answers 200 "OK"; the file [slide_dir / file /
    'sample.json'], a path [pathlib] has normalised, then holds the
    serialised body, whatever it held before, and nothing else in the file
    system has changed. *)
Theorem save_writes_settings (file : string) (request_body : list byte) (data : Json)
    (w : world) :
  SAVE settings = true ->
  request_json request_body = inr data ->
  writable (fs w) (save_path settings file) ->
  exists w',
    serve (save_slide_settings settings file request_body) w
    = (Response 200 (PlainText "OK"), w')
    /\ fs w' = <[save_path settings file := File (json_dumps data)]> (fs w).
Proof.
  intros Hsave Hbody Hw. unfold serve. rewrite (save_run file request_body data) by done.
  by eexists.
Qed.

(** X5: with the save flag on, a body from which no value can be had is
    refused before anything is opened, and the world is as before: the
    answer is 400 "Invalid JSON" when the parser raised [JSONDecodeError],
    the one exception the handler catches, and 500 when it raised anything
    else (a body that is not text raises [UnicodeDecodeError]). *)
Theorem save_rejects_invalid_json (file : string) (request_body : list byte) (e : exn)
    (w : world) :
  SAVE settings = true ->
  request_json request_body = inl e ->
  os_error e ->
  serve (save_slide_settings settings file request_body) w
  = (match e with
     | JSONDecodeError => Response 400 (Detail "Invalid JSON")
     | _ => Response 500 (PlainText "Internal Server Error")
     end, w).
Proof.
  intros Hsave Hbody He. unfold serve, save_slide_settings, request_data.
  rewrite Hsave, Hbody. by destruct e.
Qed.

(** X6: with the save flag on and a body that parses, a path that cannot
    be written (its directory is missing, or a directory sits at it) is
    answered 500, and no file is created or changed. *)
Theorem save_unwritable_path (file : string) (request_body : list byte) (data : Json)
    (w : world) :
  SAVE settings = true ->
  request_json request_body = inr data ->
  ~ writable (fs w) (save_path settings file) ->
  (serve (save_slide_settings settings file request_body) w).1
  = Response 500 (PlainText "Internal Server Error")
  /\ fs (serve (save_slide_settings settings file request_body) w).2 = fs w.
Proof.
  intros Hsave Hbody Hw. unfold serve, save_slide_settings, request_data.
  rewrite Hsave, Hbody.
  rewrite (bind_inr (mret data) _ _ data _ eq_refl). cbn zeta.
  fold (save_path settings file).
  destruct (scratch_write_fails (save_path settings file) (json_dumps data)
              (mret (Response 200 (PlainText "OK"))) w Hw) as (e & He & ->).
  by destruct e.
Qed.

(** X7: what is saved is what the catalog shows.  After a successful save
    to the [sample.json] of a directory entry, if the codec reads back what
    it writes and the scan of the directory returns, then the dataset of
    that entry carries the saved settings as its details. *)
Theorem saved_settings_in_catalog (file : string) (request_body : list byte) (data : Json)
    (w : world) (base_dir entry : string) (i : nat) (ds : list dataset) :
  let w' := (serve (save_slide_settings settings file request_body) w).2 in
  SAVE settings = true ->
  request_json request_body = inr data ->
  json_loads (json_dumps data) = Some data ->
  writable (fs w) (save_path settings file) ->
  save_path settings file = OsPath.join (OsPath.join base_dir entry) "sample.json" ->
  List.filter (selected (fs w') base_dir) (readdir w' base_dir) !! i = Some entry ->
  (find_zarr_datasets base_dir w').1 = inr ds ->
  exists d, ds !! i = Some d /\ details d = data /\ name d = Py.drop_last 5 entry.
Proof.
  intros w' Hsave Hbody Hcodec Hw Hpath Hentry Hscan.
  assert (Hfs : fs w' = <[save_path settings file := File (json_dumps data)]> (fs w)).
  { unfold w'. rewrite serve_world, (save_run file request_body data) by done. done. }
  unfold find_zarr_datasets, mbind at 1, M_bind in Hscan. rewrite listdir_run in Hscan.
  destruct (fs w' !! base_dir) as [[c|]|]; [done| |done].
  cbn [get_world] in Hscan. apply scan_entries_returns in Hscan as (found & Hfound & ->).
  cbn [fs add_event] in Hfound. rewrite (left_id_L [] (++)).
  apply mapM_Some in Hfound.
  destruct (Forall2_lookup_l _ _ _ i entry Hfound Hentry) as (d & Hd & Hcat).
  exists d. split; [done|].
  unfold catalog_entry, sidecar_details in Hcat.
  destruct (OmeZarrConnector _) as [conn|]; [|done].
  rewrite <-Hpath, Hfs, lookup_insert_eq, Hcodec in Hcat.
  by injection Hcat as <-.
Qed.
End SaveFull.

Section SaveExamples.
#[local] Existing Instance Demo.collaborators.

Lemma save_writes_settings_witness :
  SAVE SaveDemo.saving = true
  /\ request_json (String.list_byte_of_string "settings") = inr "settings"
  /\ writable (fs Demo.good_only) (save_path SaveDemo.saving "public/good.zarr")
  /\ exists w',
       serve (save_slide_settings SaveDemo.saving "public/good.zarr"
                (String.list_byte_of_string "settings")) Demo.good_only
       = (Response 200 (PlainText "OK"), w')
       /\ fs w' = <[save_path SaveDemo.saving "public/good.zarr"
                    := File (json_dumps "settings")]> (fs Demo.good_only).
Proof.
  assert (Hw : writable (fs Demo.good_only)
                 (save_path SaveDemo.saving "public/good.zarr")).
  { split; [vm_compute; discriminate|reflexivity]. }
  split; [reflexivity|]. split; [reflexivity|]. split; [exact Hw|].
  apply (save_writes_settings (H := Demo.collaborators) SaveDemo.saving "public/good.zarr"
           (String.list_byte_of_string "settings") "settings" Demo.good_only);
    [reflexivity|reflexivity|exact Hw].
Defined.

Lemma save_unwritable_path_witness :
  SAVE SaveDemo.saving = true
  /\ request_json (String.list_byte_of_string "settings") = inr "settings"
  /\ ~ writable (fs Demo.ready) (save_path SaveDemo.saving "public/ghost.zarr")
  /\ (serve (save_slide_settings SaveDemo.saving "public/ghost.zarr"
               (String.list_byte_of_string "settings")) Demo.ready).1
     = Response 500 (PlainText "Internal Server Error")
  /\ fs (serve (save_slide_settings SaveDemo.saving "public/ghost.zarr"
                  (String.list_byte_of_string "settings")) Demo.ready).2
     = fs Demo.ready.
Proof.
  assert (Hw : ~ writable (fs Demo.ready)
                   (save_path SaveDemo.saving "public/ghost.zarr")).
  { intros [_ Hpar]. vm_compute in Hpar. discriminate. }
  split; [reflexivity|]. split; [reflexivity|]. split; [exact Hw|].
  apply (save_unwritable_path (H := Demo.collaborators) SaveDemo.saving "public/ghost.zarr"
           (String.list_byte_of_string "settings") "settings" Demo.ready);
    [reflexivity|reflexivity|exact Hw].
Defined.

Lemma saved_settings_in_catalog_witness :
  let body := String.list_byte_of_string "settings" in
  let w' := (serve (save_slide_settings SaveDemo.saving "public/good.zarr" body)
               Demo.good_only).2 in
  let ds := [{| name := "good"; details := "settings";
                ds_metadata := "/iv-store/public/good.zarr" |}] in
  SAVE SaveDemo.saving = true
  /\ request_json body = inr "settings"
  /\ json_loads (json_dumps "settings") = Some "settings"
  /\ writable (fs Demo.good_only) (save_path SaveDemo.saving "public/good.zarr")
  /\ save_path SaveDemo.saving "public/good.zarr"
     = OsPath.join (OsPath.join "/iv-store/public" "good.zarr") "sample.json"
  /\ List.filter (selected (fs w') "/iv-store/public") (readdir w' "/iv-store/public")
       !! 0%nat = Some "good.zarr"
  /\ (find_zarr_datasets "/iv-store/public" w').1 = inr ds
  /\ exists d, ds !! 0%nat = Some d /\ details d = "settings"
               /\ name d = Py.drop_last 5 "good.zarr".
Proof.
  intros body w' ds.
  assert (Hw : writable (fs Demo.good_only)
                 (save_path SaveDemo.saving "public/good.zarr")).
  { split; [vm_compute; discriminate|reflexivity]. }
  assert (Hentry : List.filter (selected (fs w') "/iv-store/public")
                     (readdir w' "/iv-store/public") !! 0%nat = Some "good.zarr").
  { vm_compute. reflexivity. }
  assert (Hscan : (find_zarr_datasets "/iv-store/public" w').1 = inr ds).
  { vm_compute. reflexivity. }
  split; [reflexivity|]. split; [reflexivity|]. split; [reflexivity|].
  split; [exact Hw|]. split; [reflexivity|]. split; [exact Hentry|].
  split; [exact Hscan|].
  apply (saved_settings_in_catalog (H := Demo.collaborators) SaveDemo.saving
           "public/good.zarr" body "settings"
           Demo.good_only "/iv-store/public" "good.zarr" 0%nat ds);
    [reflexivity|reflexivity|reflexivity|exact Hw|reflexivity|exact Hentry|exact Hscan].
Defined.

End SaveExamples.

Section SaveStrictExamples.
#[local] Existing Instance SaveDemo.strict.

Lemma save_rejects_invalid_json_witness :
  SAVE SaveDemo.saving = true
  /\ request_json [] = inl JSONDecodeError
  /\ os_error JSONDecodeError
  /\ serve (save_slide_settings SaveDemo.saving "public/good.zarr" []) Demo.good_only
     = (Response 400 (Detail "Invalid JSON"), Demo.good_only).
Proof.
  split; [reflexivity|]. split; [reflexivity|]. split; [exact I|].
  apply (save_rejects_invalid_json SaveDemo.saving "public/good.zarr" []
           JSONDecodeError Demo.good_only); [reflexivity|reflexivity|exact I].
Defined.

(** A body that is not text is answered 500, not 400. *)
Example save_body_not_text :
  serve (save_slide_settings SaveDemo.saving "public/good.zarr" [x80]) Demo.good_only
  = (Response 500 (PlainText "Internal Server Error"), Demo.good_only).
Proof. reflexivity. Qed.

(** The path is normalised before it is opened: the doubled slash of
    [public//good.zarr] is gone, and the file is written. *)
Example save_normalises_path :
  save_path SaveDemo.saving "public//good.zarr" = "/iv-store/public/good.zarr/sample.json"
  /\ (serve (save_slide_settings SaveDemo.saving "public//good.zarr" [x31]) Demo.good_only).1
     = Response 200 (PlainText "OK").
Proof. split; reflexivity. Qed.

End SaveStrictExamples.

(** ** [POST /upload]: further sessions *)

Section UploadFurther.
Context `{Collaborators}.
Variable settings : Settings.

(** The last chunk, up to the loop: the chunk is written, the import area
    is there, the artifact is empty. *)
Lemma upload_reaches_loop file name k n w :
  allowed_file_type name = true -> k + 1 = n ->
  writable (fs w) (chunk_path settings name k) ->
  import_ready settings (fs w) name ->
  exists w2,
    upload_file settings file name k n w
    = (concat_chunks settings name (Z.to_nat n) 0 ;;
       mret (Response 200 (Message "File Uploaded"))) w2
    /\ fs w2 = <[dest_path settings name := File []]>
                 (<[public_dir settings := Dir]>
                    (<[chunk_path settings name k := File file]> (fs w))).
Proof.
  intros Ha Hk Hw Himp.
  rewrite upload_file_allowed, scratch_write_run by done.
  rewrite (proj2 (Z.eqb_eq _ _) Hk).
  set (w0 := set_fs _ _).
  assert (Himp0 : import_ready settings (fs w0) name).
  { by apply import_ready_insert_chunk. }
  destruct Himp0 as (Hd0 & Hpub0 & Hpar0).
  destruct (ensure_public_run settings w0 Hpub0) as (w1 & E1 & Hfs1).
  unfold completion. rewrite <-bind_assoc. rewrite (bind_inr _ _ _ _ _ E1).
  assert (Hd1 : fs w1 !! dest_path settings name ≠ Some Dir).
  { rewrite Hfs1, lookup_insert_ne; [done|]. intros E. symmetry in E.
    by apply dest_path_not_public in E. }
  assert (Hpar1 : fs w1 !! OsPath.dirname (dest_path settings name) = Some Dir).
  { rewrite Hfs1. destruct Hpar0 as [->|Hpar0]; [by rewrite lookup_insert_eq|].
    destruct (decide (public_dir settings = OsPath.dirname (dest_path settings name)))
      as [<-|Hne]; [by rewrite lookup_insert_eq|by rewrite lookup_insert_ne]. }
  assert (E2 : Os.open_w (dest_path settings name) w1
               = (inr tt, set_fs (<[dest_path settings name := File []]> (fs w1))
                            (add_event (EvOpenW (dest_path settings name)) w1))).
  { rewrite open_w_run, Hpar1. by destruct (fs w1 !! dest_path settings name) as [[c|]|]. }
  rewrite (bind_inr _ _ _ _ _ E2). eexists. split; [reflexivity|].
  cbn [fs set_fs add_event]. by rewrite Hfs1.
Qed.

(** The loop, with the chunk files of its first [m] rounds in place and
    the next one missing: it stops there with [FileNotFoundError], having
    appended and removed the [m] chunks. *)
Lemma concat_chunks_stops name (payload : Z -> list byte) m r chunk acc w :
  allowed_file_type name = true ->
  fs w !! dest_path settings name = Some (File acc) ->
  (forall i, chunk <= i < chunk + Z.of_nat m ->
     fs w !! chunk_path settings name i = Some (File (payload i))) ->
  fs w !! chunk_path settings name (chunk + Z.of_nat m) = None ->
  exists w',
    concat_chunks settings name (m + S r) chunk w = (inl FileNotFoundError, w')
    /\ fs w' !! dest_path settings name
       = Some (File (acc ++ concat (payload <$> seqZ chunk (Z.of_nat m))))
    /\ (forall i, chunk <= i < chunk + Z.of_nat m ->
          fs w' !! chunk_path settings name i = None)
    /\ (forall p, p ≠ dest_path settings name ->
          (forall i, chunk <= i < chunk + Z.of_nat m -> p ≠ chunk_path settings name i) ->
          fs w' !! p = fs w !! p).
Proof.
  intros Ha. revert chunk acc w. induction m as [|m IH]; intros chunk acc w Hd Hc Hmiss.
  { replace (chunk + Z.of_nat 0) with chunk in Hmiss by lia.
    cbn [Nat.add concat_chunks]. eexists. split.
    { apply bind_inl. rewrite read_file_run, Hmiss. reflexivity. }
    cbn [fs add_event]. split_and!; [|intros; lia|done].
    rewrite seqZ_nil by done. cbn. by rewrite (right_id_L [] (++)). }
  destruct (concat_round settings name (m + S r) chunk (payload chunk) acc w)
    as (w1 & E & Hfs1); [done|apply Hc; lia|done|].
  assert (Hne : forall i, i ≠ chunk ->
            chunk_path settings name chunk ≠ chunk_path settings name i).
  { intros i Hi E'. by apply chunk_path_inj in E'. }
  assert (Hnd : forall i, dest_path settings name ≠ chunk_path settings name i).
  { intros i E'. by apply (chunk_path_not_dest settings name i). }
  destruct (IH (chunk + 1) (acc ++ payload chunk) w1) as (w' & E' & Hd' & Hgone & Hother).
  { rewrite Hfs1, lookup_delete_ne, lookup_insert_eq; [done|]. by intros E'; apply (Hnd chunk). }
  { intros i Hi. rewrite Hfs1, lookup_delete_ne, lookup_insert_ne by (auto with lia).
    apply Hc; lia. }
  { rewrite Hfs1, lookup_delete_ne, lookup_insert_ne by (auto with lia).
    replace (chunk + 1 + Z.of_nat m) with (chunk + Z.of_nat (S m)) by lia. done. }
  exists w'. change (S m + S r)%nat with (S (m + S r)). rewrite E.
  split_and!; [done| | |].
  - rewrite Hd', <-(assoc_L (++)). do 2 f_equal.
    rewrite (seqZ_cons chunk) by lia.
    replace (Z.pred (Z.of_nat (S m))) with (Z.of_nat m) by lia.
    replace (Z.succ chunk) with (chunk + 1) by lia.
    by rewrite fmap_cons.
  - intros i Hi. destruct (decide (i = chunk)) as [->|Hi'].
    + rewrite Hother; [|by intros E''; apply (Hnd chunk)|intros i Hi'; apply Hne; lia].
      by rewrite Hfs1, lookup_delete_eq.
    + apply Hgone; lia.
  - intros p Hp Hpc. rewrite Hother; [|done|intros i Hi; apply Hpc; lia].
    rewrite Hfs1, lookup_delete_ne, lookup_insert_ne; [done..|].
    intros E''. apply (Hpc chunk); [lia|done].
Qed.

(** X8: a single-chunk upload ([chunk_number = 0], [total_chunks = 1],
    the defaults of the form) with an accepted name, a writable scratch file
    and a ready import area is answered "File Uploaded"; the artifact holds
    exactly the uploaded bytes and the scratch file is gone. *)
Theorem upload_single_chunk (file : list byte) (name : string) (w : world) :
  allowed_file_type name = true ->
  writable (fs w) (chunk_path settings name 0) ->
  import_ready settings (fs w) name ->
  exists w',
    serve (upload_file settings file name 0 1) w
    = (Response 200 (Message "File Uploaded"), w')
    /\ fs w' !! dest_path settings name = Some (File file)
    /\ fs w' !! chunk_path settings name 0 = None.
Proof.
  intros Ha Hw Himp.
  destruct (upload_last_run settings file name 0 1 (fun _ => file) w)
    as (w' & E & Hd & Hgone); [done|lia|done|done|done|intros; lia|].
  exists w'. unfold serve. rewrite E. split_and!; [done| |apply Hgone; lia].
  rewrite Hd. change (seqZ 0 1) with [0]. cbn. by rewrite (right_id_L [] (++)).
Qed.

(** X9: a last chunk that finds chunk [j] missing, the chunks below [j]
    being in place, is answered 500 and leaves the session damaged: the
    artifact exists and holds the chunks below [j] only, their scratch files
    have been removed, and the scratch file of the last chunk stays. *)
Theorem upload_missing_chunk_consumes (file : list byte) (name : string) (k n j : Z)
    (payload : Z -> list byte) (w : world) :
  allowed_file_type name = true ->
  k + 1 = n ->
  0 <= j < k ->
  writable (fs w) (chunk_path settings name k) ->
  import_ready settings (fs w) name ->
  (forall i, 0 <= i < j ->
     fs w !! chunk_path settings name i = Some (File (payload i))) ->
  fs w !! chunk_path settings name j = None ->
  exists w',
    serve (upload_file settings file name k n) w
    = (Response 500 (PlainText "Internal Server Error"), w')
    /\ fs w' !! dest_path settings name
       = Some (File (concat (payload <$> seqZ 0 j)))
    /\ (forall i, 0 <= i < j -> fs w' !! chunk_path settings name i = None)
    /\ fs w' !! chunk_path settings name k = Some (File file).
Proof.
  intros Ha Hk Hj Hw Himp Hlow Hmiss.
  destruct (upload_reaches_loop file name k n w) as (w2 & E & Hfs2); [done..|].
  assert (Hchunk : forall i, fs w2 !! chunk_path settings name i
            = if bool_decide (i = k) then Some (File file)
              else fs w !! chunk_path settings name i).
  { intros i. rewrite Hfs2.
    rewrite lookup_insert_ne by (intros E'; by apply (chunk_path_not_dest settings name i)).
    rewrite lookup_insert_ne by (intros E'; by apply (chunk_path_not_public settings name i)).
    case_bool_decide as Hik; [subst; by rewrite lookup_insert_eq|].
    rewrite lookup_insert_ne; [done|]. intros E'. by apply chunk_path_inj in E'. }
  destruct (concat_chunks_stops name payload (Z.to_nat j) (Z.to_nat (n - j - 1)) 0 [] w2)
    as (w' & E' & Hd' & Hgone & Hother); [done|by rewrite Hfs2, lookup_insert_eq| |  |].
  { intros i Hi. rewrite Hchunk, bool_decide_eq_false_2 by lia. apply Hlow; lia. }
  { rewrite Z2Nat.id, Hchunk, bool_decide_eq_false_2 by lia. done. }
  replace (Z.to_nat j + S (Z.to_nat (n - j - 1)))%nat with (Z.to_nat n) in E' by lia.
  rewrite Z2Nat.id in Hd', Hgone, Hother by lia.
  exists w'. unfold serve. rewrite E, (bind_inl _ _ _ _ _ E').
  split_and!; [done|done|intros i Hi; apply Hgone; lia|].
  rewrite Hother, Hchunk, bool_decide_eq_true_2; [done..| |].
  - intros E''. by apply (chunk_path_not_dest settings name k).
  - intros i Hi E''. apply chunk_path_inj in E''. lia.
Qed.

(** X10: the total is not checked: with [total_chunks <= 0] and
    [chunk_number = total_chunks - 1], the request is taken for a last
    chunk, the loop runs no round, the answer is "File Uploaded", the
    artifact is empty and the scratch file just written is left behind. *)
Theorem upload_nonpositive_total (file : list byte) (name : string) (n : Z) (w : world) :
  allowed_file_type name = true ->
  n <= 0 ->
  writable (fs w) (chunk_path settings name (n - 1)) ->
  import_ready settings (fs w) name ->
  exists w',
    serve (upload_file settings file name (n - 1) n) w
    = (Response 200 (Message "File Uploaded"), w')
    /\ fs w' !! dest_path settings name = Some (File [])
    /\ fs w' !! chunk_path settings name (n - 1) = Some (File file).
Proof.
  intros Ha Hn Hw Himp.
  destruct (upload_reaches_loop file name (n - 1) n w) as (w2 & E & Hfs2);
    [done|lia|done..|].
  exists w2. unfold serve. rewrite E, Z2Nat.nonpos by done.
  cbn [concat_chunks]. split_and!; [done|by rewrite Hfs2, lookup_insert_eq|].
  rewrite Hfs2.
  rewrite lookup_insert_ne
    by (intros E'; by apply (chunk_path_not_dest settings name (n - 1))).
  rewrite lookup_insert_ne
    by (intros E'; by apply (chunk_path_not_public settings name (n - 1))).
  by rewrite lookup_insert_eq.
Qed.
End UploadFurther.

Section UploadOrder.
Context `{Collaborators}.
Variable settings : Settings.

Lemma run_uploads_app name n (l1 l2 : list (Z * list byte)) w :
  run_uploads settings name n (l1 ++ l2) w
  = let '(r1, w1) := run_uploads settings name n l1 w in
    let '(r2, w2) := run_uploads settings name n l2 w1 in
    (r1 ++ r2, w2).
Proof.
  revert w. induction l1 as [|[i b] l1 IH]; intros w.
  { cbn. by destruct (run_uploads settings name n l2 w). }
  cbn [app run_uploads].
  destruct (serve (upload_file settings b name i n) w) as [r w0].
  rewrite IH. destruct (run_uploads settings name n l1 w0) as [r1 w1].
  by destruct (run_uploads settings name n l2 w1) as [r2 w2].
Qed.

Lemma latest_deliveries (payload : Z -> list byte) (idxs : list Z) (i : Z) :
  latest ((fun j => (j, payload j)) <$> idxs) i
  = if bool_decide (i ∈ idxs) then Some (payload i) else None.
Proof.
  induction idxs as [|j idxs IH]; [done|].
  cbn [fmap list_fmap latest]. rewrite IH.
  destruct (decide (i ∈ idxs)) as [Hin|Hin].
  - rewrite !bool_decide_eq_true_2; [done|by apply list_elem_of_further|done].
  - rewrite (bool_decide_eq_false_2 (i ∈ idxs)) by done.
    destruct (decide (j = i)) as [->|Hne].
    + rewrite !bool_decide_eq_true_2; [done|by apply list_elem_of_here|done].
    + rewrite !bool_decide_eq_false_2; [done| |done].
      intros [?|?]%elem_of_cons; congruence.
Qed.

(** X11: the order of arrival below the last index does not matter.  When
    the chunks [0 .. total_chunks - 2] arrive in any order, each at least
    once with its payload, and the last index arrives after them, every
    answer but the last is "Chunk Uploaded", the last is "File Uploaded",
    the artifact holds the payloads in index order and no chunk file of the
    session is left. *)
Theorem upload_any_order (name : string) (n : Z) (payload : Z -> list byte)
    (idxs : list Z) (last_bytes : list byte) (w : world) :
  allowed_file_type name = true ->
  0 < n ->
  (forall i, i ∈ idxs <-> 0 <= i < n - 1) ->
  scratch_ready settings (fs w) name n ->
  import_ready settings (fs w) name ->
  exists w',
    run_uploads settings name n
      (((fun i => (i, payload i)) <$> idxs) ++ [(n - 1, last_bytes)]) w
    = (replicate (length idxs) (Response 200 (Message "Chunk Uploaded"))
       ++ [Response 200 (Message "File Uploaded")], w')
    /\ fs w' !! dest_path settings name
       = Some (File (concat (payload <$> seqZ 0 (n - 1)) ++ last_bytes))
    /\ forall i, 0 <= i < n -> fs w' !! chunk_path settings name i = None.
Proof.
  intros Ha Hn Hidxs Hs Himp.
  destruct (upload_session settings name n ((fun i => (i, payload i)) <$> idxs)
              last_bytes w)
    as (w1 & w2 & Erun & _ & Elast & Hdest & Hgone); [done|done| | |done|done|].
  { apply Forall_fmap, Forall_forall. intros i Hi. simpl. by apply Hidxs. }
  { intros i Hi. rewrite latest_deliveries, bool_decide_eq_true_2 by (by apply Hidxs).
    by eexists. }
  exists w2. rewrite run_uploads_app, Erun. cbn [run_uploads]. rewrite Elast.
  rewrite length_fmap. split_and!; [done| |done].
  rewrite Hdest. do 4 f_equal. apply list_fmap_ext. intros idx i Hi.
  apply list_elem_of_lookup_2, elem_of_seqZ in Hi. cbv beta.
  by rewrite latest_deliveries, bool_decide_eq_true_2 by (apply Hidxs; lia).
Qed.
End UploadOrder.

(** ** [POST /upload]: what a request leaves alone *)

Lemma spares_bind {A B} (P : string -> Prop) (m : M A) (f : A -> M B) :
  spares P m -> (forall a, spares P (f a)) -> spares P (m ≫= f).
Proof.
  intros Hm Hf w p Hp. unfold mbind, M_bind.
  destruct (Hm w p Hp) as [Hm1 Hm2]. destruct (m w) as [[e|a] w1]; [done|].
  destruct (Hf a w1 p Hp) as [Hf1 Hf2]. split; auto.
Qed.

Lemma spares_ret {A} (P : string -> Prop) (a : A) : spares P (mret a).
Proof. by intros w p Hp. Qed.

Lemma spares_raise {A} (P : string -> Prop) (e : exn) : spares P (raise (A := A) e).
Proof. by intros w p Hp. Qed.

Lemma spares_path_exists P p : spares P (Os.path_exists p).
Proof. by intros w q Hq. Qed.

Lemma spares_read_file P p : spares P (Os.read_file p).
Proof. intros w q Hq. by rewrite read_file_run. Qed.

Lemma spares_open_w (P : string -> Prop) p : P p -> spares P (Os.open_w p).
Proof.
  intros Hp w q Hq. assert (p ≠ q) by (by intros ->). rewrite open_w_run.
  destruct (fs w !! p) as [[c|]|]; [|done|];
    (destruct (fs w !! OsPath.dirname p) as [[c'|]|]; [done| |done]);
    cbn [snd fs set_fs add_event]; by rewrite lookup_insert_ne.
Qed.

Lemma spares_write (P : string -> Prop) p data : P p -> spares P (Os.write p data).
Proof.
  intros Hp w q Hq. assert (p ≠ q) by (by intros ->). rewrite write_run.
  cbn [snd fs set_fs]. by rewrite lookup_alter_ne.
Qed.

Lemma spares_remove (P : string -> Prop) p : P p -> spares P (Os.remove p).
Proof.
  intros Hp w q Hq. assert (p ≠ q) by (by intros ->). rewrite remove_run.
  destruct (fs w !! p) as [[c|]|]; [|done..].
  cbn [snd fs set_fs add_event]. by rewrite lookup_delete_ne.
Qed.

(** [mkdir] only adds a directory where nothing was. *)
Lemma spares_mkdir P p : spares P (Os.mkdir p).
Proof.
  intros w q _. rewrite mkdir_run.
  destruct (fs w !! p) as [n|] eqn:Hp; [done|].
  destruct (fs w !! OsPath.dirname p) as [[c'|]|]; [done| |done].
  cbn [snd fs set_fs add_event]. split.
  - intros x Hq. rewrite lookup_insert_ne; [done|]. intros ->. congruence.
  - intros c Hq. apply lookup_insert_Some in Hq as [[_ [=]]|[_ Hq]]. done.
Qed.

Lemma spares_pass P (m : M unit) : spares P m -> spares P (Os.pass_file_exists m).
Proof.
  intros Hm w p Hp. specialize (Hm w p Hp). unfold Os.pass_file_exists.
  by destruct (m w) as [[[]|[]] w1].
Qed.

Lemma spares_makedirs_go P fuel p : spares P (Os.makedirs_go fuel p).
Proof.
  revert p. induction fuel as [|fuel IH]; intros p; simpl; [apply spares_raise|].
  destruct (if bool_decide (Os.basename p = "") then _ else _) as [head tail].
  destruct (_ && _); [|apply spares_mkdir].
  apply spares_bind; [apply spares_path_exists|].
  intros [|]; [apply spares_mkdir|].
  apply spares_bind; [by apply spares_pass|]. intros _.
  case_bool_decide; [apply spares_ret|apply spares_mkdir].
Qed.

Section UploadFrame.
Context `{Collaborators}.
Variable settings : Settings.

Lemma spares_concat_chunks name n chunk :
  spares (own_path settings name) (concat_chunks settings name n chunk).
Proof.
  revert chunk. induction n as [|n IH]; intros chunk; simpl; [apply spares_ret|].
  apply spares_bind; [apply spares_read_file|]. intros data.
  apply spares_bind; [apply spares_write; by left|]. intros _.
  apply spares_bind; [apply spares_remove; right; by eexists|]. intros _. apply IH.
Qed.

Lemma spares_upload_file file name k n :
  spares (own_path settings name) (upload_file settings file name k n).
Proof.
  unfold upload_file. destruct (negb _); [apply spares_raise|].
  apply spares_bind; [apply spares_open_w; right; by eexists|]. intros _.
  apply spares_bind; [apply spares_write; right; by eexists|]. intros _.
  destruct (_ =? _); [|apply spares_ret].
  apply spares_bind; [apply spares_path_exists|]. intros found.
  apply spares_bind; [destruct found; [apply spares_ret|apply spares_makedirs_go]|].
  intros _. apply spares_bind; [apply spares_open_w; by left|]. intros _.
  apply spares_bind; [apply spares_concat_chunks|]. intros _. apply spares_ret.
Qed.

(** X12: whatever the request and its outcome (rejected, failed, chunk
    or file uploaded), an upload under a plain file name leaves every path
    alone that is neither the artifact of its name nor a scratch file of its
    name: what was at such a path is still there unchanged, and no file has
    appeared at such a path. *)
Theorem upload_spares_others (file : list byte) (name : string) (k n : Z) (w : world)
    (p : string) :
  plain_name name ->
  p ≠ dest_path settings name ->
  (forall i, p ≠ chunk_path settings name i) ->
  let w' := (serve (upload_file settings file name k n) w).2 in
  (forall x, fs w !! p = Some x -> fs w' !! p = Some x)
  /\ (forall c, fs w' !! p = Some (File c) -> fs w !! p = Some (File c)).
Proof.
  intros _ Hd Hc w'. unfold w'. rewrite serve_world.
  apply spares_upload_file. intros [?|[i ?]]; [done|by apply (Hc i)].
Qed.
End UploadFrame.

(** ** Scratch file names *)

Lemma pretty_N_go_digits (x : N) (s : string) :
  exists p, pretty_N_go x s = p +:+ s
            /\ Forall (fun c => is_digit c = true) (Py.chars p).
Proof.
  revert s. induction (N.lt_wf_0 x) as [x _ IH]; intros s.
  destruct (decide (x = 0)%N) as [->|Hx].
  - exists "". rewrite pretty_N_go_0. split; [done|constructor].
  - rewrite pretty_N_go_step by lia.
    destruct (IH (x `div` 10)%N) with (s := String (pretty_N_char (x `mod` 10)) s)
      as (p & Hp & Hdig).
    { apply N.div_lt; lia. }
    exists (p +:+ String (pretty_N_char (x `mod` 10)) "").
    rewrite Hp. split.
    + apply chars_inj. rewrite !chars_app. cbn. by rewrite <-(assoc_L (++)).
    + rewrite chars_app. apply Forall_app. split; [done|].
      repeat constructor. apply pretty_N_char_digit.
Qed.

(** [str(n)] holds digits and, in front, a minus sign at most: no
    underscore. *)
Lemma str_no_underscore (n : Z) : "_"%char ∉ Py.chars (Py.str n).
Proof.
  assert (HN : forall x : N, "_"%char ∉ Py.chars (pretty x)).
  { intros x. unfold pretty, pretty_N. case_decide.
    - cbn. intros [=]%list_elem_of_singleton.
    - destruct (pretty_N_go_digits x "") as (p & -> & Hdig).
      rewrite chars_app. cbn. rewrite (right_id_L [] (++)). intros Hin.
      rewrite Forall_forall in Hdig. by specialize (Hdig _ Hin). }
  unfold Py.str, pretty, pretty_Z. destruct n as [|p|p].
  - cbn. intros [=]%list_elem_of_singleton.
  - apply (HN (N.pos p)).
  - rewrite chars_app. cbn. intros [[=]|Hin]%elem_of_cons. by apply (HN (N.pos p)).
Qed.

Lemma app_sep_inj {A} (x : A) (l1 l2 r1 r2 : list A) :
  x ∉ r1 -> x ∉ r2 -> l1 ++ x :: r1 = l2 ++ x :: r2 -> l1 = l2 /\ r1 = r2.
Proof.
  intros H1 H2. revert l2. induction l1 as [|a l1 IH]; intros [|b l2] E; simplify_eq/=.
  - done.
  - exfalso. apply H1. apply elem_of_app. right. by left.
  - exfalso. apply H2. apply elem_of_app. right. by left.
  - destruct (IH l2) as [-> ->]; done.
Qed.

Lemma str_no_slash (n : Z) : "/"%char ∉ Py.chars (Py.str n).
Proof.
  assert (HN : forall x : N, "/"%char ∉ Py.chars (pretty x)).
  { intros x. unfold pretty, pretty_N. case_decide.
    - cbn. intros [=]%list_elem_of_singleton.
    - destruct (pretty_N_go_digits x "") as (p & -> & Hdig).
      rewrite chars_app. cbn. rewrite (right_id_L [] (++)). intros Hin.
      rewrite Forall_forall in Hdig. by specialize (Hdig _ Hin). }
  unfold Py.str, pretty, pretty_Z. destruct n as [|p|p].
  - cbn. intros [=]%list_elem_of_singleton.
  - apply (HN (N.pos p)).
  - rewrite chars_app. cbn. intros [[=]|Hin]%elem_of_cons. by apply (HN (N.pos p)).
Qed.

(** X13: under plain file names scratch files are never shared.  The
    scratch file of a chunk is an entry of [TMP_DIR] itself, called
    [name_chunk], and the scratch paths of two chunks are equal only for the
    same name and the same chunk number, so no chunk of one session
    overwrites a chunk of the same or of another session. *)
Theorem chunk_path_injective (settings : Settings) (name name' : string) (j k : Z) :
  plain_name name ->
  plain_name name' ->
  (exists entry,
     plain_name entry /\ chunk_path settings name j = TMP_DIR settings +:+ "/" +:+ entry)
  /\ (chunk_path settings name j = chunk_path settings name' k ->
      name = name' /\ j = k).
Proof.
  intros Hn Hn'. split.
  - exists (name +:+ "_" +:+ Py.str j). split; [|done].
    unfold plain_name. rewrite !chars_app. change (Py.chars "_") with ["_"%char].
    intros [Hin|[[=]|Hin]%elem_of_cons]%elem_of_app; [done|].
    by apply (str_no_slash j).
  - unfold chunk_path. intros E. do 2 apply String.app_inj in E.
    apply (f_equal Py.chars) in E. rewrite !chars_app in E.
    change (Py.chars "_") with ["_"%char] in E. cbn [app] in E.
    apply app_sep_inj in E as [Hs Hc]; [|apply str_no_underscore..].
    split; [by apply chars_inj|]. by apply str_inj, chars_inj.
Qed.

Section UploadFurtherExamples.
#[local] Existing Instance Demo.collaborators.

Lemma upload_single_chunk_witness :
  allowed_file_type "slide.svs" = true
  /\ writable (fs Demo.staging) (chunk_path default_settings "slide.svs" 0)
  /\ import_ready default_settings (fs Demo.staging) "slide.svs"
  /\ exists w',
       serve (upload_file default_settings [x01; x02] "slide.svs" 0 1) Demo.staging
       = (Response 200 (Message "File Uploaded"), w')
       /\ fs w' !! dest_path default_settings "slide.svs" = Some (File [x01; x02])
       /\ fs w' !! chunk_path default_settings "slide.svs" 0 = None.
Proof.
  assert (Hw : writable (fs Demo.staging) (chunk_path default_settings "slide.svs" 0)).
  { split; [vm_compute; discriminate|reflexivity]. }
  split; [reflexivity|]. split; [exact Hw|]. split; [exact slide_import_ready|].
  apply (upload_single_chunk default_settings [x01; x02] "slide.svs" Demo.staging);
    [reflexivity|exact Hw|exact slide_import_ready].
Defined.

Lemma upload_missing_chunk_consumes_witness :
  allowed_file_type "slide.svs" = true
  /\ 2 + 1 = 3
  /\ 0 <= 1 < 2
  /\ writable (fs chunk0_only) (chunk_path default_settings "slide.svs" 2)
  /\ import_ready default_settings (fs chunk0_only) "slide.svs"
  /\ (forall i, 0 <= i < 1 ->
        fs chunk0_only !! chunk_path default_settings "slide.svs" i
        = Some (File ((fun _ => [x01]) i)))
  /\ fs chunk0_only !! chunk_path default_settings "slide.svs" 1 = None
  /\ exists w',
       serve (upload_file default_settings [x03] "slide.svs" 2 3) chunk0_only
       = (Response 500 (PlainText "Internal Server Error"), w')
       /\ fs w' !! dest_path default_settings "slide.svs"
          = Some (File (concat ((fun _ => [x01]) <$> seqZ 0 1)))
       /\ (forall i, 0 <= i < 1 ->
             fs w' !! chunk_path default_settings "slide.svs" i = None)
       /\ fs w' !! chunk_path default_settings "slide.svs" 2 = Some (File [x03]).
Proof.
  assert (Hw : writable (fs chunk0_only) (chunk_path default_settings "slide.svs" 2)).
  { split; [vm_compute; discriminate|reflexivity]. }
  assert (Himp : import_ready default_settings (fs chunk0_only) "slide.svs").
  { split_and!; [vm_compute; discriminate| |left; reflexivity].
    right. split; reflexivity. }
  assert (Hlow : forall i, 0 <= i < 1 ->
            fs chunk0_only !! chunk_path default_settings "slide.svs" i
            = Some (File ((fun _ => [x01]) i))).
  { intros i Hi. assert (i = 0) as -> by lia. reflexivity. }
  split; [reflexivity|]. split; [reflexivity|]. split; [lia|]. split; [exact Hw|].
  split; [exact Himp|]. split; [exact Hlow|]. split; [reflexivity|].
  apply (upload_missing_chunk_consumes default_settings [x03] "slide.svs" 2 3 1
           (fun _ => [x01]) chunk0_only);
    [reflexivity|reflexivity|lia|exact Hw|exact Himp|exact Hlow|reflexivity].
Defined.

Lemma upload_nonpositive_total_witness :
  allowed_file_type "slide.svs" = true
  /\ 0 <= 0
  /\ writable (fs Demo.staging) (chunk_path default_settings "slide.svs" (0 - 1))
  /\ import_ready default_settings (fs Demo.staging) "slide.svs"
  /\ exists w',
       serve (upload_file default_settings [x01] "slide.svs" (0 - 1) 0) Demo.staging
       = (Response 200 (Message "File Uploaded"), w')
       /\ fs w' !! dest_path default_settings "slide.svs" = Some (File [])
       /\ fs w' !! chunk_path default_settings "slide.svs" (0 - 1) = Some (File [x01]).
Proof.
  assert (Hw : writable (fs Demo.staging)
                 (chunk_path default_settings "slide.svs" (0 - 1))).
  { split; [vm_compute; discriminate|reflexivity]. }
  split; [reflexivity|]. split; [lia|]. split; [exact Hw|].
  split; [exact slide_import_ready|].
  apply (upload_nonpositive_total default_settings [x01] "slide.svs" 0 Demo.staging);
    [reflexivity|lia|exact Hw|exact slide_import_ready].
Defined.

Lemma upload_any_order_witness :
  allowed_file_type "slide.svs" = true
  /\ 0 < 3
  /\ (forall i, i ∈ [1; 0] <-> 0 <= i < 3 - 1)
  /\ scratch_ready default_settings (fs Demo.staging) "slide.svs" 3
  /\ import_ready default_settings (fs Demo.staging) "slide.svs"
  /\ exists w',
       run_uploads default_settings "slide.svs" 3
         (((fun i => (i, [x01])) <$> [1; 0]) ++ [(3 - 1, [x02])]) Demo.staging
       = (replicate (length [1; 0]) (Response 200 (Message "Chunk Uploaded"))
          ++ [Response 200 (Message "File Uploaded")], w')
       /\ fs w' !! dest_path default_settings "slide.svs"
          = Some (File (concat ((fun _ => [x01]) <$> seqZ 0 (3 - 1)) ++ [x02]))
       /\ forall i, 0 <= i < 3 ->
            fs w' !! chunk_path default_settings "slide.svs" i = None.
Proof.
  assert (Hidxs : forall i, i ∈ [1; 0] <-> 0 <= i < 3 - 1).
  { intros i. rewrite !elem_of_cons, elem_of_nil. lia. }
  split; [reflexivity|]. split; [lia|]. split; [exact Hidxs|].
  split; [exact three_chunks_scratch_ready|]. split; [exact slide_import_ready|].
  apply (upload_any_order default_settings "slide.svs" 3 (fun _ => [x01]) [1; 0] [x02]
           Demo.staging);
    [reflexivity|lia|exact Hidxs|exact three_chunks_scratch_ready
    |exact slide_import_ready].
Defined.

(** Chunks 1, 0, 2 of a three-chunk upload, in this order. *)
Example upload_out_of_order_run :
  let '(answers, w) :=
    run_uploads default_settings "slide.svs" 3
      [(1, [x02]); (0, [x01]); (2, [x03])] Demo.staging in
  fs w !! "/iv-import/public/slide.svs" = Some (File [x01; x02; x03]).
Proof. vm_compute. reflexivity. Qed.

Lemma slide_plain_name : plain_name "slide.svs".
Proof. unfold plain_name. apply (bool_decide_unpack _). vm_compute. exact I. Defined.

Lemma upload_spares_others_witness :
  plain_name "slide.svs"
  /\ "/iv-store" ≠ dest_path default_settings "slide.svs"
  /\ (forall i, "/iv-store" ≠ chunk_path default_settings "slide.svs" i)
  /\ let w' := (serve (upload_file default_settings [x01] "slide.svs" 0 1)
                  Demo.staging).2 in
     (forall x, fs Demo.staging !! "/iv-store" = Some x -> fs w' !! "/iv-store" = Some x)
     /\ (forall c, fs w' !! "/iv-store" = Some (File c) ->
           fs Demo.staging !! "/iv-store" = Some (File c)).
Proof.
  assert (Hc : forall i, "/iv-store" ≠ chunk_path default_settings "slide.svs" i).
  { intros i E. unfold chunk_path in E. cbn in E. discriminate. }
  split; [exact slide_plain_name|]. split; [discriminate|]. split; [exact Hc|].
  apply (upload_spares_others default_settings [x01] "slide.svs" 0 1 Demo.staging
           "/iv-store"); [exact slide_plain_name|discriminate|exact Hc].
Defined.

Lemma chunk_path_injective_witness :
  plain_name "slide.svs"
  /\ (exists entry,
        plain_name entry
        /\ chunk_path default_settings "slide.svs" 1
           = TMP_DIR default_settings +:+ "/" +:+ entry)
  /\ (chunk_path default_settings "slide.svs" 1 = chunk_path default_settings "slide.svs" 1 ->
      "slide.svs" = "slide.svs" /\ 1 = 1).
Proof.
  split; [exact slide_plain_name|].
  apply (chunk_path_injective default_settings "slide.svs" "slide.svs" 1 1);
    exact slide_plain_name.
Defined.

(** With a slash in the name the scratch path leaves [TMP_DIR]. *)
Example chunk_path_traversal :
  chunk_path default_settings "../iv-store/x.svs" 0 = "/tmp/../iv-store/x.svs_0".
Proof. reflexivity. Qed.

End UploadFurtherExamples.

(** ** [POST /sampleStats], in full *)

Lemma extends_refl w : extends w w.
Proof. exists []. destruct w. cbn. by rewrite (right_id_L [] (++)). Qed.

Lemma extends_add_event e w : extends w (add_event e w).
Proof. by exists [e]. Qed.

Lemma extends_trans w1 w2 w3 : extends w1 w2 -> extends w2 w3 -> extends w1 w3.
Proof.
  intros [evs ->] [evs' ->]. exists (evs ++ evs'). cbn. by rewrite (assoc_L (++)).
Qed.

Lemma extends_fs w w' : extends w w' -> fs w' = fs w.
Proof. by intros [evs ->]. Qed.

Lemma extends_du w w' : extends w w' -> du_stdout w' = du_stdout w.
Proof. by intros [evs ->]. Qed.

Lemma list_remove_first_middle (x : string) (done rest : list string) :
  x ∉ done -> list_remove_first x (done ++ x :: rest) = done ++ rest.
Proof.
  induction done as [|y done IH]; intros Hx; cbn [app list_remove_first].
  - by rewrite bool_decide_eq_true_2.
  - rewrite bool_decide_eq_false_2.
    + rewrite IH; [done|]. intros Hin. apply Hx. by right.
    + intros ->. apply Hx. by left.
Qed.

Section SampleStatsFull.
Context `{Collaborators}.
Variable settings : Settings.

Lemma only_dirs_run files_path names w :
  exists w',
    only_dirs files_path names w
    = (inr (List.filter (fun f => is_directory (fs w) (OsPath.join files_path f)) names),
       w')
    /\ extends w w'.
Proof.
  revert w. induction names as [|f names IH]; intros w.
  { exists w. split; [done|apply extends_refl]. }
  cbn [only_dirs List.filter]. rewrite (bind_inr _ _ _ _ _ (isdir_run _ w)).
  destruct (IH (add_event (EvIsDir (OsPath.join files_path f)) w)) as (w' & E & Hext).
  rewrite (bind_inr _ _ _ _ _ E). exists w'. split.
  - unfold is_directory. cbn [fs add_event].
    by destruct (fs w !! OsPath.join files_path f) as [[c|]|].
  - eapply extends_trans; [apply extends_add_event|done].
Qed.

(** The loop, at index [length done] of the list [done ++ rest]: [done] is
    behind the iterator and stays, [rest] is pruned as [survivors] says. *)
Lemma prune_folders_run files_path fuel (done rest : list string) w :
  (length rest <= fuel)%nat ->
  NoDup (done ++ rest) ->
  exists w',
    prune_folders files_path fuel (length done) (done ++ rest) w
    = (inr (done ++ survivors (valid_sample (fs w) files_path) rest), w')
    /\ extends w w'.
Proof.
  revert done rest w. induction fuel as [|fuel IH]; intros done rest w Hlen Hnd.
  { destruct rest; [|simpl in Hlen; lia]. exists w. split; [done|apply extends_refl]. }
  cbn [prune_folders]. destruct rest as [|x rest].
  { rewrite lookup_ge_None_2 by (rewrite length_app; simpl; lia).
    exists w. split; [done|apply extends_refl]. }
  rewrite list_lookup_middle by done.
  rewrite (bind_inr _ _ _ _ _ (path_exists_run _ w)).
  set (w1 := add_event _ w). cbn [survivors]. unfold valid_sample at 1.
  destruct (bool_decide (is_Some _)) eqn:Hv.
  - destruct (IH (done ++ [x]) rest w1) as (w' & E & Hext).
    { simpl in Hlen. lia. }
    { by rewrite <-(assoc_L (++)). }
    rewrite length_app in E. cbn [length] in E.
    replace (length done + 1)%nat with (S (length done)) in E by lia.
    rewrite <-(assoc_L (++)) in E. cbn [app] in E. rewrite E.
    exists w'. split; [by rewrite <-(assoc_L (++))|].
    eapply extends_trans; [apply extends_add_event|done].
  - rewrite list_remove_first_middle.
    2:{ apply NoDup_app in Hnd as (_ & Hnd & _). intros Hin. apply (Hnd x Hin). by left. }
    destruct rest as [|y rest].
    + destruct fuel as [|fuel]; cbn [prune_folders].
      * exists w1. split; [done|apply extends_add_event].
      * rewrite lookup_ge_None_2 by (rewrite length_app; simpl; lia).
        exists w1. split; [done|apply extends_add_event].
    + destruct (IH (done ++ [y]) rest w1) as (w' & E & Hext).
      { simpl in Hlen. lia. }
      { rewrite <-(assoc_L (++)). cbn [app].
        apply NoDup_app in Hnd as (Hd & Hdr & Hr).
        apply NoDup_app. split_and!; [done| |by apply NoDup_cons in Hr as [_ Hr]].
        intros z Hz Hin. apply (Hdr z Hz). by right. }
      rewrite length_app in E. cbn [length] in E.
      replace (length done + 1)%nat with (S (length done)) in E by lia.
      rewrite <-(assoc_L (++)) in E. cbn [app] in E. rewrite E.
      exists w'. split; [by rewrite <-(assoc_L (++))|].
      eapply extends_trans; [apply extends_add_event|done].
Qed.

(** The whole handler, when the public area is a directory, its listing
    has no repetition and the disk-usage utility prints a number first. *)
Lemma sample_stats_run (w : world) (out token : string) (blocks : Z) :
  let files_path := OsPath.join (SLIDE_DIR settings) "public" in
  fs w !! files_path = Some Dir ->
  NoDup (readdir w files_path) ->
  du_stdout w files_path = Some out ->
  head (Py.split_whitespace out) = Some token ->
  Py.int token = Some blocks ->
  (serve (sample_stats settings) w).1
  = stats_answer
      (survivors (valid_sample (fs w) files_path)
         (List.filter (fun f => is_directory (fs w) (OsPath.join files_path f))
            (readdir w files_path)))
      blocks.
Proof.
  intros files_path Hdir Hnd Hdu Hout Hint. unfold serve, sample_stats. fold files_path.
  rewrite (bind_inr _ _ _ _ _ (path_exists_run _ w)).
  rewrite bool_decide_eq_true_2 by (by rewrite Hdir). cbn [negb].
  set (w1 := add_event _ w).
  assert (El : Os.listdir files_path w1
               = (inr (readdir w files_path), add_event (EvScan files_path) w1)).
  { rewrite listdir_run. unfold w1. cbn [fs add_event readdir]. by rewrite Hdir. }
  rewrite (bind_inr _ _ _ _ _ El). set (w2 := add_event _ w1).
  destruct (only_dirs_run files_path (readdir w files_path) w2) as (w3 & Ed & Hext3).
  rewrite (bind_inr _ _ _ _ _ Ed). cbn [fs add_event].
  set (dirs := List.filter _ _).
  destruct (prune_folders_run files_path (length dirs) [] dirs w3) as (w4 & Ep & Hext4);
    [done| |].
  { apply NoDup_ListNoDup, List.NoDup_filter, NoDup_ListNoDup, Hnd. }
  cbn [app length] in Ep. rewrite (bind_inr _ _ _ _ _ Ep).
  rewrite (extends_fs _ _ Hext3). cbn [fs add_event].
  set (samples := survivors _ dirs).
  assert (Hdu4 : du_stdout w4 files_path = Some out).
  { by rewrite (extends_du _ _ Hext4), (extends_du _ _ Hext3). }
  assert (Edu : Os.run_du (DU_LOC settings) files_path w4
                = (inr out, add_event (EvSubprocess [DU_LOC settings; "-s"; files_path]) w4)).
  { unfold Os.run_du, log, get_world, mbind, M_bind. cbn [du_stdout add_event].
    by rewrite Hdu4. }
  rewrite (bind_inr _ _ _ _ _ Edu). rewrite Hout. cbn [lift].
  rewrite (bind_inr (mret token) _ _ token _ eq_refl). rewrite Hint. cbn [lift].
  rewrite (bind_inr (mret blocks) _ _ blocks _ eq_refl). cbn zeta.
  unfold stats_answer, JSONResponse. cbn [renders].
  destruct (true_div (blocks * 512) (1024 ^ 3)) as [x|]; [|done]. cbn [lift].
  rewrite (bind_inr (mret x) _ _ x _ eq_refl).
  by destruct (forallb Py.utf8_valid samples).
Qed.
End SampleStatsFull.

Lemma forallb_sublist {A} (f : A -> bool) (l1 l2 : list A) :
  l1 `sublist_of` l2 -> forallb f l2 = true -> forallb f l1 = true.
Proof.
  intros Hsub Hall. apply forallb_forall. intros x Hx%list_elem_of_In.
  eapply forallb_forall; [exact Hall|]. by eapply list_elem_of_In, elem_of_sublist.
Qed.

Lemma pair_induction (P : list string -> Prop) :
  P [] -> (forall x, P [x]) ->
  (forall x y l, P l -> P (y :: l) -> P (x :: y :: l)) ->
  forall l, P l.
Proof.
  intros H0 H1 H2 l.
  assert (Hboth : P l /\ forall x, P (x :: l)); [|by destruct Hboth].
  induction l as [|y l [IH1 IH2]]; [by split|].
  split; [apply IH2|]. intros x. by apply H2.
Qed.

Lemma filter_sublist (f : string -> bool) (l : list string) :
  List.filter f l `sublist_of` l.
Proof.
  induction l as [|x l IH]; [constructor|]. cbn [List.filter].
  destruct (f x); by constructor.
Qed.

Lemma survivors_sublist (valid : string -> bool) (l : list string) :
  survivors valid l `sublist_of` l.
Proof.
  induction l as [|x|x y l IH1 IH2] using pair_induction.
  - constructor.
  - cbn. destruct (valid x); repeat constructor.
  - cbn [survivors]. destruct (valid x).
    + by apply sublist_skip.
    + by apply sublist_cons, sublist_skip.
Qed.

Lemma survivors_valid (valid : string -> bool) (l : list string) (z : string) :
  z ∈ l -> valid z = true -> z ∈ survivors valid l.
Proof.
  induction l as [|x|x y l IH1 IH2] using pair_induction; intros Hin Hz.
  - done.
  - apply list_elem_of_singleton in Hin as ->. cbn. rewrite Hz. by left.
  - cbn [survivors]. apply elem_of_cons in Hin as [->|Hin].
    + rewrite Hz. by left.
    + destruct (valid x); [right; by apply IH2|].
      apply elem_of_cons in Hin as [->|Hin]; [by left|right; by apply IH1].
Qed.

Lemma survivors_isolated (valid : string -> bool) (l : list string) :
  (forall i x y, l !! i = Some x -> l !! S i = Some y ->
     valid x = false -> valid y = true) ->
  survivors valid l = List.filter valid l.
Proof.
  induction l as [|x|x y l IH1 IH2] using pair_induction; intros Hiso.
  - done.
  - cbn. by destruct (valid x).
  - cbn [survivors]. destruct (valid x) eqn:Hx.
    + cbn [List.filter]. rewrite Hx. f_equal. apply IH2.
      intros i a b Ha Hb. apply (Hiso (S i) a b Ha Hb).
    + assert (Hy : valid y = true) by (by apply (Hiso 0%nat x y)).
      cbn [List.filter]. rewrite Hx, Hy. f_equal. apply IH1.
      intros i a b Ha Hb. apply (Hiso (S (S i)) a b Ha Hb).
Qed.

Section SampleStatsResults.
Context `{Collaborators}.
Variable settings : Settings.

(** X14: what [POST /sampleStats] answers when the public area is a
    directory, its listing has no repetition and the disk-usage utility
    prints a number first.  The samples are the listed directories as the
    pruning loop leaves them: a directory with a [sample.json] is kept, one
    without is removed, and the directory listed after a removed one is
    kept without being tested.  The usage is the number of blocks times
    512, divided by [1024 ** 3] and rounded to two decimals.  The answer is
    200 with both, and 500 when the division overflows or when the name of
    a sample is not valid UTF-8 and cannot be rendered. *)
Theorem sample_stats_returns (w : world) (out token : string) (blocks : Z) :
  let files_path := OsPath.join (SLIDE_DIR settings) "public" in
  fs w !! files_path = Some Dir ->
  NoDup (readdir w files_path) ->
  du_stdout w files_path = Some out ->
  head (Py.split_whitespace out) = Some token ->
  Py.int token = Some blocks ->
  (serve (sample_stats settings) w).1
  = match true_div (blocks * 512) (1024 ^ 3) with
    | Some data_used_gb =>
        let samples :=
          survivors (valid_sample (fs w) files_path)
            (List.filter (fun f => is_directory (fs w) (OsPath.join files_path f))
               (readdir w files_path)) in
        if forallb Py.utf8_valid samples
        then Response 200 (StatsGb samples (round_ndigits data_used_gb 2))
        else Response 500 (PlainText "Internal Server Error")
    | None => Response 500 (PlainText "Internal Server Error")
    end.
Proof. apply sample_stats_run. Qed.

(** X15: when the public area does not exist, [POST /sampleStats] answers
    200 with no samples and zero usage, having only tested the path: no
    listing, no subprocess, no change. *)
Theorem sample_stats_missing_area (w : world) :
  let files_path := OsPath.join (SLIDE_DIR settings) "public" in
  fs w !! files_path = None ->
  serve (sample_stats settings) w
  = (Response 200 (Stats [] 0), add_event (EvExists files_path) w).
Proof.
  intros files_path Habs. unfold serve, sample_stats. fold files_path.
  rewrite (bind_inr _ _ _ _ _ (path_exists_run _ w)).
  by rewrite bool_decide_eq_false_2 by (rewrite Habs; apply is_Some_None).
Qed.

(** X16: under the conditions of X14, when the listed names are valid
    UTF-8 and the division gives a float, the answer is 200; every listed
    directory that has a [sample.json] is among the samples answered, and
    the samples answered are listed directories, in the order of the
    listing. *)
Theorem sample_stats_keeps_valid (w : world) (out token : string) (blocks : Z)
    (data_used_gb : Float) :
  let files_path := OsPath.join (SLIDE_DIR settings) "public" in
  fs w !! files_path = Some Dir ->
  NoDup (readdir w files_path) ->
  forallb Py.utf8_valid (readdir w files_path) = true ->
  du_stdout w files_path = Some out ->
  head (Py.split_whitespace out) = Some token ->
  Py.int token = Some blocks ->
  true_div (blocks * 512) (1024 ^ 3) = Some data_used_gb ->
  exists samples,
    (serve (sample_stats settings) w).1
    = Response 200 (StatsGb samples (round_ndigits data_used_gb 2))
    /\ (forall f, f ∈ readdir w files_path ->
          is_directory (fs w) (OsPath.join files_path f) = true ->
          valid_sample (fs w) files_path f = true -> f ∈ samples)
    /\ samples `sublist_of` readdir w files_path
    /\ (forall f, f ∈ samples ->
          is_directory (fs w) (OsPath.join files_path f) = true).
Proof.
  intros files_path Hdir Hnd Hutf Hdu Hout Hint Hdiv. eexists. split.
  { rewrite (sample_stats_run settings w out token blocks) by done.
    unfold stats_answer. rewrite Hdiv. fold files_path.
    rewrite (forallb_sublist Py.utf8_valid _ (readdir w files_path)); [done| |done].
    etrans; [apply survivors_sublist|apply filter_sublist]. }
  set (dirs := List.filter _ _). split_and!.
  - intros f Hin Hd Hv. apply survivors_valid; [|done].
    apply list_elem_of_In, List.filter_In. split; [by apply list_elem_of_In|done].
  - etrans; [apply survivors_sublist|apply filter_sublist].
  - intros f Hin. eapply elem_of_sublist in Hin; [|apply survivors_sublist].
    by apply list_elem_of_In, List.filter_In in Hin as [_ Hd].
Qed.

(** X17: under the conditions of X16, when no two directories without a
    [sample.json] follow each other among the listed directories, the
    samples answered are exactly the listed directories that have one. *)
Theorem sample_stats_exact (w : world) (out token : string) (blocks : Z)
    (data_used_gb : Float) :
  let files_path := OsPath.join (SLIDE_DIR settings) "public" in
  let dirs := List.filter (fun f => is_directory (fs w) (OsPath.join files_path f))
                (readdir w files_path) in
  fs w !! files_path = Some Dir ->
  NoDup (readdir w files_path) ->
  forallb Py.utf8_valid (readdir w files_path) = true ->
  du_stdout w files_path = Some out ->
  head (Py.split_whitespace out) = Some token ->
  Py.int token = Some blocks ->
  true_div (blocks * 512) (1024 ^ 3) = Some data_used_gb ->
  (forall i x y, dirs !! i = Some x -> dirs !! S i = Some y ->
     valid_sample (fs w) files_path x = false ->
     valid_sample (fs w) files_path y = true) ->
  (serve (sample_stats settings) w).1
  = Response 200
      (StatsGb (List.filter (valid_sample (fs w) files_path) dirs)
         (round_ndigits data_used_gb 2)).
Proof.
  intros files_path dirs Hdir Hnd Hutf Hdu Hout Hint Hdiv Hiso.
  rewrite (sample_stats_run settings w out token blocks) by done.
  fold files_path dirs. unfold stats_answer. rewrite Hdiv.
  rewrite (forallb_sublist Py.utf8_valid _ (readdir w files_path));
    [by rewrite survivors_isolated| |done].
  etrans; [apply survivors_sublist|apply filter_sublist].
Qed.
End SampleStatsResults.

Section SampleStatsReads.
Context `{Collaborators}.
Variable settings : Settings.

Lemma reads_only_only_dirs files_path names : reads_only (only_dirs files_path names).
Proof.
  induction names as [|f names IH]; [apply reads_only_ret|]. cbn [only_dirs].
  apply reads_only_bind; [apply reads_only_isdir|]. intros d.
  apply reads_only_bind; [apply IH|]. intros ds. apply reads_only_ret.
Qed.

Lemma reads_only_prune_folders files_path fuel i folders :
  reads_only (prune_folders files_path fuel i folders).
Proof.
  revert i folders. induction fuel as [|fuel IH]; intros i folders;
    [apply reads_only_ret|].
  cbn [prune_folders]. destruct (folders !! i) as [folder|]; [|apply reads_only_ret].
  apply reads_only_bind; [apply reads_only_path_exists|]. intros found. apply IH.
Qed.

(** X18: [POST /sampleStats] only reads: whatever it answers, success or
    failure, the file system is as before. *)
Theorem sample_stats_reads_only (w : world) :
  fs (serve (sample_stats settings) w).2 = fs w.
Proof.
  apply serve_fs. unfold sample_stats.
  apply reads_only_bind; [apply reads_only_path_exists|]. intros found.
  destruct (negb found); [apply reads_only_JSONResponse|].
  apply reads_only_bind; [apply reads_only_listdir|]. intros names.
  apply reads_only_bind; [apply reads_only_only_dirs|]. intros folders.
  apply reads_only_bind; [apply reads_only_prune_folders|]. intros folders'.
  apply reads_only_bind; [apply reads_only_run_du|]. intros out.
  apply reads_only_bind; [apply reads_only_lift|]. intros token.
  apply reads_only_bind; [apply reads_only_lift|]. intros blocks.
  apply reads_only_bind; [apply reads_only_lift|]. intros data_used_gb.
  apply reads_only_JSONResponse.
Qed.
End SampleStatsReads.

Section SampleStatsExamples.
#[local] Existing Instance Demo.collaborators.

Lemma two_names_nodup : NoDup ["a"; "b"].
Proof. apply (bool_decide_unpack _). vm_compute. exact I. Defined.

Lemma sample_stats_returns_witness :
  let files_path := OsPath.join (SLIDE_DIR default_settings) "public" in
  fs Demo.two_invalid !! files_path = Some Dir
  /\ NoDup (readdir Demo.two_invalid files_path)
  /\ du_stdout Demo.two_invalid files_path = Some "8 /iv-store/public"
  /\ head (Py.split_whitespace "8 /iv-store/public") = Some "8"
  /\ Py.int "8" = Some 8
  /\ (serve (sample_stats default_settings) Demo.two_invalid).1
     = Response 200 (StatsGb ["b"] (round_ndigits (Demo.ratio (8 * 512) (1024 ^ 3)) 2)).
Proof.
  intros files_path. split; [reflexivity|]. split; [exact two_names_nodup|].
  split; [reflexivity|]. split; [reflexivity|]. split; [reflexivity|].
  exact (sample_stats_returns default_settings Demo.two_invalid "8 /iv-store/public"
           "8" 8 eq_refl two_names_nodup eq_refl eq_refl eq_refl).
Defined.

Lemma sample_stats_missing_area_witness :
  fs Demo.ready !! OsPath.join (SLIDE_DIR default_settings) "public" = None
  /\ serve (sample_stats default_settings) Demo.ready
     = (Response 200 (Stats [] 0),
        add_event (EvExists (OsPath.join (SLIDE_DIR default_settings) "public"))
          Demo.ready).
Proof.
  split; [reflexivity|].
  apply (sample_stats_missing_area default_settings Demo.ready). reflexivity.
Defined.

Lemma sample_stats_keeps_valid_witness :
  let files_path := OsPath.join (SLIDE_DIR default_settings) "public" in
  fs valid_then_invalid !! files_path = Some Dir
  /\ NoDup (readdir valid_then_invalid files_path)
  /\ forallb Py.utf8_valid (readdir valid_then_invalid files_path) = true
  /\ du_stdout valid_then_invalid files_path = Some "8 /iv-store/public"
  /\ head (Py.split_whitespace "8 /iv-store/public") = Some "8"
  /\ Py.int "8" = Some 8
  /\ true_div (8 * 512) (1024 ^ 3) = Some (Demo.ratio (8 * 512) (1024 ^ 3))
  /\ exists samples,
       (serve (sample_stats default_settings) valid_then_invalid).1
       = Response 200 (StatsGb samples (round_ndigits (Demo.ratio (8 * 512) (1024 ^ 3)) 2))
       /\ (forall f, f ∈ readdir valid_then_invalid files_path ->
             is_directory (fs valid_then_invalid) (OsPath.join files_path f) = true ->
             valid_sample (fs valid_then_invalid) files_path f = true -> f ∈ samples)
       /\ samples `sublist_of` readdir valid_then_invalid files_path
       /\ (forall f, f ∈ samples ->
             is_directory (fs valid_then_invalid) (OsPath.join files_path f) = true).
Proof.
  intros files_path. split; [reflexivity|]. split; [exact two_names_nodup|].
  split; [reflexivity|]. split; [reflexivity|]. split; [reflexivity|].
  split; [reflexivity|]. split; [reflexivity|].
  apply (sample_stats_keeps_valid default_settings valid_then_invalid
           "8 /iv-store/public" "8" 8 (Demo.ratio (8 * 512) (1024 ^ 3)));
    [reflexivity|exact two_names_nodup|reflexivity..].
Defined.

Lemma valid_then_invalid_isolated :
  let files_path := OsPath.join (SLIDE_DIR default_settings) "public" in
  let dirs := List.filter
                (fun f => is_directory (fs valid_then_invalid) (OsPath.join files_path f))
                (readdir valid_then_invalid files_path) in
  forall i x y, dirs !! i = Some x -> dirs !! S i = Some y ->
    valid_sample (fs valid_then_invalid) files_path x = false ->
    valid_sample (fs valid_then_invalid) files_path y = true.
Proof.
  intros files_path dirs i x y Hx Hy Hv.
  change dirs with ["a"; "b"] in Hx, Hy.
  destruct i as [|[|i]]; simplify_eq/=; try (vm_compute in Hv; discriminate).
Defined.

Lemma sample_stats_exact_witness :
  let files_path := OsPath.join (SLIDE_DIR default_settings) "public" in
  let dirs := List.filter
                (fun f => is_directory (fs valid_then_invalid) (OsPath.join files_path f))
                (readdir valid_then_invalid files_path) in
  fs valid_then_invalid !! files_path = Some Dir
  /\ NoDup (readdir valid_then_invalid files_path)
  /\ forallb Py.utf8_valid (readdir valid_then_invalid files_path) = true
  /\ du_stdout valid_then_invalid files_path = Some "8 /iv-store/public"
  /\ head (Py.split_whitespace "8 /iv-store/public") = Some "8"
  /\ Py.int "8" = Some 8
  /\ true_div (8 * 512) (1024 ^ 3) = Some (Demo.ratio (8 * 512) (1024 ^ 3))
  /\ (forall i x y, dirs !! i = Some x -> dirs !! S i = Some y ->
        valid_sample (fs valid_then_invalid) files_path x = false ->
        valid_sample (fs valid_then_invalid) files_path y = true)
  /\ (serve (sample_stats default_settings) valid_then_invalid).1
     = Response 200
         (StatsGb (List.filter (valid_sample (fs valid_then_invalid) files_path) dirs)
            (round_ndigits (Demo.ratio (8 * 512) (1024 ^ 3)) 2)).
Proof.
  intros files_path dirs. split; [reflexivity|]. split; [exact two_names_nodup|].
  split; [reflexivity|]. split; [reflexivity|]. split; [reflexivity|].
  split; [reflexivity|]. split; [reflexivity|].
  split; [exact valid_then_invalid_isolated|].
  apply (sample_stats_exact default_settings valid_then_invalid "8 /iv-store/public"
           "8" 8 (Demo.ratio (8 * 512) (1024 ^ 3)));
    [reflexivity|exact two_names_nodup|reflexivity|reflexivity|reflexivity|reflexivity
    |reflexivity|exact valid_then_invalid_isolated].
Defined.

(** The valid sample is answered alone; the usage, 4096 bytes, is 0.00
    gigabytes. *)
Example sample_stats_valid_then_invalid :
  (serve (sample_stats default_settings) valid_then_invalid).1
  = Response 200 (StatsGb ["a"] (Demo.ratio 0 100)).
Proof. reflexivity. Qed.

(** A sample directory whose name is not valid UTF-8 (the single byte 255)
    cannot be rendered: the answer is 500. *)
Example sample_stats_unencodable_name :
  let folder := String "255" "" in
  let w := World (<["/iv-store/public/" +:+ folder := Dir]>
                    (<["/iv-store/public/" +:+ folder +:+ "/sample.json" := File []]>
                       (fs Demo.two_invalid)))
             (fun p => [folder]) (du_stdout Demo.two_invalid) Demo.rm_works [] in
  (serve (sample_stats default_settings) w).1
  = Response 500 (PlainText "Internal Server Error").
Proof. vm_compute. reflexivity. Qed.

End SampleStatsExamples.

(** ** [POST /deleteSample], in full *)



Lemma rm_rf_lookup (leaves : string -> bool) (p q : string) (f : gmap string node) :
  Os.rm_rf leaves p f !! q
  = if bool_decide (in_tree p q /\ leaves q = false) then None else f !! q.
Proof.
  unfold Os.rm_rf, in_tree. case_bool_decide as Hq.
  - apply map_lookup_filter_None. right. intros x _ [Hn|Hl]; cbn in *.
    + apply Hn, Hq.
    + destruct Hq as [_ Hq]. congruence.
  - destruct (f !! q) as [x|] eqn:E.
    + apply map_lookup_filter_Some. split; [done|]. cbn.
      destruct (leaves q) eqn:Hl; [by right|]. left. intros Hin. by apply Hq.
    + apply map_lookup_filter_None. by left.
Qed.

Section DeleteFull.
Context `{Collaborators}.
Variable settings : Settings.

(** The handler on a path that exists, whatever the delete utility does. *)
Lemma delete_sample_run (sample : string) (w : world) :
  let p := OsPath.join (SLIDE_DIR settings) sample in
  let w2 := add_event (EvSubprocess [RM_LOC settings; "-rf"; p])
              (add_event (EvExists p) w) in
  is_Some (fs w !! p) ->
  delete_sample settings sample w
  = match rm_run w p with
    | RmNotStarted => (inl FileNotFoundError, w2)
    | RmRan leaves output_is_text =>
        (if output_is_text then inr (Response 200 (Message "Samples deleted"))
         else inl UnicodeDecodeError,
         set_fs (Os.rm_rf leaves p (fs w)) w2)
    end.
Proof.
  intros p w2 Hex.
  unfold delete_sample, Os.path_exists, Os.run_rm, log, get_fs, get_world, put_fs; simpl.
  unfold mbind, M_bind, mret, M_ret; simpl. fold p.
  rewrite bool_decide_eq_true_2 by done. simpl.
  destruct (rm_run w p) as [|leaves [|]]; done.
Qed.


(** X20: deleting twice.  After a delete on which the utility ran, the
    same request is answered 404 when the utility removed the path, and 200
    again, with the utility run again, when it left the path. *)
Theorem delete_sample_twice (sample : string) (w : world) (leaves : string -> bool) :
  let p := OsPath.join (SLIDE_DIR settings) sample in
  is_Some (fs w !! p) ->
  rm_run w p = RmRan leaves true ->
  let w1 := (serve (delete_sample settings sample) w).2 in
  (serve (delete_sample settings sample) w1).1
  = if leaves p then Response 200 (Message "Samples deleted")
    else Response 404 (Message "Sample not found").
Proof.
  intros p Hex Hrm w1. unfold w1.
  rewrite (delete_sample_found settings sample w leaves Hex Hrm). cbn [snd]. fold p.
  set (w2 := set_fs _ _).
  assert (Hp : fs w2 !! p = if leaves p then fs w !! p else None).
  { unfold w2. cbn [fs set_fs]. rewrite rm_rf_lookup.
    destruct (leaves p) eqn:Hl.
    - rewrite bool_decide_eq_false_2; [done|]. by intros [_ [=]].
    - rewrite bool_decide_eq_true_2; [done|]. split; [by left|done]. }
  destruct (leaves p) eqn:Hl.
  - unfold serve. rewrite delete_sample_run by (fold p; by rewrite Hp).
    fold p. change (rm_run w2 p) with (rm_run w p). by rewrite Hrm.
  - unfold serve, delete_sample. fold p.
    rewrite (bind_inr _ _ _ _ _ (path_exists_run _ _)).
    rewrite bool_decide_eq_false_2; [done|]. rewrite Hp. apply is_Some_None.
Qed.

(** X21: the slide root does not confine the delete: a sample name that
    starts with a slash is taken as the path itself, whatever [SLIDE_DIR]
    is; if it exists the delete utility is called on it, and it is gone if
    the utility removes it. *)
Theorem delete_sample_absolute_name (sample : string) (w : world) :
  String.prefix "/" sample = true ->
  is_Some (fs w !! sample) ->
  let w' := (serve (delete_sample settings sample) w).2 in
  EvSubprocess [RM_LOC settings; "-rf"; sample] ∈ events_since w w'
  /\ forall leaves output_is_text,
       rm_run w sample = RmRan leaves output_is_text ->
       leaves sample = false ->
       fs w' !! sample = None.
Proof.
  intros Habs Hex w'.
  assert (Hp : OsPath.join (SLIDE_DIR settings) sample = sample).
  { unfold OsPath.join. by rewrite Habs. }
  assert (Hev : forall w2 : world,
            trace w2 = (trace w ++ [EvExists sample])
                       ++ [EvSubprocess [RM_LOC settings; "-rf"; sample]] ->
            EvSubprocess [RM_LOC settings; "-rf"; sample] ∈ events_since w w2).
  { intros w2 Ht. unfold events_since.
    rewrite Ht, <-(assoc_L (++)), drop_app_length.
    apply elem_of_cons; right. by apply elem_of_cons; left. }
  unfold w'. rewrite serve_world, delete_sample_run by (by rewrite Hp).
  rewrite Hp. destruct (rm_run w sample) as [|leaves text]; cbn [snd].
  - split; [by apply Hev|]. by intros leaves text [=].
  - split; [by apply Hev|]. intros leaves' text' [= <- <-] Hl.
    cbn [fs set_fs]. rewrite rm_rf_lookup, bool_decide_eq_true_2; [done|].
    split; [by left|done].
Qed.

End DeleteFull.

(** ** The tile endpoints, in full *)

Section TilesFull.
Context `{Collaborators}.
Variable settings : Settings.

(** X22: a tile request whose dataset opens, whose channel and gain lists
    hold integers only, and whose composite and encoding succeed is answered
    200 with the encoded bytes as [image/jpeg]; the compositor is asked for
    image 0 at the requested level and tile, with the parsed channels, the
    parsed gains as intensities and the colours as split, whatever the
    lengths of the three lists; the world is as before. *)
Theorem get_tile_returns (location chs : string) (rgb : bool)
    (colors gains file : string) (level loc_x loc_y : Z) (w : world)
    (conn : Connector) (channels intensities : list Z) (tile : Raster)
    (img_bytes : list byte) :
  OmeZarrConnector
    (OsPath.join (OsPath.join (SLIDE_DIR settings) location) (file +:+ ".zarr"))
  = Some conn ->
  mapM Py.int (Py.split ";" chs) = Some channels ->
  mapM Py.int (Py.split ";" gains) = Some intensities ->
  get_combined_image conn 0 level channels intensities (Py.split ";" colors) rgb
    loc_x loc_y = Some tile ->
  encode_jpeg tile = Some img_bytes ->
  serve (get_tile settings location chs rgb colors gains file level loc_x loc_y) w
  = (Response 200 (Media "image/jpeg" img_bytes), w).
Proof.
  intros Hconn Hchs Hgains Htile Hjpeg. unfold serve, get_tile.
  rewrite Hconn. cbn [lift]. rewrite (bind_inr (mret conn) _ _ conn _ eq_refl).
  erewrite bind_inr by (rewrite ints_run, Hchs; reflexivity).
  erewrite bind_inr by (rewrite ints_run, Hgains; reflexivity).
  rewrite Htile. cbn [lift]. rewrite (bind_inr (mret tile) _ _ tile _ eq_refl).
  by rewrite Hjpeg.
Qed.
End TilesFull.

Section DeleteTileExamples.
#[local] Existing Instance Demo.collaborators.

Lemma good_dataset_exists :
  is_Some (fs Demo.two_datasets
             !! OsPath.join (SLIDE_DIR default_settings) "public/good.zarr").
Proof. by eexists. Defined.


Lemma delete_sample_twice_witness :
  let p := OsPath.join (SLIDE_DIR default_settings) "public/good.zarr" in
  is_Some (fs Demo.two_datasets !! p)
  /\ rm_run Demo.two_datasets p = RmRan (fun _ => false) true
  /\ let w1 := (serve (delete_sample default_settings "public/good.zarr")
                  Demo.two_datasets).2 in
     (serve (delete_sample default_settings "public/good.zarr") w1).1
     = Response 404 (Message "Sample not found").
Proof.
  intros p. split; [exact good_dataset_exists|]. split; [reflexivity|].
  exact (delete_sample_twice default_settings "public/good.zarr" Demo.two_datasets
           (fun _ => false) good_dataset_exists eq_refl).
Defined.

(** With a utility that removes nothing, the sample is still there and
    the second delete is answered like the first. *)
Example delete_sample_twice_refused :
  let w := with_rm rm_refuses Demo.two_datasets in
  let w1 := (serve (delete_sample default_settings "public/good.zarr") w).2 in
  (serve (delete_sample default_settings "public/good.zarr") w).1
  = Response 200 (Message "Samples deleted")
  /\ fs w1 = fs w
  /\ (serve (delete_sample default_settings "public/good.zarr") w1).1
     = Response 200 (Message "Samples deleted").
Proof. vm_compute. done. Qed.

Lemma scratch_directory_exists : is_Some (fs Demo.ready !! "/tmp").
Proof. by eexists. Defined.

Lemma delete_sample_absolute_name_witness :
  String.prefix "/" "/tmp" = true
  /\ is_Some (fs Demo.ready !! "/tmp")
  /\ let w' := (serve (delete_sample default_settings "/tmp") Demo.ready).2 in
     EvSubprocess [RM_LOC default_settings; "-rf"; "/tmp"] ∈ events_since Demo.ready w'
     /\ forall leaves output_is_text,
          rm_run Demo.ready "/tmp" = RmRan leaves output_is_text ->
          leaves "/tmp" = false ->
          fs w' !! "/tmp" = None.
Proof.
  split; [reflexivity|]. split; [exact scratch_directory_exists|].
  apply (delete_sample_absolute_name default_settings "/tmp" Demo.ready);
    [reflexivity|exact scratch_directory_exists].
Defined.


Lemma get_tile_returns_witness :
  OmeZarrConnector
    (OsPath.join (OsPath.join (SLIDE_DIR default_settings) "public")
       ("slideA" +:+ ".zarr"))
  = Some "/iv-store/public/slideA.zarr"
  /\ mapM Py.int (Py.split ";" "0;1") = Some [0; 1]
  /\ mapM Py.int (Py.split ";" "100;50;25") = Some [100; 50; 25]
  /\ get_combined_image "/iv-store/public/slideA.zarr" 0 3 [0; 1] [100; 50; 25]
       (Py.split ";" "red") true 4 5 = Some tt
  /\ encode_jpeg tt = Some []
  /\ serve (get_tile default_settings "public" "0;1" true "red" "100;50;25" "slideA"
              3 4 5) Demo.ready
     = (Response 200 (Media "image/jpeg" []), Demo.ready).
Proof.
  split; [reflexivity|]. split; [reflexivity|]. split; [reflexivity|].
  split; [reflexivity|]. split; [reflexivity|].
  apply (get_tile_returns (H := Demo.collaborators) default_settings "public" "0;1" true
           "red" "100;50;25" "slideA" 3 4 5 Demo.ready "/iv-store/public/slideA.zarr"
           [0; 1] [100; 50; 25] tt []); reflexivity.
Defined.

End DeleteTileExamples.

(** ** More on the catalog and on single upload requests *)

Lemma substring_append (a b : string) :
  String.substring 0 (String.length a) (a +:+ b) = a.
Proof.
  induction a as [|c a IH]; [by destruct b|].
  change (String c a +:+ b) with (String c (a +:+ b)). cbn. by rewrite IH.
Qed.

Lemma length_append (a b : string) :
  String.length (a +:+ b) = (String.length a + String.length b)%nat.
Proof.
  induction a as [|c a IH]; [done|].
  change (String c a +:+ b) with (String c (a +:+ b)). cbn. by rewrite IH.
Qed.

Section CatalogNames.
Context `{Collaborators}.
Variable settings : Settings.


(** X25: the names the catalog hands out address the datasets it found:
    for a selected entry, the name given to its dataset, with [.zarr] put
    back as the tile endpoints do, is the entry's own name, so the path the
    tile endpoints open is the entry under the location. *)
Theorem catalog_name_addresses_dataset (f : gmap string node) (base_dir location entry : string) :
  selected f base_dir entry = true ->
  Py.drop_last 5 entry +:+ ".zarr" = entry
  /\ OsPath.join (OsPath.join (SLIDE_DIR settings) location)
       (Py.drop_last 5 entry +:+ ".zarr")
     = OsPath.join (OsPath.join (SLIDE_DIR settings) location) entry.
Proof.
  unfold selected. destruct (f !! OsPath.join base_dir entry) as [[c|]|]; [done| |done].
  intros [stem ->]%endswith_spec.
  assert (E : Py.drop_last 5 (stem +:+ ".zarr") = stem).
  { unfold Py.drop_last. rewrite length_append. cbn [String.length].
    replace (String.length stem + 5 - 5)%nat with (String.length stem) by lia.
    apply substring_append. }
  by rewrite E.
Qed.
End CatalogNames.

Section UploadRequests.
Context `{Collaborators}.
Variable settings : Settings.

(** X26: a chunk that is not the last one does one thing: it opens its
    scratch file for writing and leaves the uploaded bytes there, replacing
    what the file held; the answer is "Chunk Uploaded" and everything else
    is as before. *)
Theorem upload_chunk_writes_scratch (file : list byte) (name : string) (k n : Z)
    (w : world) :
  allowed_file_type name = true ->
  k + 1 ≠ n ->
  writable (fs w) (chunk_path settings name k) ->
  exists w',
    serve (upload_file settings file name k n) w
    = (Response 200 (Message "Chunk Uploaded"), w')
    /\ fs w' = <[chunk_path settings name k := File file]> (fs w)
    /\ events_since w w' = [EvOpenW (chunk_path settings name k)].
Proof.
  intros Ha Hk Hw. eexists. unfold serve. rewrite upload_chunk_run by done.
  split_and!; [done..|]. unfold events_since. cbn [trace set_fs add_event].
  by rewrite drop_app_length.
Qed.

(** X27: when the scratch file cannot be opened for writing (the scratch
    directory is missing, or a directory sits at the path), a chunk with an
    accepted name is answered 500, last chunk or not; the file system is as
    before and the completion step is not entered. *)
Theorem upload_unwritable_scratch (file : list byte) (name : string) (k n : Z)
    (w : world) :
  allowed_file_type name = true ->
  ~ writable (fs w) (chunk_path settings name k) ->
  let answer := serve (upload_file settings file name k n) w in
  answer.1 = Response 500 (PlainText "Internal Server Error")
  /\ fs answer.2 = fs w
  /\ ~ completion_started settings w answer.2.
Proof.
  intros Ha Hw answer. subst answer. unfold serve.
  rewrite upload_file_allowed by done.
  destruct (scratch_write_fails (chunk_path settings name k) file
              (if k + 1 =? n then completion settings name n
               else mret (Response 200 (Message "Chunk Uploaded"))) w Hw)
    as (e & He & ->).
  split_and!; [by destruct e|by destruct e|].
  unfold completion_started.
  assert (Hw' : (let (s0, w') := (inl e, add_event
                    (EvOpenW (chunk_path settings name k)) w) in
                 match s0 with
                 | inl (HTTPException s d) => (Response s (Detail d), w')
                 | inr r => (r, w')
                 | _ => (Response 500 (PlainText "Internal Server Error"), w')
                 end).2 = add_event (EvOpenW (chunk_path settings name k)) w).
  { by destruct e. }
  rewrite Hw', events_since_add_event. by intros [=]%list_elem_of_singleton.
Qed.
End UploadRequests.

Section MoreExamples.
#[local] Existing Instance Demo.collaborators.

Lemma catalog_name_addresses_dataset_witness :
  selected (fs Demo.two_datasets) "/iv-store/public" "good.zarr" = true
  /\ Py.drop_last 5 "good.zarr" +:+ ".zarr" = "good.zarr"
  /\ OsPath.join (OsPath.join (SLIDE_DIR default_settings) "public")
       (Py.drop_last 5 "good.zarr" +:+ ".zarr")
     = OsPath.join (OsPath.join (SLIDE_DIR default_settings) "public") "good.zarr".
Proof.
  split; [reflexivity|].
  apply (catalog_name_addresses_dataset default_settings (fs Demo.two_datasets)
           "/iv-store/public" "public" "good.zarr"). reflexivity.
Defined.

Lemma upload_chunk_writes_scratch_witness :
  allowed_file_type "slide.svs" = true
  /\ 0 + 1 ≠ 3
  /\ writable (fs Demo.staging) (chunk_path default_settings "slide.svs" 0)
  /\ exists w',
       serve (upload_file default_settings [x01] "slide.svs" 0 3) Demo.staging
       = (Response 200 (Message "Chunk Uploaded"), w')
       /\ fs w' = <[chunk_path default_settings "slide.svs" 0 := File [x01]]>
                    (fs Demo.staging)
       /\ events_since Demo.staging w'
          = [EvOpenW (chunk_path default_settings "slide.svs" 0)].
Proof.
  assert (Hw : writable (fs Demo.staging) (chunk_path default_settings "slide.svs" 0)).
  { split; [vm_compute; discriminate|reflexivity]. }
  split; [reflexivity|]. split; [lia|]. split; [exact Hw|].
  apply (upload_chunk_writes_scratch default_settings [x01] "slide.svs" 0 3 Demo.staging);
    [reflexivity|lia|exact Hw].
Defined.

(** A world without a scratch directory. *)
Lemma no_scratch_directory :
  ~ writable (fs Demo.two_datasets) (chunk_path default_settings "slide.svs" 0).
Proof. intros [_ Hpar]. vm_compute in Hpar. discriminate. Defined.

Lemma upload_unwritable_scratch_witness :
  allowed_file_type "slide.svs" = true
  /\ ~ writable (fs Demo.two_datasets) (chunk_path default_settings "slide.svs" 0)
  /\ let answer := serve (upload_file default_settings [x01] "slide.svs" 0 1)
                     Demo.two_datasets in
     answer.1 = Response 500 (PlainText "Internal Server Error")
     /\ fs answer.2 = fs Demo.two_datasets
     /\ ~ completion_started default_settings Demo.two_datasets answer.2.
Proof.
  split; [reflexivity|]. split; [exact no_scratch_directory|].
  apply (upload_unwritable_scratch default_settings [x01] "slide.svs" 0 1
           Demo.two_datasets); [reflexivity|exact no_scratch_directory].
Defined.

End MoreExamples.
